(** * The extension registry of emesene (mesinyer/extension.py)

    A shallow embedding of the module [extension]: the conformance check
    [is_implementation], the class [Category] and the module-level registry
    functions working on the global table [_categories].

    Python objects are modelled first-order.  Mutation of a [Category] and of
    the registry is explicit state passing in a small state-and-exception
    monad in which the state survives a raised exception, as attribute
    assignments done before a [raise] do in Python.  The state carries the
    world around the module as well: the objects alive, the diagnostics
    written and the working directory of the process, which
    [os.path.abspath] reads each time an identifier is computed. *)

From stdpp Require Import gmap strings list fin_maps.

Open Scope string_scope.

(** ** Python values *)

(** What [sys.modules[cls.__module__].__file__] evaluates to: the file of
    the module that defines the object, or the step that fails.  The
    object may have no attribute [__module__] ([AttributeError], with a
    message that names the type of the object), the module named may be
    missing from [sys.modules] ([KeyError]), and the module may have no
    attribute [__file__], as the built-in modules ([AttributeError]). *)
Inductive module_file :=
| File (path : string)
| NoModuleAttribute (message : string)
| NoSuchModule (module : string)
| NoFileAttribute.

(** What [cls.__name__] evaluates to: the name, or [AttributeError] with
    its message for an object without that attribute. *)
Inductive name_attribute :=
| Named (n : string)
| Nameless (message : string).

(** An object handed to the module where it expects a class.  The module
    never asks whether the object is a class: the record holds what the
    module observes of it.  [cls_oid] is the object's identity: two
    objects are the same dictionary key exactly when they are the same
    object (the objects are hashed by identity, as classes and functions
    are).  [cls_file] is what [sys.modules[cls.__module__].__file__]
    evaluates to, [cls_name] is what [cls.__name__] evaluates to,
    [cls_repr] is what [str(cls)] gives,
    [cls_dir] is the listing [dir(cls)], [cls_attrs] are the names [n] for
    which [hasattr(cls, n)] holds and [cls_truth] is the truth value of
    the object ([true] for a class, unless its metaclass says otherwise). *)
Record Cls := MkCls {
  cls_oid : nat;
  cls_file : module_file;
  cls_name : name_attribute;
  cls_repr : string;
  cls_dir : list string;
  cls_attrs : list string;
  cls_truth : bool;
}.

(** What the registry is handed as an extension, a system default or an
    interface: [None], or any other object ([PCls]), a class or not. *)
Inductive pyval :=
| PNone
| PCls (c : Cls).

(** Dictionary keys occurring in the module: strings (identifiers and
    category names) and the values above. *)
Inductive key :=
| KStr (s : string)
| KVal (v : pyval).

#[global] Instance module_file_eq_dec : EqDecision module_file.
Proof. solve_decision. Defined.

#[global] Instance module_file_countable : Countable module_file.
Proof.
  refine (inj_countable'
    (fun f => match f with
              | File p => inl p
              | NoModuleAttribute m => inr (inl m)
              | NoSuchModule m => inr (inr (inl m))
              | NoFileAttribute => inr (inr (inr tt))
              end)
    (fun x => match x with
              | inl p => File p
              | inr (inl m) => NoModuleAttribute m
              | inr (inr (inl m)) => NoSuchModule m
              | inr (inr (inr _)) => NoFileAttribute
              end) _).
  by intros [].
Defined.

#[global] Instance name_attribute_eq_dec : EqDecision name_attribute.
Proof. solve_decision. Defined.

#[global] Instance name_attribute_countable : Countable name_attribute.
Proof.
  refine (inj_countable'
    (fun a => match a with Named n => inl n | Nameless m => inr m end)
    (fun x => match x with inl n => Named n | inr m => Nameless m end) _).
  by intros [].
Defined.

#[global] Instance Cls_eq_dec : EqDecision Cls.
Proof. solve_decision. Defined.

#[global] Instance Cls_countable : Countable Cls.
Proof.
  refine (inj_countable'
    (fun c => (cls_oid c, cls_file c, cls_name c, cls_repr c, cls_dir c, cls_attrs c,
               cls_truth c))
    (fun t => match t with (o, f, n, r, d, a, b) => MkCls o f n r d a b end) _).
  by intros [].
Defined.

#[global] Instance pyval_eq_dec : EqDecision pyval.
Proof. solve_decision. Defined.

#[global] Instance pyval_countable : Countable pyval.
Proof.
  refine (inj_countable'
    (fun v => match v with PNone => None | PCls c => Some c end)
    (fun o => match o with None => PNone | Some c => PCls c end) _).
  by intros [].
Defined.

#[global] Instance key_eq_dec : EqDecision key.
Proof. solve_decision. Defined.

#[global] Instance key_countable : Countable key.
Proof.
  refine (inj_countable'
    (fun k => match k with KStr s => inl s | KVal v => inr v end)
    (fun x => match x with inl s => KStr s | inr v => KVal v end) _).
  by intros [].
Defined.

(** An instance produced by calling a class: its identity, the class and
    the constructor arguments it was built from, its truth value (what
    [__nonzero__] or [__len__] make of it; [true] for a class defining
    neither), and whether [weakref.ref] accepts it (it does not accept an
    instance of a class with [__slots__] and no slot [__weakref__], nor of
    a subclass of [int], [str], [tuple] or [list] made that way). *)
Record Obj := MkObj {
  obj_oid : nat;
  obj_cls : Cls;
  obj_args : list pyval;
  obj_truth : bool;
  obj_weakref : bool;
}.

#[global] Instance Obj_eq_dec : EqDecision Obj.
Proof. solve_decision. Defined.

(** Exceptions raised by the module or passing through it.  [CtorError]
    stands for an exception of the host's own, derived from [Exception].
    [SystemExit] and [KeyboardInterrupt] derive from [BaseException] only,
    and [OldStyle] is a raised instance of an old-style class. *)
Inductive exn :=
| ValueError (msg : string)
| KeyError (k : key)
| AttributeError (msg : string)
| TypeError (msg : string)
| CtorError (msg : string)
| SystemExit (code : string)
| KeyboardInterrupt
| OldStyle (cls : string).

(** Whether [except Exception] catches the exception. *)
Definition is_exception (e : exn) : bool :=
  match e with
  | SystemExit _ | KeyboardInterrupt | OldStyle _ => false
  | _ => true
  end.

Inductive res (A : Type) : Type :=
| Ok (a : A)
| Raise (e : exn).
Arguments Ok {A} a.
Arguments Raise {A} e.

(** ** Truth values, as tested by [if] and [not] *)

Class Truthy (A : Type) := truth : A -> bool.

#[global] Instance truthy_unit : Truthy unit := fun _ => false.
#[global] Instance truthy_bool : Truthy bool := fun b => b.
#[global] Instance truthy_pyval : Truthy pyval :=
  fun v => match v with PNone => false | PCls c => cls_truth c end.
#[global] Instance truthy_obj : Truthy Obj := obj_truth.
#[global] Instance truthy_option {A} `{Truthy A} : Truthy (option A) :=
  fun o => match o with None => false | Some a => truth a end.
#[global] Instance truthy_list {A} : Truthy (list A) :=
  fun l => match l with [] => false | _ :: _ => true end.

(** ** Strings *)

Definition startswith (s p : string) : bool := String.prefix p s.

Definition endswith (s suf : string) : bool :=
  (String.length suf <=? String.length s)%nat
  && String.eqb (String.substring (String.length s - String.length suf)
                                  (String.length suf) s) suf.

(** [s[:-1]] *)
Definition drop_last (s : string) : string :=
  String.substring 0 (String.length s - 1) s.

(** ** Builtins on the modelled values *)

(** [dir(None)] of Python 2. *)
Definition dir_None : list string :=
  [ "__class__"; "__delattr__"; "__doc__"; "__format__"; "__getattribute__";
    "__hash__"; "__init__"; "__new__"; "__reduce__"; "__reduce_ex__";
    "__repr__"; "__setattr__"; "__sizeof__"; "__str__"; "__subclasshook__" ].

Definition dir (v : pyval) : list string :=
  match v with
  | PNone => dir_None
  | PCls c => cls_dir c
  end.

Definition hasattr (v : pyval) (n : string) : bool :=
  match v with
  | PNone => bool_decide (n ∈ dir_None)
  | PCls c => bool_decide (n ∈ cls_attrs c)
  end.

Definition str (v : pyval) : string :=
  match v with
  | PNone => "None"
  | PCls c => cls_repr c
  end.

Definition str_key (k : key) : string :=
  match k with
  | KStr s => s
  | KVal v => str v
  end.

(** ** is_implementation *)

Definition public (attribute : string) : bool := negb (startswith attribute "_").

Definition is_implementation (cls interface_cls : pyval) : bool :=
  forallb (hasattr cls) (List.filter public (dir interface_cls)).

(** ** State and exceptions *)

(** A computation over a mutable state [S]: it ends with a value or a
    raised exception, and in both cases with the state it left behind. *)
Definition M (S A : Type) : Type := S -> res A * S.

Definition ret {S A} (a : A) : M S A := fun s => (Ok a, s).

Definition bind {S A B} (m : M S A) (f : A -> M S B) : M S B :=
  fun s =>
    match m s with
    | (Ok a, s') => f a s'
    | (Raise e, s') => (Raise e, s')
    end.

Definition raise {S A} (e : exn) : M S A := fun s => (Raise e, s).

Definition gets {S A} (f : S -> A) : M S A := fun s => (Ok (f s), s).

Definition modify {S} (f : S -> S) : M S unit := fun s => (Ok tt, f s).

Definition lift_res {S A} (r : res A) : M S A := fun s => (r, s).

Declare Scope py_scope.
Delimit Scope py_scope with py.
Notation "x <- m ;; k" := (bind m (fun x => k))
  (at level 100, m at next level, right associativity) : py_scope.
Notation "m ;; k" := (bind m (fun _ => k))
  (at level 100, right associativity) : py_scope.
Open Scope py_scope.

(** [for x in l: body(x)] *)
Fixpoint for_each {S X} (l : list X) (body : X -> M S unit) : M S unit :=
  match l with
  | [] => ret tt
  | x :: l' => body x ;; for_each l' body
  end.

(** [d[k]] and [del d[k]] on a dictionary. *)
Definition getitem {V} (d : gmap key V) (k : key) : res V :=
  match d !! k with
  | Some v => Ok v
  | None => Raise (KeyError k)
  end.

Definition delitem {V} (d : gmap key V) (k : key) : res (gmap key V) :=
  match d !! k with
  | Some _ => Ok (delete k d)
  | None => Raise (KeyError k)
  end.

(** [d.values()] *)
Definition values {K V} `{Countable K} (d : gmap K V) : list V := (map_to_list d).*2.

(** ** The world outside the registry *)

(** [w_next] is the identity the next constructed object gets, [w_live] are
    the objects some strong reference still holds, [w_log] is what [dbg]
    has written (message and debug category), [w_cwd] is the working
    directory of the process. *)
Record World := MkWorld {
  w_next : nat;
  w_live : gset nat;
  w_log : list (string * string);
  w_cwd : string;
}.

(** Modelled from the spec: [dbg] of module [debugger] is not part of the
    sources; it emits a diagnostic and has no other effect. *)
Definition dbg_world (message category : string) (w : World) : World :=
  {| w_next := w_next w; w_live := w_live w;
     w_log := w_log w ++ [(message, category)]; w_cwd := w_cwd w |}.

(** The world after an instance was made and handed to a caller. *)
Definition allocated (w : World) : World :=
  MkWorld (S (w_next w)) ({[ w_next w ]} ∪ w_live w) (w_log w) (w_cwd w).

(** The world after the last strong reference to an object went away. *)
Definition forgotten (oid : nat) (w : World) : World :=
  MkWorld (w_next w) (w_live w ∖ {[ oid ]}) (w_log w) (w_cwd w).

(** The world after [os.chdir(d)]. *)
Definition moved (d : string) (w : World) : World :=
  MkWorld (w_next w) (w_live w) (w_log w) d.

(** ** Category *)

Record Category := MkCategory {
  name : string;
  (** [None] when the attribute was never assigned *)
  system_default : option pyval;
  interfaces : list pyval;
  (** id: class *)
  classes : gmap key pyval;
  (** class: id *)
  ids : gmap pyval string;
  is_single : bool;
  (** [None], or a weak reference to the saved instance *)
  instance : option Obj;
  default_id : option string;
}.

Record St := MkSt { self : Category; world : World }.

(** Attribute assignments [self.x = v]. *)
Definition set_interfaces (v : list pyval) (c : Category) : Category :=
  MkCategory (name c) (system_default c) v (classes c) (ids c)
             (is_single c) (instance c) (default_id c).
Definition set_classes (v : gmap key pyval) (c : Category) : Category :=
  MkCategory (name c) (system_default c) (interfaces c) v (ids c)
             (is_single c) (instance c) (default_id c).
Definition set_ids (v : gmap pyval string) (c : Category) : Category :=
  MkCategory (name c) (system_default c) (interfaces c) (classes c) v
             (is_single c) (instance c) (default_id c).
Definition set_instance (v : option Obj) (c : Category) : Category :=
  MkCategory (name c) (system_default c) (interfaces c) (classes c) (ids c)
             (is_single c) v (default_id c).
Definition set_default_id (v : option string) (c : Category) : Category :=
  MkCategory (name c) (system_default c) (interfaces c) (classes c) (ids c)
             (is_single c) (instance c) v.

Definition on_self (f : Category -> Category) : M St unit :=
  modify (fun s => MkSt (f (self s)) (world s)).

Definition attr {A} (f : Category -> A) : M St A := gets (fun s => f (self s)).

(** [os.getcwd()] *)
Definition getcwd (s : St) : string := w_cwd (world s).

Definition release (oid : nat) (s : St) : St :=
  MkSt (self s) (forgotten oid (world s)).

Definition chdir (d : string) (s : St) : St :=
  MkSt (self s) (moved d (world s)).

(** [dbg(message, category)] *)
Definition dbg (message category : string) : M St unit :=
  modify (fun s => MkSt (self s) (dbg_world message category (world s))).

(** The fan-out proxy, at its boundary: the mapping it wraps. *)
Record MultipleObjects := MkMultipleObjects { objects : gmap key pyval }.

(** The key a value of [default_id] is when used as a subscript. *)
Definition id_key (i : option string) : key :=
  match i with
  | None => KVal PNone
  | Some s => KStr s
  end.

Section get_class_name.

(** [os.path.abspath]: its result depends on the working directory of the
    process at the time of the call, which is its first argument here. *)
Variable abspath : string -> string -> string.

(** [cwd] is the working directory at the time of the call. *)
Definition _get_class_name (cwd : string) (cls : pyval) : res string :=
  match cls with
  | PNone => Raise (AttributeError "'NoneType' object has no attribute '__module__'")
  | PCls c =>
      match cls_file c with
      | File file =>
          let path := abspath cwd file in
          let path := if endswith path ".pyc" then drop_last path else path in
          match cls_name c with
          | Named n => Ok (path +:+ ":" +:+ n)
          | Nameless message => Raise (AttributeError message)
          end
      | NoModuleAttribute message => Raise (AttributeError message)
      | NoSuchModule m => Raise (KeyError (KStr m))
      | NoFileAttribute =>
          Raise (AttributeError "'module' object has no attribute '__file__'")
      end
  end.

End get_class_name.

Arguments _get_class_name : simpl never.

Module Category.
Section methods.

Variable abspath : string -> string -> string.

(** Calling an object with arguments: [Ok (t, r)] when the call returns a
    new instance, of truth value [t], that accepts weak references when
    [r] is true; [Raise e] when the call raises [e]. *)
Variable construct : Cls -> list pyval -> res (bool * bool).

(** The loop of [register] over the required interfaces. *)
Definition agree (cls : pyval) (l : list pyval) : M St unit :=
  for_each l (fun interface =>
    if negb (is_implementation cls interface)
    then raise (ValueError ("cls doesn't agree to the interface: " +:+ str interface))
    else ret tt).

Definition register (cls : pyval) : M St unit :=
  ifs <- attr interfaces ;;
  agree cls ifs ;;
  cwd <- gets getcwd ;;
  class_name <- lift_res (_get_class_name abspath cwd cls) ;;
  on_self (fun c => set_classes (<[KStr class_name := cls]> (classes c)) c) ;;
  on_self (fun c => set_ids (<[cls := class_name]> (ids c)) c).

(** The classes appended to [to_remove], in the order of the two loops. *)
Definition failing (cs : list pyval) (ifs : list pyval) : list pyval :=
  flat_map (fun cls =>
    flat_map (fun interface =>
      if negb (is_implementation cls interface) then [cls] else []) ifs) cs.

(** [del self.classes[cls]]: the subscript is the class itself. *)
Definition del_class (cls : pyval) : M St unit :=
  d <- attr classes ;;
  d' <- lift_res (delitem d (KVal cls)) ;;
  on_self (set_classes d').

Definition set_interface (new_interfaces : list pyval) : M St bool :=
  cur <- attr interfaces ;;
  if negb (truth cur) then
    on_self (set_interfaces new_interfaces) ;;
    cs <- attr classes ;;
    ifs <- attr interfaces ;;
    for_each (failing (values cs) ifs) del_class ;;
    ret true
  else ret false.

Definition get_extensions : M St (gmap key pyval) := attr classes.

Definition _set_default (cls : pyval) : M St unit :=
  known <- attr ids ;;
  (if bool_decide (known !! cls = None) then register cls else ret tt) ;;
  cwd <- gets getcwd ;;
  id <- lift_res (_get_class_name abspath cwd cls) ;;
  cur <- attr default_id ;;
  if bool_decide (cur ≠ Some id) then
    on_self (set_default_id (Some id)) ;;
    on_self (set_instance None)
  else ret tt.

Definition _get_default : M St pyval :=
  d <- attr classes ;;
  i <- attr default_id ;;
  lift_res (getitem d (id_key i)).

(** [__init__] runs on the object being created; what it returns here
    is that object. An exception leaves no object behind. *)
Definition __init__ (name : string) (system_default : pyval)
    (interfaces : option (list pyval)) (single_instance : bool)
  : M World Category :=
  fun w =>
    let c0 :=
      {| name := name;
         system_default := if truth system_default then Some system_default else None;
         interfaces := match interfaces with None => [] | Some l => l end;
         classes := ∅;
         ids := ∅;
         is_single := single_instance;
         instance := None;
         default_id := None |} in
    match _set_default system_default (MkSt c0 w) with
    | (Ok _, s) => (Ok (self s), world s)
    | (Raise e, s) => (Raise e, world s)
    end.

(** A weak reference is true whatever became of its referent; calling it
    gives the referent while some strong reference holds it. *)
Definition get_instance : M St (option Obj) :=
  ref <- attr instance ;;
  match ref with
  | Some o =>
      live <- gets (fun s => w_live (world s)) ;;
      ret (if bool_decide (obj_oid o ∈ live) then Some o else None)
  | None => ret None
  end.

(** Calling [cls] with the arguments given; the local variable [inst]
    holds the new instance. *)
Definition call (cls : pyval) (args : list pyval) : M St Obj :=
  match cls with
  | PNone => raise (TypeError "'NoneType' object is not callable")
  | PCls c =>
      made <- lift_res (construct c args) ;;
      n <- gets (fun s => w_next (world s)) ;;
      modify (fun s => MkSt (self s) (allocated (world s))) ;;
      ret (MkObj n c args (fst made) (snd made))
  end.

(** The name of the type of an instance, taken to be the class called. *)
Definition type_name (inst : Obj) : string :=
  match cls_name (obj_cls inst) with
  | Named n => n
  | Nameless _ => "instance"
  end.

(** [weakref.ref(inst)]: [TypeError] for an instance that does not accept
    weak references.  The exception leaves [get_and_instantiate], whose
    local variable held the only reference to the instance. *)
Definition weakref_ref (inst : Obj) : M St Obj :=
  if obj_weakref inst then ret inst
  else
    modify (release (obj_oid inst)) ;;
    raise (TypeError ("cannot create weak reference to '"
                      +:+ type_name inst +:+ "' object")).

Definition get_and_instantiate (args : list pyval) : M St (option Obj) :=
  saved <- get_instance ;;
  if truth saved then get_instance
  else
    cls <- _get_default ;;
    inst <- call cls args ;;
    single <- attr is_single ;;
    if single then
      ref <- weakref_ref inst ;;
      on_self (set_instance (Some ref)) ;;
      ret (Some inst)
    else ret (Some inst).

Definition set_default_by_id (id_ : key) : M St unit :=
  d <- attr classes ;;
  if bool_decide (d !! id_ = None) then
    n <- attr name ;;
    dbg ("extension id " +:+ str_key id_ +:+ " not registered on " +:+ n) "extension"
  else
    cls <- lift_res (getitem d id_) ;;
    _set_default cls.

Definition use : M St MultipleObjects :=
  single <- attr is_single ;;
  if single then
    i <- attr default_id ;;
    cls <- _get_default ;;
    ret (MkMultipleObjects {[ id_key i := cls ]})
  else
    d <- get_extensions ;;
    ret (MkMultipleObjects d).

End methods.
End Category.

(** ** The registry *)

(** The module's global table [_categories], with the world around it.
    A category is reached through the table only, so a method run on a
    category is written back under its name. *)
Record Registry := MkRegistry {
  _categories : gmap string Category;
  reg_world : World;
}.

(** What [category_register] is given as [interfaces]: something [iter]
    accepts, or a single object it does not. *)
Inductive interfaces_arg :=
| Iterable (l : list pyval)
| Single (v : pyval).

Section registry.

Variable abspath : string -> string -> string.
Variable construct : Cls -> list pyval -> res (bool * bool).

(** Running a method of the category stored under [category_name]. *)
Definition on_category {A} (category_name : string) (category : Category)
    (m : M St A) : M Registry A :=
  fun g =>
    match m (MkSt category (reg_world g)) with
    | (r, s) =>
        (r, MkRegistry (<[category_name := self s]> (_categories g)) (world s))
    end.

Definition get_category (category_name : string) : M Registry (option Category) :=
  gets (fun g => _categories g !! category_name).

Definition get_categories : M Registry (gmap string Category) :=
  gets _categories.

Definition category_register (category : string) (system_default : pyval)
    (interfaces : interfaces_arg) (single_instance : bool) : M Registry unit :=
  let interfaces :=
    match interfaces with
    | Iterable l => l
    | Single v => [v]
    end in
  known <- gets _categories ;;
  match known !! category with
  | None =>
      fun g =>
        match Category.__init__ abspath category system_default
                (Some interfaces) single_instance (reg_world g) with
        | (Ok c, w) => (Ok tt, MkRegistry (<[category := c]> (_categories g)) w)
        | (Raise e, w) => (Raise e, MkRegistry (_categories g) w)
        end
  | Some c =>
      on_category category c (Category.set_interface interfaces) ;;
      ret tt
  end.

(** The result is [None] (Python's) or a boolean. *)
Definition register (category_name : string) (cls : pyval) : M Registry (option bool) :=
  category <- get_category category_name ;;
  match category with
  | None =>
      category_register category_name cls (Iterable []) false ;;
      ret None
  | Some c =>
      on_category category_name c (Category.register abspath cls) ;;
      ret (Some true)
  end.

Definition get_extensions (category_name : string)
  : M Registry (option (gmap key pyval)) :=
  category <- get_category category_name ;;
  match category with
  | Some c => d <- on_category category_name c Category.get_extensions ;; ret (Some d)
  | None => ret None
  end.

Definition get_default (category_name : string) : M Registry pyval :=
  category <- get_category category_name ;;
  match category with
  | Some c => on_category category_name c Category._get_default
  | None => ret PNone
  end.

Definition get_instance (category_name : string) : M Registry (option Obj) :=
  category <- get_category category_name ;;
  match category with
  | Some c => on_category category_name c Category.get_instance
  | None => ret None
  end.

Definition get_and_instantiate (category_name : string) (args : list pyval)
  : M Registry (option Obj) :=
  category <- get_category category_name ;;
  match category with
  | Some c => on_category category_name c (Category.get_and_instantiate construct args)
  | None => ret None
  end.

Definition set_default (category_name : string) (cls : pyval) : M Registry bool :=
  category <- get_category category_name ;;
  match category with
  | Some c =>
      on_category category_name c (Category._set_default abspath cls) ;;
      ret true
  | None => ret false
  end.

Definition set_default_by_id (category_name : string) (id_ : key) : M Registry bool :=
  category <- get_category category_name ;;
  match category with
  | Some c =>
      on_category category_name c (Category.set_default_by_id abspath id_) ;;
      ret true
  | None => ret false
  end.

Definition get_system_default (category_name : string) : M Registry pyval :=
  category <- get_category category_name ;;
  match category with
  | Some c =>
      match system_default c with
      | Some v => ret v
      | None => raise (AttributeError "'Category' object has no attribute 'system_default'")
      end
  | None => ret PNone
  end.

End registry.

(** ** Histories of a category *)

(** The calls a host can make on a category, and what happens around it:
    [Release], the last strong reference to an object goes away, and
    [Chdir], the process changes its working directory. *)
Inductive op :=
| Register (cls : pyval)
| SetInterface (new_interfaces : list pyval)
| GetExtensions
| SetDefault (cls : pyval)
| GetDefault
| GetInstance
| GetAndInstantiate (args : list pyval)
| SetDefaultById (id_ : key)
| Use
| Release (oid : nat)
| Chdir (d : string).

(** The state a call leaves, whether it returned or raised. *)
Definition after {A} (m : M St A) (s : St) : St := snd (m s).

Section histories.

Variable abspath : string -> string -> string.
Variable construct : Cls -> list pyval -> res (bool * bool).

Definition exec (o : op) (s : St) : St :=
  match o with
  | Register cls => after (Category.register abspath cls) s
  | SetInterface l => after (Category.set_interface l) s
  | GetExtensions => after Category.get_extensions s
  | SetDefault cls => after (Category._set_default abspath cls) s
  | GetDefault => after Category._get_default s
  | GetInstance => after Category.get_instance s
  | GetAndInstantiate args => after (Category.get_and_instantiate construct args) s
  | SetDefaultById id_ => after (Category.set_default_by_id abspath id_) s
  | Use => after Category.use s
  | Release oid => release oid s
  | Chdir d => chdir d s
  end.

Definition run (ops : list op) (s : St) : St :=
  fold_left (fun s o => exec o s) ops s.

(** The categories a program can hold: created by the constructor, then
    used through the calls above. *)
Inductive reachable : St -> Prop :=
| reachable_init name system_default interfaces single_instance w c w' :
    Category.__init__ abspath name system_default interfaces single_instance w
      = (Ok c, w') ->
    reachable (MkSt c w')
| reachable_exec s o :
    reachable s -> reachable (exec o s).

(** The same, while the working directory is left alone. *)
Inductive steady : St -> Prop :=
| steady_init name system_default interfaces single_instance w c w' :
    Category.__init__ abspath name system_default interfaces single_instance w
      = (Ok c, w') ->
    steady (MkSt c w')
| steady_exec s o :
    steady s -> (forall d, o <> Chdir d) -> steady (exec o s).

(** Every key of [classes] is a string, and the object under it is a key
    of [ids]. *)
Definition keyed (c : Category) : Prop :=
  forall k v, classes c !! k = Some v ->
    (exists i, k = KStr i) /\ is_Some (ids c !! v).

(** Every entry of [classes] sits under the identifier its object has in
    the working directory [cwd], and the object is a key of [ids]. *)
Definition consistent (cwd : string) (c : Category) : Prop :=
  forall k v, classes c !! k = Some v ->
    exists i, k = KStr i /\ _get_class_name abspath cwd v = Ok i /\ ids c !! v = Some i.

End histories.

(** ** Sample classes *)

Module Sample.

(** An extension with a method [encode], defined in a compiled module. *)
Definition Codec : Cls :=
  MkCls 1 (File "/ext/codec.pyc") (Named "Codec") "<class 'codec.Codec'>"
        ["__doc__"; "__init__"; "__module__"; "encode"]
        ["__doc__"; "__init__"; "__module__"; "encode"] true.

(** An extension without [encode]. *)
Definition Plain : Cls :=
  MkCls 2 (File "/ext/plain.py") (Named "Plain") "<class 'plain.Plain'>"
        ["__doc__"; "__module__"; "show"]
        ["__doc__"; "__module__"; "show"] true.

(** An extension that is a container: a new instance is empty, hence
    false. *)
Definition Roster : Cls :=
  MkCls 3 (File "/ext/roster.py") (Named "Roster") "<class 'roster.Roster'>"
        ["__doc__"; "__len__"; "__module__"; "add"]
        ["__doc__"; "__len__"; "__module__"; "add"] true.

(** The interface requiring [encode]. *)
Definition IEncode : Cls :=
  MkCls 4 (File "/ext/iface.py") (Named "IEncode") "<class 'iface.IEncode'>"
        ["__doc__"; "__init__"; "__module__"; "encode"]
        ["__doc__"; "__init__"; "__module__"; "encode"] true.

(** A path that starts with a slash is absolute already; any other path is
    joined to the working directory. *)
Definition abspath (cwd p : string) : string :=
  if startswith p "/" then p else cwd +:+ "/" +:+ p.

(** Constructors return an instance that accepts weak references; only a
    [Roster] is false when new. *)
Definition construct (c : Cls) (args : list pyval) : res (bool * bool) :=
  Ok (negb (bool_decide (c = Roster)), true).

Definition w0 : World := MkWorld 0 ∅ [] "/home/user".

Definition blank (n : string) (single : bool) : Category :=
  MkCategory n None [] ∅ ∅ single None None.

(** [Category(n, sd, ifs, single)], when it does not raise. *)
Definition new (n : string) (sd : pyval) (ifs : list pyval) (single : bool) : Category :=
  match Category.__init__ abspath n sd (Some ifs) single w0 with
  | (Ok c, _) => c
  | (Raise _, _) => blank n single
  end.

End Sample.

(** ** Invariants of a category in use *)

Section soundness.

Variable abspath : string -> string -> string.

(** The working directory in which the identifiers are read. *)
Variable cwd : string.

(** Every key of [ids] is an object stored with the identifier it has in
    [cwd], and that identifier is a key of [classes]. *)
Definition indexed (c : Category) : Prop :=
  forall v i, ids c !! v = Some i ->
    _get_class_name abspath cwd v = Ok i /\ is_Some (classes c !! KStr i).

(** A default is selected and it is a key of [classes]. *)
Definition selected (c : Category) : Prop :=
  exists i, default_id c = Some i /\ is_Some (classes c !! KStr i).

Definition sound (c : Category) : Prop :=
  consistent abspath cwd c /\ indexed c /\ selected c.

End soundness.

(** ** Histories of the registry *)

(** The calls of the module-level functions, and [ChangeDirectory]: the
    process changes its working directory between two of them. *)
Inductive request :=
| CategoryRegister (category : string) (system_default : pyval)
    (interfaces : interfaces_arg) (single_instance : bool)
| RegisterExtension (category_name : string) (cls : pyval)
| GetCategory (category_name : string)
| GetCategories
| GetExtensionsOf (category_name : string)
| GetDefaultOf (category_name : string)
| GetInstanceOf (category_name : string)
| GetAndInstantiateOf (category_name : string) (args : list pyval)
| SetDefaultOf (category_name : string) (cls : pyval)
| SetDefaultByIdOf (category_name : string) (id_ : key)
| GetSystemDefaultOf (category_name : string)
| ChangeDirectory (d : string).

(** The category a call addresses. *)
Definition target (r : request) : option string :=
  match r with
  | CategoryRegister n _ _ _ => Some n
  | RegisterExtension n _ => Some n
  | GetCategory n => Some n
  | GetCategories => None
  | GetExtensionsOf n => Some n
  | GetDefaultOf n => Some n
  | GetInstanceOf n => Some n
  | GetAndInstantiateOf n _ => Some n
  | SetDefaultOf n _ => Some n
  | SetDefaultByIdOf n _ => Some n
  | GetSystemDefaultOf n => Some n
  | ChangeDirectory _ => None
  end.

Section serving.

Variable abspath : string -> string -> string.
Variable construct : Cls -> list pyval -> res (bool * bool).

(** The registry a call leaves, whether it returned or raised. *)
Definition serve (r : request) (g : Registry) : Registry :=
  match r with
  | CategoryRegister n sd ifs single => snd (category_register abspath n sd ifs single g)
  | RegisterExtension n cls => snd (register abspath n cls g)
  | GetCategory n => snd (get_category n g)
  | GetCategories => snd (get_categories g)
  | GetExtensionsOf n => snd (get_extensions n g)
  | GetDefaultOf n => snd (get_default n g)
  | GetInstanceOf n => snd (get_instance n g)
  | GetAndInstantiateOf n args => snd (get_and_instantiate construct n args g)
  | SetDefaultOf n cls => snd (set_default abspath n cls g)
  | SetDefaultByIdOf n id_ => snd (set_default_by_id abspath n id_ g)
  | GetSystemDefaultOf n => snd (get_system_default n g)
  | ChangeDirectory d => MkRegistry (_categories g) (moved d (reg_world g))
  end.

Definition serve_all (rs : list request) (g : Registry) : Registry :=
  fold_left (fun g r => serve r g) rs g.

(** Every category of the registry is sound in the working directory of
    the process, and stored under its name. *)
Definition tidy (g : Registry) : Prop :=
  forall n c, _categories g !! n = Some c ->
    sound abspath (w_cwd (reg_world g)) c /\ name c = n.

End serving.

(** ** More sample classes *)

Module Fixture.

(** A second class object with the file and the name of [Sample.Plain],
    as a module loaded twice defines. *)
Definition Plain2 : Cls :=
  MkCls 5 (File "/ext/plain.py") (Named "Plain") "<class 'plain.Plain'>"
        ["__doc__"; "__module__"; "show"]
        ["__doc__"; "__module__"; "show"] true.

(** The class [Sample.Codec], from the source file of its module. *)
Definition CodecSource : Cls :=
  MkCls 1 (File "/ext/codec.py") (Named "Codec") "<class 'codec.Codec'>"
        ["__doc__"; "__init__"; "__module__"; "encode"]
        ["__doc__"; "__init__"; "__module__"; "encode"] true.


(** A class of a built-in module, as [int]: the module has no [__file__]. *)
Definition Builtin : Cls :=
  MkCls 7 NoFileAttribute (Named "int") "<type 'int'>"
        ["__doc__"; "__new__"; "real"]
        ["__doc__"; "__new__"; "real"] true.

(** A class that is false in a boolean test: its metaclass defines
    [__len__], which returns 0. *)
Definition Hollow : Cls :=
  MkCls 8 (File "/ext/hollow.py") (Named "Hollow") "<class 'hollow.Hollow'>"
        ["__doc__"; "__module__"]
        ["__doc__"; "__len__"; "__module__"] false.

(** The exceptions [print] was given, in the order of the calls. *)
Definition printed (e : exn) : M (list exn) unit := fun out => (Ok tt, (out ++ [e])%list).

(** [getattr] on the sample objects. *)
Definition getattr_ (obj : pyval) (attr : string) : M (list exn) pyval :=
  fun out =>
    (if hasattr obj attr then Ok obj
     else Raise (AttributeError ("object has no attribute '" +:+ attr +:+ "'")), out).

(** A single-instance category with [Sample.Plain] as system default, and
    the multi-instance one. *)
Definition storage : St :=
  MkSt (Sample.new "storage" (PCls Sample.Plain) [] true) Sample.w0.

Definition icons : St :=
  MkSt (Sample.new "icons" (PCls Sample.Plain) [] false) Sample.w0.

(** A category that requires [Sample.IEncode]. *)
Definition codec : St :=
  MkSt (Sample.new "codec" (PCls Sample.Codec) [PCls Sample.IEncode] false) Sample.w0.

(** A category without interfaces that holds [Sample.Codec]. *)
Definition open_codec : St :=
  MkSt (Sample.new "codec" (PCls Sample.Codec) [] false) Sample.w0.

End Fixture.

(** ** MultipleObjects *)

(** The proxy forwards an operation to every object of a mapping.  The
    objects are whatever the host put there, so the class is modelled over
    any type [V] of objects and any state [S] the operations work on; what
    [getattr], subscription, item assignment and calls do to an object is
    given from outside, as is [print]. *)
Module MultipleObjects.
Section methods.

Variables S V : Type.

(** [print e]: it writes [str(e)] to the standard output, and raises what
    either of the two raises. *)
Variable print_ : exn -> M S unit.

(** [getattr(obj, attr)], [obj[key]], [obj[key] = value] and the call of
    [obj] with arguments. *)
Variable getattr_ : V -> string -> M S V.
Variable getitem_ : V -> V -> M S V.
Variable setitem_ : V -> V -> V -> M S unit.
Variable call_ : V -> list V -> M S V.

Record t := Mk { objects : gmap key V }.

Definition get_result (self : t) : gmap key V := objects self.

(** Iterating over the proxy iterates over the dictionary: its keys. *)
Definition __iter__ (self : t) : list key := (map_to_list (objects self)).*1.

(** [try: body except Exception, e: print e]: an exception that does not
    derive from [Exception] is not caught, and what [print] raises leaves
    the handler. *)
Definition try_print {A} (body : M S A) : M S (option A) :=
  fun s =>
    match body s with
    | (Ok a, s') => (Ok (Some a), s')
    | (Raise e, s') =>
        if is_exception e then
          match print_ e s' with
          | (Ok _, s'') => (Ok None, s'')
          | (Raise e', s'') => (Raise e', s'')
          end
        else (Raise e, s')
    end.

(** One turn of the loops that build [result]: the operation in [try],
    with the assignment to [result[name]] when it returned. *)
Definition attempt (op : V -> M S V) (name : key) (obj : V) (result : gmap key V)
  : M S (gmap key V) :=
  r <- try_print (op obj) ;;
  match r with
  | Some r => ret (<[name := r]> result)
  | None => ret result
  end.

(** The loop over [self.objects.items()]. *)
Fixpoint each_item (op : V -> M S V) (items : list (key * V)) (result : gmap key V)
  : M S (gmap key V) :=
  match items with
  | [] => ret result
  | (name, obj) :: rest =>
      result' <- attempt op name obj result ;;
      each_item op rest result'
  end.

Definition fan_out (op : V -> M S V) (self : t) : M S t :=
  result <- each_item op (map_to_list (objects self)) ∅ ;;
  ret (Mk result).

Definition __getattr__ (self : t) (attr : string) : M S t :=
  fan_out (fun obj => getattr_ obj attr) self.





End methods.
End MultipleObjects.

(** * Properties *)

(** ** Conformance *)

Lemma public_startswith (m : string) :
  public m = true <-> startswith m "_" = false.
Proof. unfold public. by destruct (startswith m "_"). Qed.

Lemma is_implementation_true (cls interface_cls : pyval) :
  is_implementation cls interface_cls = true <->
  forall m, m ∈ dir interface_cls -> startswith m "_" = false -> hasattr cls m = true.
Proof.
  unfold is_implementation. rewrite forallb_forall. split.
  - intros H m Hm Hpub. apply H, filter_In. split.
    + by apply list_elem_of_In.
    + by apply public_startswith.
  - intros H m [Hm Hpub]%filter_In. apply H.
    + by apply list_elem_of_In.
    + by apply public_startswith.
Qed.

(** C9: [is_implementation(cls, interface_cls)] is true exactly when [cls]
    has an attribute for every name of [dir(interface_cls)] that does not
    start with an underscore.  In particular it is true for every [cls]
    when the interface is [None] and when the interface declares no public
    name.  The check is a total function to [bool] of its two arguments: it
    reads no state, changes none and has no exceptional result. *)
Theorem is_implementation_conforms (cls interface_cls : pyval) :
  (is_implementation cls interface_cls = true <->
     forall m, m ∈ dir interface_cls -> startswith m "_" = false ->
               hasattr cls m = true)
  /\ is_implementation cls PNone = true
  /\ (List.filter public (dir interface_cls) = [] ->
      is_implementation cls interface_cls = true).
Proof.
  split; [apply is_implementation_true |]. split.
  - reflexivity.
  - intros Hnone. unfold is_implementation. by rewrite Hnone.
Qed.

Lemma is_implementation_conforms_witness :
  is_implementation (PCls Sample.Codec) (PCls Sample.IEncode) = true
  /\ is_implementation (PCls Sample.Plain) (PCls Sample.IEncode) = false
  /\ is_implementation (PCls Sample.Plain) PNone = true.
Proof.
  split; [| split].
  - destruct (is_implementation_conforms (PCls Sample.Codec) (PCls Sample.IEncode))
      as [Hiff _].
    apply Hiff. intros m Hm Hpub. simpl in Hm.
    set_unfold. destruct Hm as [-> | [-> | [-> | [-> | []]]]]; by vm_compute.
  - reflexivity.
  - destruct (is_implementation_conforms (PCls Sample.Plain) PNone) as (_ & Hnone & _).
    exact Hnone.
Defined.

(** ** Registration *)

Section registration.

Variable abspath : string -> string -> string.

Lemma agree_ok (cls : pyval) (l : list pyval) (s : St) :
  (forall i, i ∈ l -> is_implementation cls i = true) ->
  Category.agree cls l s = (Ok tt, s).
Proof.
  induction l as [| i l IH]; intros Hall; [done |].
  unfold Category.agree in *. simpl. unfold bind at 1.
  rewrite (Hall i) by apply list_elem_of_here. simpl. unfold ret at 1.
  apply IH. intros j Hj. by apply Hall, list_elem_of_further.
Qed.

Lemma agree_raises (cls : pyval) (l : list pyval) (s : St) :
  (exists i, i ∈ l /\ is_implementation cls i = false) ->
  exists i, i ∈ l /\ is_implementation cls i = false /\
    Category.agree cls l s =
      (Raise (ValueError ("cls doesn't agree to the interface: " +:+ str i)), s).
Proof.
  induction l as [| j l IH]; intros (i & Hi & Hno).
  { by apply elem_of_nil in Hi. }
  destruct (is_implementation cls j) eqn:Hj.
  - destruct IH as (i' & Hi' & Hno' & Hrun).
    { exists i. split; [| done].
      apply elem_of_cons in Hi as [-> | Hi]; [congruence | done]. }
    exists i'. split; [by apply list_elem_of_further |]. split; [done |].
    unfold Category.agree in *. simpl. unfold bind at 1. rewrite Hj. simpl.
    by unfold ret at 1.
  - exists j. split; [apply list_elem_of_here |]. split; [done |].
    unfold Category.agree. simpl. unfold bind at 1. by rewrite Hj.
Qed.

(** The loop changes nothing, whether it ends or raises. *)
Lemma agree_state (cls : pyval) (l : list pyval) (s : St) r s1 :
  Category.agree cls l s = (r, s1) -> s1 = s.
Proof.
  destruct (decide (Forall (fun i => is_implementation cls i = true) l))
    as [Hall | Hno].
  - rewrite agree_ok by (by apply Forall_forall). congruence.
  - apply not_Forall_Exists, Exists_exists in Hno; [| apply _].
    destruct (agree_raises cls l s) as (i & _ & _ & ->); [| congruence].
    destruct Hno as (i & Hi & Hno). exists i. split; [done |].
    by apply not_true_is_false.
Qed.

Lemma getcwd_MkSt (c : Category) (w : World) : getcwd (MkSt c w) = w_cwd w.
Proof. done. Qed.

Lemma register_unfold (cls : pyval) (s : St) :
  Category.register abspath cls s =
    match Category.agree cls (interfaces (self s)) s with
    | (Ok _, s1) =>
        match _get_class_name abspath (getcwd s1) cls with
        | Ok class_name =>
            (Ok tt,
             MkSt (set_ids (<[cls := class_name]> (ids (self s1)))
                     (set_classes (<[KStr class_name := cls]> (classes (self s1)))
                        (self s1)))
                  (world s1))
        | Raise e => (Raise e, s1)
        end
    | (Raise e, s1) => (Raise e, s1)
    end.
Proof.
  unfold Category.register, bind, attr, gets, lift_res, on_self, modify. simpl.
  destruct (Category.agree _ _ s) as [[[] | e] s1]; [| done].
  by destruct (_get_class_name abspath (getcwd s1) cls).
Qed.

Lemma register_ok (cls : pyval) (s : St) (i : string) :
  (forall j, j ∈ interfaces (self s) -> is_implementation cls j = true) ->
  _get_class_name abspath (getcwd s) cls = Ok i ->
  Category.register abspath cls s =
    (Ok tt,
     MkSt (set_ids (<[cls := i]> (ids (self s)))
             (set_classes (<[KStr i := cls]> (classes (self s))) (self s)))
          (world s)).
Proof.
  intros Hall Hid. rewrite register_unfold, agree_ok by done. by rewrite Hid.
Qed.

Lemma register_raises (cls : pyval) (s : St) e s' :
  Category.register abspath cls s = (Raise e, s') -> s' = s.
Proof.
  rewrite register_unfold.
  destruct (Category.agree cls (interfaces (self s)) s) as [[[] | e'] s1] eqn:Hag;
    apply agree_state in Hag as ->.
  - destruct (_get_class_name abspath (getcwd s) cls); congruence.
  - congruence.
Qed.

(** C5: when [cls] fails one of the interfaces the category requires,
    [register] raises [ValueError] with a message naming an interface of
    the category that [cls] fails, and the category (its table of
    classes and every other attribute) and the world are as before. *)
Theorem register_nonconforming_raises (s : St) (cls : pyval) :
  (exists i, i ∈ interfaces (self s) /\ is_implementation cls i = false) ->
  exists i, i ∈ interfaces (self s) /\ is_implementation cls i = false /\
    Category.register abspath cls s =
      (Raise (ValueError ("cls doesn't agree to the interface: " +:+ str i)), s).
Proof.
  intros Hno. destruct (agree_raises cls _ s Hno) as (i & Hi & Hfail & Hrun).
  exists i. split; [done |]. split; [done |].
  by rewrite register_unfold, Hrun.
Qed.

End registration.

Lemma register_nonconforming_raises_witness :
  exists i, i ∈ [PCls Sample.IEncode]
    /\ is_implementation (PCls Sample.Plain) i = false
    /\ Category.register Sample.abspath (PCls Sample.Plain)
         (MkSt (Sample.new "codec" (PCls Sample.Codec) [PCls Sample.IEncode] false)
               Sample.w0)
       = (Raise (ValueError ("cls doesn't agree to the interface: " +:+ str i)),
          MkSt (Sample.new "codec" (PCls Sample.Codec) [PCls Sample.IEncode] false)
               Sample.w0).
Proof.
  apply (register_nonconforming_raises Sample.abspath
           (MkSt (Sample.new "codec" (PCls Sample.Codec) [PCls Sample.IEncode] false)
                 Sample.w0)
           (PCls Sample.Plain)).
  exists (PCls Sample.IEncode). split; [| reflexivity].
  vm_compute. apply list_elem_of_here.
Defined.

(** ** Selecting the default *)

Section default.

Variable abspath : string -> string -> string.

Lemma _set_default_unfold (cls : pyval) (s : St) :
  Category._set_default abspath cls s =
    match (if bool_decide (ids (self s) !! cls = None)
           then Category.register abspath cls else ret tt) s with
    | (Ok _, s1) =>
        match _get_class_name abspath (getcwd s1) cls with
        | Ok i =>
            if bool_decide (default_id (self s1) ≠ Some i)
            then (Ok tt, MkSt (set_instance None (set_default_id (Some i) (self s1)))
                              (world s1))
            else (Ok tt, s1)
        | Raise e => (Raise e, s1)
        end
    | (Raise e, s1) => (Raise e, s1)
    end.
Proof.
  unfold Category._set_default, bind, attr, gets, lift_res. simpl.
  destruct ((if bool_decide (ids (self s) !! cls = None)
             then Category.register abspath cls else ret tt) s)
    as [[[] | e] s1]; [| done].
  destruct (_get_class_name abspath (getcwd s1) cls) as [i | e]; [| done].
  by destruct (bool_decide (default_id (self s1) ≠ Some i)).
Qed.

(** Selecting the class whose identifier is the default already keeps
    [default_id] and the saved instance, even when the call raises. *)
Lemma _set_default_same_default (cls : pyval) (s : St) (i : string) :
  _get_class_name abspath (getcwd s) cls = Ok i ->
  default_id (self s) = Some i ->
  default_id (self (after (Category._set_default abspath cls) s)) = Some i
  /\ instance (self (after (Category._set_default abspath cls) s))
     = instance (self s).
Proof.
  intros Hid Hcur. unfold after. rewrite _set_default_unfold.
  destruct (bool_decide (ids (self s) !! cls = None)).
  - rewrite register_unfold.
    destruct (Category.agree cls (interfaces (self s)) s) as [[[] | e] s1] eqn:Hag;
      apply agree_state in Hag as ->; [| done].
    rewrite Hid, getcwd_MkSt. fold (getcwd s). rewrite Hid.
    cbn [self default_id set_ids set_classes]. rewrite Hcur.
    by rewrite bool_decide_eq_false_2 by (by intros []).
  - unfold ret. rewrite Hid, Hcur.
    by rewrite bool_decide_eq_false_2 by (by intros []).
Qed.

(** The constructor, on a system default that has an identifier and meets
    the interfaces asked for. *)
Lemma __init___class (n : string) (sd : pyval) (ifs : option (list pyval))
    (single : bool) (w : World) (i : string) :
  _get_class_name abspath (w_cwd w) sd = Ok i ->
  (forall j, j ∈ default [] ifs -> is_implementation sd j = true) ->
  Category.__init__ abspath n sd ifs single w =
    (Ok {| name := n;
           system_default := if truth sd then Some sd else None;
           interfaces := default [] ifs;
           classes := {[ KStr i := sd ]};
           ids := {[ sd := i ]};
           is_single := single;
           instance := None;
           default_id := Some i |}, w).
Proof.
  intros Hid Hall. unfold Category.__init__.
  rewrite _set_default_unfold.
  rewrite bool_decide_eq_true_2 by done.
  rewrite (register_ok abspath _ _ i) by (done || by destruct ifs).
  rewrite getcwd_MkSt. cbn [world]. rewrite Hid.
  rewrite bool_decide_eq_true_2 by done.
  unfold set_instance, set_default_id, set_ids, set_classes. cbn.
  rewrite !insert_empty. by destruct ifs.
Qed.

End default.

(** ** Creating a category *)

(** C4, as the constructor has it: for every name, every set of interfaces
    and every mode, creating a category succeeds when the system default
    has an identifier (its module has a file), is true in a boolean test
    and meets the interfaces; it is stored verbatim as system default, it
    is registered under its identifier as the only entry of the table, that
    identifier is the default ([default_id] is set, not none), and no
    instance is saved. *)
Theorem init_selects_system_default (abspath : string -> string -> string)
    (n : string) (sd : pyval) (ifs : option (list pyval)) (single : bool)
    (w : World) (i : string) :
  _get_class_name abspath (w_cwd w) sd = Ok i ->
  truth sd = true ->
  (forall j, j ∈ default [] ifs -> is_implementation sd j = true) ->
  exists cat,
    Category.__init__ abspath n sd ifs single w = (Ok cat, w)
    /\ name cat = n
    /\ system_default cat = Some sd
    /\ interfaces cat = default [] ifs
    /\ classes cat = {[ KStr i := sd ]}
    /\ is_single cat = single
    /\ default_id cat = Some i
    /\ instance cat = None.
Proof.
  intros Hid Htrue Hall.
  eexists. split; [by apply (__init___class abspath n sd ifs single w i) |].
  cbn. by rewrite Htrue.
Qed.

Lemma init_selects_system_default_witness :
  exists cat,
    Category.__init__ Sample.abspath "codec" (PCls Sample.Codec)
      (Some [PCls Sample.IEncode]) true Sample.w0 = (Ok cat, Sample.w0)
    /\ name cat = "codec"
    /\ system_default cat = Some (PCls Sample.Codec)
    /\ interfaces cat = [PCls Sample.IEncode]
    /\ classes cat = {[ KStr "/ext/codec.py:Codec" := PCls Sample.Codec ]}
    /\ is_single cat = true
    /\ default_id cat = Some "/ext/codec.py:Codec"
    /\ instance cat = None.
Proof.
  apply (init_selects_system_default Sample.abspath "codec" (PCls Sample.Codec)
           (Some [PCls Sample.IEncode]) true Sample.w0 "/ext/codec.py:Codec").
  - reflexivity.
  - reflexivity.
  - intros j Hj. apply list_elem_of_singleton in Hj as ->. reflexivity.
Defined.

(** C4, as stated, fails: with no system default the constructor raises;
    with a class as system default the new category has a default selected;
    with a class of a built-in module, which has no file, the constructor
    raises as well; and a system default that is false in a boolean test is
    registered and selected but not stored as system default. *)
Lemma init_default_id_unset_fails :
  ~ (exists cat w,
       Category.__init__ Sample.abspath "storage" PNone None false Sample.w0
         = (Ok cat, w))
  /\ ~ (exists cat w,
          Category.__init__ Sample.abspath "storage" (PCls Sample.Plain) None false
            Sample.w0 = (Ok cat, w)
          /\ system_default cat = Some (PCls Sample.Plain)
          /\ default_id cat = None
          /\ instance cat = None)
  /\ Category.__init__ Sample.abspath "storage" (PCls Fixture.Builtin) None false
       Sample.w0
     = (Raise (AttributeError "'module' object has no attribute '__file__'"),
        Sample.w0)
  /\ exists cat,
       Category.__init__ Sample.abspath "storage" (PCls Fixture.Hollow) None false
         Sample.w0 = (Ok cat, Sample.w0)
       /\ system_default cat = None
       /\ default_id cat = Some "/ext/hollow.py:Hollow".
Proof.
  split; [| split; [| split]].
  - intros (cat & w & H). vm_compute in H. discriminate H.
  - intros (cat & w & H & _ & Hd & _).
    rewrite (__init___class Sample.abspath _ _ _ _ _ "/ext/plain.py:Plain") in H;
      [| reflexivity | intros j Hj; by apply elem_of_nil in Hj].
    injection H as <- _. discriminate Hd.
  - by vm_compute.
  - eexists. split.
    { apply (__init___class Sample.abspath _ _ _ _ _ "/ext/hollow.py:Hollow");
        [reflexivity | intros j Hj; by apply elem_of_nil in Hj]. }
    split; reflexivity.
Qed.

(** ** The registry *)

Section registry_facts.

Variable abspath : string -> string -> string.

Lemma category_register_new (n : string) (sd : pyval) (ifs : list pyval)
    (single : bool) (g : Registry) (i : string) :
  _categories g !! n = None ->
  _get_class_name abspath (w_cwd (reg_world g)) sd = Ok i ->
  (forall j, j ∈ ifs -> is_implementation sd j = true) ->
  category_register abspath n sd (Iterable ifs) single g =
    (Ok tt,
     MkRegistry
       (<[n := {| name := n;
                  system_default := if truth sd then Some sd else None;
                  interfaces := ifs;
                  classes := {[ KStr i := sd ]};
                  ids := {[ sd := i ]};
                  is_single := single;
                  instance := None;
                  default_id := Some i |}]> (_categories g))
       (reg_world g)).
Proof.
  intros Hnew Hid Hall. unfold category_register, bind, gets. cbn.
  rewrite Hnew. by rewrite (__init___class abspath n sd (Some ifs) single _ i).
Qed.

Lemma register_new (n : string) (cls : pyval) (g : Registry) (i : string) :
  _categories g !! n = None ->
  _get_class_name abspath (w_cwd (reg_world g)) cls = Ok i ->
  register abspath n cls g =
    (Ok None,
     MkRegistry
       (<[n := {| name := n;
                  system_default := if truth cls then Some cls else None;
                  interfaces := [];
                  classes := {[ KStr i := cls ]};
                  ids := {[ cls := i ]};
                  is_single := false;
                  instance := None;
                  default_id := Some i |}]> (_categories g))
       (reg_world g)).
Proof.
  intros Hnew Hid. unfold register, bind at 1, get_category, gets. cbn.
  rewrite Hnew. unfold bind.
  rewrite (category_register_new n cls [] false g i); [done | done | done |].
  intros j Hj. by apply elem_of_nil in Hj.
Qed.

(** On a category that exists, [register] answers [True] whenever it
    returns. *)
Lemma register_existing (n : string) (cls : pyval) (g : Registry) cat r g' :
  _categories g !! n = Some cat ->
  register abspath n cls g = (Ok r, g') ->
  r = Some true.
Proof.
  intros Hcat. unfold register, bind at 1, get_category, gets. cbn.
  rewrite Hcat. unfold bind, ret.
  destruct (on_category n cat (Category.register abspath cls) g) as [[[] | e] g1];
    congruence.
Qed.

(** C2, as the code has it: registering, under a name the registry has
    never seen, an implementation that has an identifier (its module has a
    file) and is true in a boolean test creates the category with the
    implementation stored as system default and registered as an
    extension, and the implementation is the selected default at once:
    [default_id] is its identifier and [get_default] returns it, with no
    call of [set_default]. *)
Theorem register_creates_category_with_default (g : Registry) (n : string)
    (cls : pyval) (i : string) :
  _categories g !! n = None ->
  _get_class_name abspath (w_cwd (reg_world g)) cls = Ok i ->
  truth cls = true ->
  exists cat g',
    register abspath n cls g = (Ok None, g')
    /\ _categories g' !! n = Some cat
    /\ system_default cat = Some cls
    /\ fst (get_system_default n g') = Ok cls
    /\ classes cat !! KStr i = Some cls
    /\ default_id cat = Some i
    /\ fst (get_default n g') = Ok cls.
Proof.
  intros Hnew Hid Htrue.
  eexists _, _.
  split; [by apply register_new |].
  split; [cbn; by rewrite lookup_insert_eq |].
  split; [cbn; by rewrite Htrue |].
  split.
  { unfold get_system_default, bind, get_category, gets. cbn.
    rewrite lookup_insert_eq. cbn. by rewrite Htrue. }
  split; [cbn; by rewrite lookup_singleton_eq |].
  split; [done |].
  unfold get_default, bind, get_category, gets. cbn.
  rewrite lookup_insert_eq. unfold on_category, Category._get_default, bind, attr,
    gets, lift_res, getitem. cbn. by rewrite lookup_singleton_eq.
Qed.

(** C10, as the code has it: for a name absent from the registry and an
    implementation that has an identifier (its module has a file),
    [register] creates the category, handing the implementation to the
    constructor as system default, and returns [None], which is false,
    whereas on a category that exists it returns [True] whenever it
    returns. *)
Theorem register_new_category_returns_none (g : Registry) (n : string)
    (cls : pyval) (i : string) :
  _categories g !! n = None ->
  _get_class_name abspath (w_cwd (reg_world g)) cls = Ok i ->
  exists cat,
    Category.__init__ abspath n cls (Some []) false (reg_world g)
      = (Ok cat, reg_world g)
    /\ classes cat !! KStr i = Some cls
    /\ register abspath n cls g
       = (Ok None, MkRegistry (<[n := cat]> (_categories g)) (reg_world g))
    /\ truth (None : option bool) = false
    /\ forall g0 cat0 cls0 r g1,
         _categories g0 !! n = Some cat0 ->
         register abspath n cls0 g0 = (Ok r, g1) ->
         r = Some true /\ truth r = true.
Proof.
  intros Hnew Hid.
  eexists. split.
  { apply (__init___class abspath n cls (Some []) false _ i); [done |].
    intros j Hj. by apply elem_of_nil in Hj. }
  split; [cbn; by rewrite lookup_singleton_eq |].
  split; [by apply register_new |]. split; [done |].
  intros g0 cat0 cls0 r g1 Hcat Hrun.
  by rewrite (register_existing n cls0 g0 cat0 r g1 Hcat Hrun).
Qed.

End registry_facts.

Lemma register_creates_category_with_default_witness :
  exists cat g',
    register Sample.abspath "new_cat" (PCls Sample.Plain) (MkRegistry ∅ Sample.w0)
      = (Ok None, g')
    /\ _categories g' !! "new_cat" = Some cat
    /\ system_default cat = Some (PCls Sample.Plain)
    /\ fst (get_system_default "new_cat" g') = Ok (PCls Sample.Plain)
    /\ classes cat !! KStr "/ext/plain.py:Plain" = Some (PCls Sample.Plain)
    /\ default_id cat = Some "/ext/plain.py:Plain"
    /\ fst (get_default "new_cat" g') = Ok (PCls Sample.Plain).
Proof.
  apply (register_creates_category_with_default Sample.abspath
           (MkRegistry ∅ Sample.w0) "new_cat" (PCls Sample.Plain)
           "/ext/plain.py:Plain"); reflexivity.
Defined.

(** C2, as stated, fails: after the implicit creation the default is
    resolved and [default_id] is set, with no call of [set_default]; for a
    class of a built-in module, which has no file, [register] raises and
    creates no category; and a class that is false in a boolean test is
    not stored as system default: asking for it raises. *)
Lemma register_new_category_default_unset_fails :
  let g' := snd (register Sample.abspath "new_cat" (PCls Sample.Plain)
                   (MkRegistry ∅ Sample.w0)) in
  fst (get_default "new_cat" g') = Ok (PCls Sample.Plain)
  /\ ~ (exists cat, _categories g' !! "new_cat" = Some cat /\ default_id cat = None)
  /\ fst (register Sample.abspath "new_cat" (PCls Fixture.Builtin)
            (MkRegistry ∅ Sample.w0))
     = Raise (AttributeError "'module' object has no attribute '__file__'")
  /\ _categories (snd (register Sample.abspath "new_cat" (PCls Fixture.Builtin)
                         (MkRegistry ∅ Sample.w0))) !! "new_cat" = None
  /\ fst (get_system_default "new_cat"
            (snd (register Sample.abspath "new_cat" (PCls Fixture.Hollow)
                    (MkRegistry ∅ Sample.w0))))
     = Raise (AttributeError "'Category' object has no attribute 'system_default'").
Proof.
  cbv zeta.
  rewrite (register_new Sample.abspath "new_cat" (PCls Sample.Plain) _
             "/ext/plain.py:Plain") by reflexivity.
  cbn [snd]. split; [| split; [| split; [| split]]]; [| | | | by vm_compute].
  - unfold get_default, bind, get_category, gets. cbn.
    rewrite lookup_insert_eq. unfold on_category, Category._get_default, bind, attr,
      gets, lift_res, getitem. cbn. by rewrite lookup_singleton_eq.
  - intros (cat & Hcat & Hd). cbn in Hcat. rewrite lookup_insert_eq in Hcat.
    injection Hcat as <-. discriminate Hd.
  - by vm_compute.
  - by vm_compute.
Qed.

Lemma register_new_category_returns_none_witness :
  exists cat,
    Category.__init__ Sample.abspath "new_cat" (PCls Sample.Plain) (Some []) false
      Sample.w0 = (Ok cat, Sample.w0)
    /\ classes cat !! KStr "/ext/plain.py:Plain" = Some (PCls Sample.Plain)
    /\ register Sample.abspath "new_cat" (PCls Sample.Plain) (MkRegistry ∅ Sample.w0)
       = (Ok None, MkRegistry (<[ "new_cat" := cat ]> ∅) Sample.w0)
    /\ truth (None : option bool) = false
    /\ forall g0 cat0 cls0 r g1,
         _categories g0 !! "new_cat" = Some cat0 ->
         register Sample.abspath "new_cat" cls0 g0 = (Ok r, g1) ->
         r = Some true /\ truth r = true.
Proof.
  apply (register_new_category_returns_none Sample.abspath
           (MkRegistry ∅ Sample.w0) "new_cat" (PCls Sample.Plain)
           "/ext/plain.py:Plain"); reflexivity.
Defined.

(** C10, as stated, fails for an implementation without an identifier: for
    a class of a built-in module [register] raises [AttributeError], no
    category is created and the registry is as before. *)
Lemma register_new_category_without_file_fails :
  _categories (MkRegistry ∅ Sample.w0) !! "new_cat" = None
  /\ fst (register Sample.abspath "new_cat" (PCls Fixture.Builtin)
            (MkRegistry ∅ Sample.w0))
     = Raise (AttributeError "'module' object has no attribute '__file__'")
  /\ _categories (snd (register Sample.abspath "new_cat" (PCls Fixture.Builtin)
                         (MkRegistry ∅ Sample.w0))) !! "new_cat" = None.
Proof. by vm_compute. Qed.

(** ** Attaching interfaces *)

Lemma set_interface_unfold (l : list pyval) (s : St) :
  Category.set_interface l s =
    match interfaces (self s) with
    | [] =>
        match for_each (Category.failing (values (classes (self s))) l)
                Category.del_class (MkSt (set_interfaces l (self s)) (world s)) with
        | (Ok _, s') => (Ok true, s')
        | (Raise e, s') => (Raise e, s')
        end
    | _ :: _ => (Ok false, s)
    end.
Proof.
  unfold Category.set_interface, bind at 1, attr at 1, gets.
  destruct s as [c w]. cbn. destruct (interfaces c) eqn:Hifs; [| done]. cbn.
  unfold bind, attr, gets, on_self, modify. cbn.
  by destruct (for_each _ _ _) as [[[] | e] s'].
Qed.

(** A category that has interfaces keeps them, and nothing changes. *)
Lemma set_interface_constrained (l : list pyval) (s : St) :
  interfaces (self s) <> [] -> Category.set_interface l s = (Ok false, s).
Proof.
  intros Hne. rewrite set_interface_unfold. by destruct (interfaces (self s)).
Qed.

(** When every registered class meets the new interfaces they are adopted
    and the table is left as it is. *)
Lemma set_interface_all_conform (l : list pyval) (s : St) :
  interfaces (self s) = [] ->
  Category.failing (values (classes (self s))) l = [] ->
  Category.set_interface l s = (Ok true, MkSt (set_interfaces l (self s)) (world s)).
Proof.
  intros Hifs Hnone. rewrite set_interface_unfold, Hifs, Hnone. done.
Qed.

(** No class is a key of a table whose keys are identifiers, so the first
    deletion raises: the interfaces are adopted, the table is not
    filtered. *)
Lemma set_interface_nonconforming (l : list pyval) (s : St) cls rest :
  interfaces (self s) = [] ->
  (forall v, classes (self s) !! KVal v = None) ->
  Category.failing (values (classes (self s))) l = cls :: rest ->
  Category.set_interface l s =
    (Raise (KeyError (KVal cls)), MkSt (set_interfaces l (self s)) (world s)).
Proof.
  intros Hifs Hkeys Hfail. rewrite set_interface_unfold, Hifs, Hfail.
  cbn. unfold bind at 1, Category.del_class, bind at 1, attr, gets, lift_res, delitem.
  cbn. unfold bind at 1. by rewrite Hkeys.
Qed.

(** C1, on a category without interfaces holding [Codec] and [Plain]:
    attaching the interface [IEncode], which [Plain] fails, does not return
    success.  The call raises [KeyError], with the class [Plain] as the
    missing key; the interfaces are adopted, and [Plain] is still in the
    table. *)
Theorem set_interface_nonconforming_raises :
  let s := after (Category.register Sample.abspath (PCls Sample.Plain))
                 (MkSt (Sample.new "codec" (PCls Sample.Codec) [] false) Sample.w0) in
  interfaces (self s) = []
  /\ classes (self s) !! KStr "/ext/plain.py:Plain" = Some (PCls Sample.Plain)
  /\ is_implementation (PCls Sample.Plain) (PCls Sample.IEncode) = false
  /\ fst (Category.set_interface [PCls Sample.IEncode] s)
     = Raise (KeyError (KVal (PCls Sample.Plain)))
  /\ interfaces (self (after (Category.set_interface [PCls Sample.IEncode]) s))
     = [PCls Sample.IEncode]
  /\ classes (self (after (Category.set_interface [PCls Sample.IEncode]) s))
       !! KStr "/ext/plain.py:Plain" = Some (PCls Sample.Plain).
Proof. cbv zeta. unfold after. by vm_compute. Qed.

(** ** Selecting the default by identifier *)

Section by_id.

Variable abspath : string -> string -> string.

Lemma set_default_by_id_known (id_ : key) (s : St) (cls : pyval) :
  classes (self s) !! id_ = Some cls ->
  Category.set_default_by_id abspath id_ s = Category._set_default abspath cls s.
Proof.
  intros Hk. unfold Category.set_default_by_id, bind at 1, attr at 1, gets.
  rewrite Hk. rewrite bool_decide_eq_false_2 by done.
  unfold bind at 1, lift_res, getitem. by rewrite Hk.
Qed.

Lemma set_default_by_id_unknown (id_ : key) (s : St) :
  classes (self s) !! id_ = None ->
  Category.set_default_by_id abspath id_ s =
    (Ok tt,
     MkSt (self s)
          (dbg_world ("extension id " +:+ str_key id_ +:+ " not registered on "
                      +:+ name (self s)) "extension" (world s))).
Proof.
  intros Hk. unfold Category.set_default_by_id, bind at 1, attr at 1, gets.
  rewrite Hk. by rewrite bool_decide_eq_true_2 by done.
Qed.

(** C3, as the code has it.  On a category, [set_default_by_id] with an
    identifier of the table is [_set_default] on the object stored under
    it; with any other identifier it leaves the category as it was, writes
    one diagnostic and does not raise; in both cases what it returns is
    [None], which is false.  The function of the registry returns [True]
    for an identifier of the table of a category that exists, whenever it
    returns, and [False] when there is no such category. *)
Theorem set_default_by_id_cases (id_ : key) :
  (forall (s : St) cls, classes (self s) !! id_ = Some cls ->
     Category.set_default_by_id abspath id_ s = Category._set_default abspath cls s)
  /\ (forall (s : St), classes (self s) !! id_ = None ->
        exists msg,
          Category.set_default_by_id abspath id_ s
            = (Ok tt, MkSt (self s) (dbg_world msg "extension" (world s))))
  /\ (forall (s : St) r s',
        Category.set_default_by_id abspath id_ s = (Ok r, s') -> truth r = false)
  /\ (forall (g : Registry) n cat cls r g',
        _categories g !! n = Some cat ->
        classes cat !! id_ = Some cls ->
        set_default_by_id abspath n id_ g = (Ok r, g') -> r = true)
  /\ (forall (g : Registry) n,
        _categories g !! n = None ->
        set_default_by_id abspath n id_ g = (Ok false, g)).
Proof.
  split; [intros s cls; apply set_default_by_id_known |].
  split; [intros s Hk; eexists; by apply set_default_by_id_unknown |].
  split; [done |].
  split.
  { intros g n cat cls r g' Hcat _.
    unfold set_default_by_id, bind at 1, get_category, gets.
    rewrite Hcat. unfold bind, ret.
    destruct (on_category n cat _ g) as [[[] | e] g1]; congruence. }
  intros g n Hcat. unfold set_default_by_id, bind at 1, get_category, gets.
  by rewrite Hcat.
Qed.

End by_id.

Lemma set_default_by_id_cases_witness :
  Category.set_default_by_id Sample.abspath (KStr "/ext/plain.py:Plain")
    (MkSt (Sample.new "cat" (PCls Sample.Plain) [] false) Sample.w0)
  = Category._set_default Sample.abspath (PCls Sample.Plain)
      (MkSt (Sample.new "cat" (PCls Sample.Plain) [] false) Sample.w0)
  /\ exists msg,
       Category.set_default_by_id Sample.abspath (KStr "nowhere")
         (MkSt (Sample.new "cat" (PCls Sample.Plain) [] false) Sample.w0)
       = (Ok tt, MkSt (Sample.new "cat" (PCls Sample.Plain) [] false)
                      (dbg_world msg "extension" Sample.w0)).
Proof.
  split.
  - destruct (set_default_by_id_cases Sample.abspath (KStr "/ext/plain.py:Plain"))
      as (Hknown & _).
    apply (Hknown (MkSt (Sample.new "cat" (PCls Sample.Plain) [] false) Sample.w0)).
    by vm_compute.
  - destruct (set_default_by_id_cases Sample.abspath (KStr "nowhere"))
      as (_ & Hunknown & _).
    apply (Hunknown (MkSt (Sample.new "cat" (PCls Sample.Plain) [] false) Sample.w0)).
    by vm_compute.
Defined.

(** C3, as stated, fails on the returned value: on the category a known
    identifier is selected, but the call returns [None], which is false. *)
Lemma set_default_by_id_result_fails :
  classes (Sample.new "cat" (PCls Sample.Plain) [] false)
    !! KStr "/ext/plain.py:Plain" = Some (PCls Sample.Plain)
  /\ fst (Category.set_default_by_id Sample.abspath (KStr "/ext/plain.py:Plain")
            (MkSt (Sample.new "cat" (PCls Sample.Plain) [] false) Sample.w0))
     = Ok tt
  /\ truth tt = false.
Proof. by vm_compute. Qed.

(** ** Reading a category *)

Lemma for_each_invariant {S X} (P : S -> Prop) (body : X -> M S unit)
    (l : list X) (s : S) :
  (forall x s, P s -> P (snd (body x s))) ->
  P s -> P (snd (for_each l body s)).
Proof.
  intros Hbody. revert s. induction l as [| x l IH]; intros s Hs; [done |].
  simpl. unfold bind. specialize (Hbody x s Hs).
  destruct (body x s) as [[[] | e] s1]; [by apply IH | done].
Qed.

Lemma _get_default_run (s : St) :
  Category._get_default s
  = (getitem (classes (self s)) (id_key (default_id (self s))), s).
Proof. done. Qed.

Lemma get_instance_run (s : St) :
  Category.get_instance s
  = (Ok match instance (self s) with
        | Some o => if bool_decide (obj_oid o ∈ w_live (world s)) then Some o else None
        | None => None
        end, s).
Proof.
  unfold Category.get_instance, bind, attr, gets. cbn.
  by destruct (instance (self s)).
Qed.

Lemma use_state (s : St) : after Category.use s = s.
Proof.
  unfold after, Category.use, Category._get_default, Category.get_extensions,
    bind, attr, gets, lift_res, ret. cbn.
  destruct (is_single (self s)); cbn; [| done].
  by destruct (getitem _ _).
Qed.

Section instancing.

Variable construct : Cls -> list pyval -> res (bool * bool).

Lemma get_and_instantiate_unfold (args : list pyval) (s : St) :
  Category.get_and_instantiate construct args s =
    let saved :=
      match instance (self s) with
      | Some o => if bool_decide (obj_oid o ∈ w_live (world s)) then Some o else None
      | None => None
      end in
    if truth saved then (Ok saved, s)
    else
      match getitem (classes (self s)) (id_key (default_id (self s))) with
      | Raise e => (Raise e, s)
      | Ok PNone => (Raise (TypeError "'NoneType' object is not callable"), s)
      | Ok (PCls c) =>
          match construct c args with
          | Raise e => (Raise e, s)
          | Ok (t, r) =>
              let o := MkObj (w_next (world s)) c args t r in
              if is_single (self s) then
                if r then
                  (Ok (Some o),
                   MkSt (set_instance (Some o) (self s)) (allocated (world s)))
                else
                  (Raise (TypeError ("cannot create weak reference to '"
                                     +:+ Category.type_name o +:+ "' object")),
                   MkSt (self s) (forgotten (w_next (world s)) (allocated (world s))))
              else (Ok (Some o), MkSt (self s) (allocated (world s)))
          end
      end.
Proof.
  cbv zeta. unfold Category.get_and_instantiate, bind at 1.
  rewrite get_instance_run.
  destruct (truth _) eqn:Htruth; [by rewrite get_instance_run |].
  unfold bind at 1. rewrite _get_default_run.
  destruct (getitem _ _) as [[| c] | e]; [done | | done].
  unfold bind at 1, Category.call, bind at 1, lift_res.
  destruct (construct c args) as [[t r] | e]; [| done].
  unfold Category.weakref_ref, bind, gets, modify, attr, gets, on_self, modify,
    ret, raise, release. cbn.
  destruct (is_single (self s)); [| done]. by destruct r.
Qed.

(** A call of [get_and_instantiate] leaves the category as it was or
    saves an instance, and does not touch the working directory. *)
Lemma get_and_instantiate_after (args : list pyval) (s : St) :
  (self (after (Category.get_and_instantiate construct args) s) = self s
   \/ exists o, is_single (self s) = true
                /\ self (after (Category.get_and_instantiate construct args) s)
                   = set_instance (Some o) (self s))
  /\ getcwd (after (Category.get_and_instantiate construct args) s) = getcwd s.
Proof.
  unfold after. rewrite get_and_instantiate_unfold. cbv zeta.
  destruct (truth _); [by auto |].
  destruct (getitem _ _) as [[| c] | e]; [by auto | | by auto].
  destruct (construct c args) as [[t r] | e]; [| by auto].
  destruct (is_single (self s)) eqn:Hm; [| by auto].
  destruct r; [| by auto]. split; [| done]. right. by eexists.
Qed.

End instancing.

(** ** What the calls leave untouched *)

Section frames.

Variable abspath : string -> string -> string.
Variable construct : Cls -> list pyval -> res (bool * bool).

Lemma register_frame (cls : pyval) (s : St) :
  is_single (self (after (Category.register abspath cls) s)) = is_single (self s)
  /\ instance (self (after (Category.register abspath cls) s)) = instance (self s)
  /\ default_id (self (after (Category.register abspath cls) s))
     = default_id (self s).
Proof.
  unfold after. rewrite register_unfold.
  destruct (Category.agree cls (interfaces (self s)) s) as [[[] | e] s1] eqn:Hag;
    apply agree_state in Hag as ->; [| done].
  by destruct (_get_class_name abspath _ cls).
Qed.

Lemma del_class_frame (cls : pyval) (s : St) :
  is_single (self (after (Category.del_class cls) s)) = is_single (self s)
  /\ instance (self (after (Category.del_class cls) s)) = instance (self s)
  /\ ids (self (after (Category.del_class cls) s)) = ids (self s)
  /\ classes (self (after (Category.del_class cls) s)) ⊆ classes (self s).
Proof.
  unfold after, Category.del_class, bind, attr, gets, lift_res, delitem, on_self,
    modify. cbn.
  destruct (classes (self s) !! KVal cls); cbn; [| done].
  repeat split; try done. apply delete_subseteq.
Qed.

Lemma set_interface_frame (l : list pyval) (s : St) :
  is_single (self (after (Category.set_interface l) s)) = is_single (self s)
  /\ instance (self (after (Category.set_interface l) s)) = instance (self s)
  /\ ids (self (after (Category.set_interface l) s)) = ids (self s)
  /\ classes (self (after (Category.set_interface l) s)) ⊆ classes (self s).
Proof.
  unfold after. rewrite set_interface_unfold.
  destruct (interfaces (self s)); [| done].
  pose proof (for_each_invariant
    (fun s' : St => is_single (self s') = is_single (self s)
                    /\ instance (self s') = instance (self s)
                    /\ ids (self s') = ids (self s)
                    /\ classes (self s') ⊆ classes (self s))
    Category.del_class
    (Category.failing (values (classes (self s))) l)
    (MkSt (set_interfaces l (self s)) (world s))) as Hloop.
  destruct (for_each _ _ _) as [[[] | e] s']; apply Hloop; try done;
    intros cls s1 (H1 & H2 & H3 & H4);
    destruct (del_class_frame cls s1) as (F1 & F2 & F3 & F4); unfold after in *;
    rewrite F1, F2, F3; repeat split; try done; by etrans.
Qed.

Lemma _set_default_frame (cls : pyval) (s : St) :
  is_single (self (after (Category._set_default abspath cls) s)) = is_single (self s)
  /\ (instance (self (after (Category._set_default abspath cls) s)) = instance (self s)
      \/ instance (self (after (Category._set_default abspath cls) s)) = None).
Proof.
  unfold after. rewrite _set_default_unfold.
  destruct (register_frame cls s) as (F1 & F2 & _). unfold after in F1, F2.
  destruct (bool_decide (ids (self s) !! cls = None)).
  - destruct (Category.register abspath cls s) as [[[] | e] s1]; cbn in *.
    + destruct (_get_class_name abspath _ cls); cbn; [| by auto].
      destruct (bool_decide _); cbn; by auto.
    + by auto.
  - unfold ret. destruct (_get_class_name abspath _ cls); cbn; [| by auto].
    destruct (bool_decide _); cbn; by auto.
Qed.

Lemma set_default_by_id_frame (id_ : key) (s : St) :
  is_single (self (after (Category.set_default_by_id abspath id_) s))
    = is_single (self s)
  /\ (instance (self (after (Category.set_default_by_id abspath id_) s))
        = instance (self s)
      \/ instance (self (after (Category.set_default_by_id abspath id_) s)) = None).
Proof.
  unfold after. destruct (classes (self s) !! id_) as [cls |] eqn:Hk.
  - rewrite (set_default_by_id_known abspath id_ s cls Hk).
    apply _set_default_frame.
  - rewrite (set_default_by_id_unknown abspath id_ s Hk). by auto.
Qed.

(** Without single-instance mode nothing is ever saved. *)
Lemma exec_multi (o : op) (s : St) :
  is_single (self s) = false -> instance (self s) = None ->
  is_single (self (exec abspath construct o s)) = false
  /\ instance (self (exec abspath construct o s)) = None.
Proof.
  intros Hm Hi. destruct o; cbn.
  - destruct (register_frame cls s) as (-> & -> & _). done.
  - destruct (set_interface_frame new_interfaces s) as (-> & -> & _). done.
  - done.
  - destruct (_set_default_frame cls s) as (-> & [-> | ->]); done.
  - done.
  - unfold after. by rewrite get_instance_run.
  - unfold after. rewrite get_and_instantiate_unfold. cbv zeta.
    rewrite Hi, Hm. cbn.
    destruct (getitem _ _) as [[| c] | e]; [done | | done].
    by destruct (construct c args) as [[t r] | e].
  - destruct (set_default_by_id_frame id_ s) as (-> & [-> | ->]); done.
  - by rewrite use_state.
  - done.
  - done.
Qed.

Lemma run_multi (ops : list op) (s : St) :
  is_single (self s) = false -> instance (self s) = None ->
  is_single (self (run abspath construct ops s)) = false
  /\ instance (self (run abspath construct ops s)) = None.
Proof.
  revert s. induction ops as [| o ops IH]; intros s Hm Hi; [done |].
  cbn. destruct (exec_multi o s Hm Hi) as [Hm' Hi']. by apply IH.
Qed.

Lemma __init___fields n sd ifs single w c w' :
  Category.__init__ abspath n sd ifs single w = (Ok c, w') ->
  is_single c = single /\ instance c = None.
Proof.
  unfold Category.__init__. intros Hinit.
  match type of Hinit with context [Category._set_default _ _ ?s0] =>
    destruct (_set_default_frame sd s0) as (F1 & F2); unfold after in F1, F2;
    destruct (Category._set_default abspath sd s0) as [[[] | e] s1]
  end; [| done].
  injection Hinit as <- <-. cbn in *. by destruct F2.
Qed.

(** C8: a category created with [single_instance=False] never has a saved
    instance, and [get_instance] returns [None] on it, after every
    history of calls (whether they returned or raised), calls of
    [get_and_instantiate] and releases of objects included. *)
Theorem multi_instance_get_instance_none n sd ifs w c w' (ops : list op) :
  Category.__init__ abspath n sd ifs false w = (Ok c, w') ->
  instance (self (run abspath construct ops (MkSt c w'))) = None
  /\ Category.get_instance (run abspath construct ops (MkSt c w'))
     = (Ok None, run abspath construct ops (MkSt c w')).
Proof.
  intros Hinit. destruct (__init___fields _ _ _ _ _ _ _ Hinit) as [Hm Hi].
  destruct (run_multi ops (MkSt c w') Hm Hi) as [_ Hnone].
  split; [done |]. by rewrite get_instance_run, Hnone.
Qed.

End frames.

(** The sample constructor returns what [Sample.new] names. *)
Lemma sample_new_init (n : string) (sd : pyval) (ifs : list pyval) (single : bool)
    (i : string) :
  _get_class_name Sample.abspath (w_cwd Sample.w0) sd = Ok i ->
  (forall j, j ∈ ifs -> is_implementation sd j = true) ->
  Category.__init__ Sample.abspath n sd (Some ifs) single Sample.w0
    = (Ok (Sample.new n sd ifs single), Sample.w0).
Proof.
  intros Hid Hall. unfold Sample.new.
  by rewrite (__init___class Sample.abspath n sd (Some ifs) single Sample.w0 i).
Qed.

Lemma multi_instance_get_instance_none_witness :
  Category.__init__ Sample.abspath "icons" (PCls Sample.Plain) (Some []) false Sample.w0
    = (Ok (Sample.new "icons" (PCls Sample.Plain) [] false), Sample.w0)
  /\ instance (self (run Sample.abspath Sample.construct
                       [GetAndInstantiate []; GetAndInstantiate [PNone];
                        SetDefault (PCls Sample.Codec); GetAndInstantiate [];
                        Release 0; GetInstance]
                       (MkSt (Sample.new "icons" (PCls Sample.Plain) [] false)
                             Sample.w0))) = None
  /\ Category.get_instance
       (run Sample.abspath Sample.construct
          [GetAndInstantiate []; GetAndInstantiate [PNone];
           SetDefault (PCls Sample.Codec); GetAndInstantiate [];
           Release 0; GetInstance]
          (MkSt (Sample.new "icons" (PCls Sample.Plain) [] false) Sample.w0))
     = (Ok None,
        run Sample.abspath Sample.construct
          [GetAndInstantiate []; GetAndInstantiate [PNone];
           SetDefault (PCls Sample.Codec); GetAndInstantiate [];
           Release 0; GetInstance]
          (MkSt (Sample.new "icons" (PCls Sample.Plain) [] false) Sample.w0)).
Proof.
  assert (Category.__init__ Sample.abspath "icons" (PCls Sample.Plain) (Some []) false
            Sample.w0
          = (Ok (Sample.new "icons" (PCls Sample.Plain) [] false), Sample.w0)) as Hinit.
  { apply (sample_new_init _ _ _ _ "/ext/plain.py:Plain"); [reflexivity |].
    intros j Hj. by apply elem_of_nil in Hj. }
  split; [exact Hinit |].
  exact (multi_instance_get_instance_none Sample.abspath Sample.construct
           "icons" (PCls Sample.Plain) (Some []) Sample.w0
           (Sample.new "icons" (PCls Sample.Plain) [] false) Sample.w0
           [GetAndInstantiate []; GetAndInstantiate [PNone];
            SetDefault (PCls Sample.Codec); GetAndInstantiate [];
            Release 0; GetInstance]
           Hinit).
Defined.

(** ** How the calls change a category *)

Section effects.

Variable abspath : string -> string -> string.
Variable construct : Cls -> list pyval -> res (bool * bool).

(** [register] either raises and changes nothing, or returns after adding
    the object under the identifier it has in the working directory of the
    call. *)
Lemma register_cases (cls : pyval) (s : St) :
  (exists e, Category.register abspath cls s = (Raise e, s))
  \/ (exists i,
        _get_class_name abspath (getcwd s) cls = Ok i
        /\ (forall j, j ∈ interfaces (self s) -> is_implementation cls j = true)
        /\ Category.register abspath cls s =
             (Ok tt,
              MkSt (set_ids (<[cls := i]> (ids (self s)))
                      (set_classes (<[KStr i := cls]> (classes (self s))) (self s)))
                   (world s))).
Proof.
  destruct (decide (Forall (fun j => is_implementation cls j = true)
                           (interfaces (self s)))) as [Hall | Hno].
  - rewrite Forall_forall in Hall.
    destruct (_get_class_name abspath (getcwd s) cls) as [i | e] eqn:Hid.
    + right. exists i. split; [done |]. split; [done |]. by apply register_ok.
    + left. exists e. rewrite register_unfold, agree_ok by done. by rewrite Hid.
  - apply not_Forall_Exists, Exists_exists in Hno; [| apply _].
    destruct (agree_raises cls (interfaces (self s)) s) as (i & _ & _ & Hrun).
    { destruct Hno as (i & Hi & Hno). exists i. split; [done |].
      by apply not_true_is_false. }
    left. eexists. by rewrite register_unfold, Hrun.
Qed.

(** [_set_default] either raises and changes nothing, or returns after
    registering the object when it was not known and selecting the
    identifier it has in the working directory of the call. *)
Lemma _set_default_cases (cls : pyval) (s : St) :
  (exists e, Category._set_default abspath cls s = (Raise e, s))
  \/ (exists i s1,
        _get_class_name abspath (getcwd s) cls = Ok i
        /\ ((ids (self s) !! cls <> None /\ s1 = s)
            \/ (ids (self s) !! cls = None
                /\ Category.register abspath cls s = (Ok tt, s1)))
        /\ Category._set_default abspath cls s =
             (Ok tt,
              if bool_decide (default_id (self s1) ≠ Some i)
              then MkSt (set_instance None (set_default_id (Some i) (self s1)))
                        (world s1)
              else s1)).
Proof.
  rewrite _set_default_unfold.
  destruct (decide (ids (self s) !! cls = None)) as [Hnew | Hold].
  - rewrite bool_decide_eq_true_2 by done.
    destruct (register_cases cls s) as [[e Hr] | (i & Hid & _ & Hr)].
    + left. exists e. by rewrite Hr.
    + right. eexists i, _. split; [done |]. split; [right; by split |].
      rewrite Hr, getcwd_MkSt. fold (getcwd s). rewrite Hid.
      by destruct (bool_decide _).
  - rewrite bool_decide_eq_false_2 by done. unfold ret.
    destruct (_get_class_name abspath (getcwd s) cls) as [i | e] eqn:Hid.
    + right. exists i, s. split; [done |]. split; [left; by split |].
      by destruct (bool_decide _).
    + left. by exists e.
Qed.

(** What [set_interface] leaves alone. *)
Lemma set_interface_fixed (l : list pyval) (s : St) :
  name (self (after (Category.set_interface l) s)) = name (self s)
  /\ system_default (self (after (Category.set_interface l) s))
     = system_default (self s)
  /\ default_id (self (after (Category.set_interface l) s)) = default_id (self s)
  /\ world (after (Category.set_interface l) s) = world s.
Proof.
  unfold after. rewrite set_interface_unfold.
  destruct (interfaces (self s)); [| done].
  pose proof (for_each_invariant
    (fun s' : St => name (self s') = name (self s)
                    /\ system_default (self s') = system_default (self s)
                    /\ default_id (self s') = default_id (self s)
                    /\ world s' = world s)
    Category.del_class
    (Category.failing (values (classes (self s))) l)
    (MkSt (set_interfaces l (self s)) (world s))) as Hloop.
  destruct (for_each _ _ _) as [[[] | e] s']; apply Hloop; try done;
    intros cls s1 (H1 & H2 & H3 & H4);
    unfold Category.del_class, bind, attr, gets, lift_res, delitem, on_self, modify;
    cbn; by destruct (classes (self s1) !! KVal cls).
Qed.

Lemma register_world (cls : pyval) (s : St) :
  world (after (Category.register abspath cls) s) = world s.
Proof.
  unfold after.
  by destruct (register_cases cls s) as [[e ->] | (i & _ & _ & ->)].
Qed.

Lemma _set_default_world (cls : pyval) (s : St) :
  world (after (Category._set_default abspath cls) s) = world s.
Proof.
  unfold after.
  destruct (_set_default_cases cls s)
    as [[e ->] | (i & s1 & _ & Hs1 & ->)]; [done |].
  assert (world s1 = world s) as Hw.
  { destruct Hs1 as [[_ ->] | [_ Hreg]]; [done |].
    pose proof (register_world cls s) as H. unfold after in H.
    by rewrite Hreg in H. }
  by destruct (bool_decide _).
Qed.

(** Only [Chdir] changes the working directory. *)
Lemma exec_getcwd (o : op) (s : St) :
  (forall d, o <> Chdir d) -> getcwd (exec abspath construct o s) = getcwd s.
Proof.
  intros Hne. destruct o; cbn [exec].
  - unfold getcwd. by rewrite register_world.
  - unfold getcwd. by destruct (set_interface_fixed new_interfaces s) as (_ & _ & _ & ->).
  - done.
  - unfold getcwd. by rewrite _set_default_world.
  - done.
  - unfold after. by rewrite get_instance_run.
  - by destruct (get_and_instantiate_after construct args s) as [_ H].
  - unfold getcwd, after. destruct (classes (self s) !! id_) as [cls |] eqn:Hk.
    + rewrite (set_default_by_id_known abspath id_ s cls Hk).
      pose proof (_set_default_world cls s) as H. unfold after in H. by rewrite H.
    + by rewrite (set_default_by_id_unknown abspath id_ s Hk).
  - by rewrite use_state.
  - done.
  - by destruct (Hne d).
Qed.

(** An invariant of the category kept by the three calls that assign
    attributes is kept by every call. *)
Lemma exec_invariant (P : Category -> Prop) :
  (forall c o, P c -> P (set_instance o c)) ->
  (forall cls s, P (self s) -> P (self (after (Category.register abspath cls) s))) ->
  (forall l s, P (self s) -> P (self (after (Category.set_interface l) s))) ->
  (forall cls s, P (self s) ->
     P (self (after (Category._set_default abspath cls) s))) ->
  forall o s, P (self s) -> P (self (exec abspath construct o s)).
Proof.
  intros Hinst Hreg Hifs Hdef o s Hs. destruct o; cbn.
  - by apply Hreg.
  - by apply Hifs.
  - done.
  - by apply Hdef.
  - done.
  - unfold after. by rewrite get_instance_run.
  - destruct (get_and_instantiate_after construct args s) as [[-> | (o & _ & ->)] _];
      [done | by apply Hinst].
  - unfold after. destruct (classes (self s) !! id_) as [cls |] eqn:Hk.
    + rewrite (set_default_by_id_known abspath id_ s cls Hk). by apply Hdef.
    + by rewrite (set_default_by_id_unknown abspath id_ s Hk).
  - by rewrite use_state.
  - done.
  - done.
Qed.

(** The same for an invariant that reads the working directory, through
    the calls that leave it alone. *)
Lemma exec_steady (P : string -> Category -> Prop) :
  (forall d c o, P d c -> P d (set_instance o c)) ->
  (forall cls s, P (getcwd s) (self s) ->
     P (getcwd s) (self (after (Category.register abspath cls) s))) ->
  (forall l s, P (getcwd s) (self s) ->
     P (getcwd s) (self (after (Category.set_interface l) s))) ->
  (forall cls s, P (getcwd s) (self s) ->
     P (getcwd s) (self (after (Category._set_default abspath cls) s))) ->
  forall o s, (forall d, o <> Chdir d) -> P (getcwd s) (self s) ->
    P (getcwd (exec abspath construct o s)) (self (exec abspath construct o s)).
Proof.
  intros Hinst Hreg Hifs Hdef o s Hne Hs. rewrite exec_getcwd by done.
  destruct o; cbn.
  - by apply Hreg.
  - by apply Hifs.
  - done.
  - by apply Hdef.
  - done.
  - unfold after. by rewrite get_instance_run.
  - destruct (get_and_instantiate_after construct args s) as [[-> | (o & _ & ->)] _];
      [done | by apply Hinst].
  - unfold after. destruct (classes (self s) !! id_) as [cls |] eqn:Hk.
    + rewrite (set_default_by_id_known abspath id_ s cls Hk). by apply Hdef.
    + by rewrite (set_default_by_id_unknown abspath id_ s Hk).
  - by rewrite use_state.
  - done.
  - by destruct (Hne d).
Qed.

Lemma run_invariant (P : Category -> Prop) :
  (forall o s, P (self s) -> P (self (exec abspath construct o s))) ->
  forall ops s, P (self s) -> P (self (run abspath construct ops s)).
Proof.
  intros Hstep ops. induction ops as [| o ops IH]; intros s Hs; [done |].
  cbn. by apply IH, Hstep.
Qed.

(** When no key of the table is an object, no deletion of [set_interface]
    succeeds: the table is never filtered. *)
Lemma set_interface_classes (l : list pyval) (s : St) :
  (forall v, classes (self s) !! KVal v = None) ->
  classes (self (after (Category.set_interface l) s)) = classes (self s).
Proof.
  intros Hc. unfold after. rewrite set_interface_unfold.
  destruct (interfaces (self s)); [| done].
  pose proof (for_each_invariant
    (fun s' : St => classes (self s') = classes (self s))
    Category.del_class
    (Category.failing (values (classes (self s))) l)
    (MkSt (set_interfaces l (self s)) (world s))) as Hloop.
  assert (forall cls s1, classes (self s1) = classes (self s) ->
            classes (self (snd (Category.del_class cls s1))) = classes (self s))
    as Hbody.
  { intros cls s1 H1.
    unfold Category.del_class, bind, attr, gets, lift_res, delitem, on_self, modify.
    cbn. rewrite H1. by rewrite Hc. }
  destruct (for_each _ _ _) as [[[] | e] s']; by apply Hloop.
Qed.

End effects.

(** ** The keys of the table *)

Section keys.

Variable abspath : string -> string -> string.
Variable construct : Cls -> list pyval -> res (bool * bool).

Lemma keyed_same (c c' : Category) :
  classes c' = classes c -> ids c' = ids c -> keyed c -> keyed c'.
Proof. unfold keyed. by intros -> ->. Qed.

Lemma register_keyed (cls : pyval) (s : St) :
  keyed (self s) -> keyed (self (after (Category.register abspath cls) s)).
Proof.
  intros Hk. unfold after.
  destruct (register_cases abspath cls s) as [[e ->] | (i & Hid & _ & ->)]; [done |].
  cbn. intros k v Hkv. cbn in *. destruct (decide (k = KStr i)) as [-> | Hne].
  - rewrite lookup_insert_eq in Hkv. injection Hkv as <-.
    split; [by eexists |]. by rewrite lookup_insert_eq.
  - rewrite lookup_insert_ne in Hkv by done.
    destruct (Hk k v Hkv) as [Hstr Hsome]. split; [done |].
    by apply lookup_insert_is_Some'; right.
Qed.

Lemma set_interface_keyed (l : list pyval) (s : St) :
  keyed (self s) -> keyed (self (after (Category.set_interface l) s)).
Proof.
  intros Hk. destruct (set_interface_frame l s) as (_ & _ & Hids & Hsub).
  intros k v Hkv. rewrite Hids. apply Hk. by eapply lookup_weaken.
Qed.

Lemma _set_default_keyed (cls : pyval) (s : St) :
  keyed (self s) -> keyed (self (after (Category._set_default abspath cls) s)).
Proof.
  intros Hw. unfold after.
  destruct (_set_default_cases abspath cls s)
    as [[e ->] | (i & s1 & _ & Hs1 & ->)]; [done |].
  assert (keyed (self s1)) as Hw1.
  { destruct Hs1 as [[_ ->] | [_ Hreg]]; [done |].
    pose proof (register_keyed cls s Hw) as H. unfold after in H.
    by rewrite Hreg in H. }
  destruct (bool_decide _); [| done]. by eapply keyed_same.
Qed.

Lemma exec_keyed (o : op) (s : St) :
  keyed (self s) -> keyed (self (exec abspath construct o s)).
Proof.
  apply (exec_invariant abspath construct keyed).
  - intros c o'. by apply keyed_same.
  - apply register_keyed.
  - apply set_interface_keyed.
  - apply _set_default_keyed.
Qed.

(** On every category a program can hold the keys of the table are
    strings and its objects are known to [ids], whatever happened to the
    working directory. *)
Lemma reachable_keyed (s : St) :
  reachable abspath construct s -> keyed (self s).
Proof.
  induction 1 as [n sd ifs single w c w' Hinit | s o _ IH].
  - unfold Category.__init__ in Hinit.
    match type of Hinit with context [Category._set_default _ _ ?s0] =>
      pose proof (_set_default_keyed sd s0) as Hc; unfold after in Hc;
      destruct (Category._set_default abspath sd s0) as [[[] | e] s1]
    end; [| done].
    injection Hinit as <- <-. apply Hc.
    intros k v Hk. cbn in Hk. by rewrite lookup_empty in Hk.
  - by apply exec_keyed.
Qed.

Lemma keyed_no_class_key (c : Category) (v : pyval) :
  keyed c -> classes c !! KVal v = None.
Proof.
  intros Hc. destruct (classes c !! KVal v) as [x |] eqn:Hk; [| done].
  by destruct (Hc _ _ Hk) as [[i Hkey] _].
Qed.



End keys.

Lemma sample_reachable (n : string) (sd : pyval) (ifs : list pyval) (single : bool)
    (i : string) :
  _get_class_name Sample.abspath (w_cwd Sample.w0) sd = Ok i ->
  (forall j, j ∈ ifs -> is_implementation sd j = true) ->
  reachable Sample.abspath Sample.construct
    (MkSt (Sample.new n sd ifs single) Sample.w0).
Proof.
  intros Hid Hall.
  apply (reachable_init Sample.abspath Sample.construct n sd (Some ifs) single
           Sample.w0).
  by apply (sample_new_init n sd ifs single i).
Qed.

Lemma sample_steady (n : string) (sd : pyval) (ifs : list pyval) (single : bool)
    (i : string) :
  _get_class_name Sample.abspath (w_cwd Sample.w0) sd = Ok i ->
  (forall j, j ∈ ifs -> is_implementation sd j = true) ->
  steady Sample.abspath Sample.construct
    (MkSt (Sample.new n sd ifs single) Sample.w0).
Proof.
  intros Hid Hall.
  apply (steady_init Sample.abspath Sample.construct n sd (Some ifs) single
           Sample.w0).
  by apply (sample_new_init n sd ifs single i).
Qed.




(** ** The saved instance *)

Section saved_instance.

Variable abspath : string -> string -> string.
Variable construct : Cls -> list pyval -> res (bool * bool).

(** A saved instance that is alive and true is what the next call
    returns, whatever the arguments; nothing is constructed. *)
Lemma get_and_instantiate_saved (args : list pyval) (s : St) (o : Obj) :
  instance (self s) = Some o ->
  obj_oid o ∈ w_live (world s) ->
  obj_truth o = true ->
  Category.get_and_instantiate construct args s = (Ok (Some o), s).
Proof.
  intros Hinst Hlive Htrue. rewrite get_and_instantiate_unfold. cbv zeta.
  rewrite Hinst, bool_decide_eq_true_2 by done. cbn.
  unfold truth, truthy_obj. by rewrite Htrue.
Qed.

(** With nothing saved, the default is called with the arguments given,
    and a single-instance category saves what it made, an instance that
    accepts weak references. *)
Lemma get_and_instantiate_fresh (args : list pyval) (s : St) (c : Cls) (t r : bool) :
  instance (self s) = None ->
  Category._get_default s = (Ok (PCls c), s) ->
  construct c args = Ok (t, r) ->
  is_single (self s) = false \/ r = true ->
  Category.get_and_instantiate construct args s =
    (Ok (Some (MkObj (w_next (world s)) c args t r)),
     MkSt (if is_single (self s)
           then set_instance (Some (MkObj (w_next (world s)) c args t r)) (self s)
           else self s)
          (allocated (world s))).
Proof.
  intros Hinst Hget Hnew Hweak. rewrite get_and_instantiate_unfold. cbv zeta.
  rewrite Hinst. cbn. rewrite _get_default_run in Hget.
  injection Hget as ->. rewrite Hnew.
  destruct (is_single (self s)); [| done].
  by destruct Hweak as [? | ->].
Qed.

(** In single-instance mode an instance that does not accept weak
    references is made and lost: the call raises [TypeError] and nothing is
    saved. *)
Lemma get_and_instantiate_refused (args : list pyval) (s : St) (c : Cls) (t : bool) :
  instance (self s) = None ->
  Category._get_default s = (Ok (PCls c), s) ->
  construct c args = Ok (t, false) ->
  is_single (self s) = true ->
  Category.get_and_instantiate construct args s =
    (Raise (TypeError ("cannot create weak reference to '"
                       +:+ Category.type_name (MkObj (w_next (world s)) c args t false)
                       +:+ "' object")),
     MkSt (self s) (forgotten (w_next (world s)) (allocated (world s)))).
Proof.
  intros Hinst Hget Hnew Hm. rewrite get_and_instantiate_unfold. cbv zeta.
  rewrite Hinst. cbn. rewrite _get_default_run in Hget.
  injection Hget as ->. by rewrite Hnew, Hm.
Qed.

(** Selecting an object with another identifier forgets the saved
    instance. *)
Lemma _set_default_other_forgets (cls : pyval) (s : St) (i : string) :
  _get_class_name abspath (getcwd s) cls = Ok i ->
  default_id (self s) <> Some i ->
  fst (Category._set_default abspath cls s) = Ok tt ->
  default_id (self (after (Category._set_default abspath cls) s)) = Some i
  /\ instance (self (after (Category._set_default abspath cls) s)) = None.
Proof.
  intros Hid Hne. unfold after.
  destruct (_set_default_cases abspath cls s)
    as [[e ->] | (j & s1 & Hj & Hs1 & ->)]; [done |].
  assert (j = i) as -> by congruence.
  assert (default_id (self s1) = default_id (self s)) as Hd.
  { destruct Hs1 as [[_ ->] | [_ Hreg]]; [done |].
    destruct (register_frame abspath cls s) as (_ & _ & H). unfold after in H.
    by rewrite Hreg in H. }
  rewrite Hd. by rewrite bool_decide_eq_true_2 by done.
Qed.

End saved_instance.

(** C6, on a single-instance category whose default [Roster] makes
    instances that are false: the first [get_and_instantiate] returns a new
    instance and saves it; the caller keeps it alive; the second call does
    not return it but constructs and returns another one, built from the
    second call's arguments. *)
Theorem get_and_instantiate_false_instance_rebuilt :
  let s0 := MkSt (Sample.new "roster" (PCls Sample.Roster) [] true) Sample.w0 in
  let s1 := after (Category.get_and_instantiate Sample.construct []) s0 in
  is_single (self s0) = true
  /\ default_id (self s0) = Some "/ext/roster.py:Roster"
  /\ fst (Category.get_and_instantiate Sample.construct [] s0)
     = Ok (Some (MkObj 0 Sample.Roster [] false true))
  /\ instance (self s1) = Some (MkObj 0 Sample.Roster [] false true)
  /\ bool_decide (0 ∈ w_live (world s1)) = true
  /\ fst (Category.get_and_instantiate Sample.construct [PNone] s1)
     = Ok (Some (MkObj 1 Sample.Roster [PNone] false true)).
Proof. cbv zeta. unfold after. by vm_compute. Qed.

(** ** Attaching interfaces to a category in use *)

Section attach.

Variable abspath : string -> string -> string.
Variable construct : Cls -> list pyval -> res (bool * bool).

Lemma elem_of_values (d : gmap key pyval) (v : pyval) :
  v ∈ values d <-> exists k, d !! k = Some v.
Proof.
  unfold values. rewrite list_elem_of_fmap. split.
  - intros ([k x] & -> & Hin). exists k. by apply elem_of_map_to_list.
  - intros (k & Hk). exists (k, v). split; [done |]. by apply elem_of_map_to_list.
Qed.

Lemma elem_of_failing (cs l : list pyval) (v : pyval) :
  v ∈ Category.failing cs l <->
  v ∈ cs /\ exists i, i ∈ l /\ is_implementation v i = false.
Proof.
  unfold Category.failing. rewrite list_elem_of_In, in_flat_map. split.
  - intros (cls & Hcls & Hin). apply in_flat_map in Hin as (i & Hi & Hin).
    destruct (is_implementation cls i) eqn:Himpl; cbn in Hin; [done |].
    destruct Hin as [-> | []]. split; [by apply list_elem_of_In |].
    exists i. split; [by apply list_elem_of_In | done].
  - intros (Hv & i & Hi & Himpl). exists v. split; [by apply list_elem_of_In |].
    apply in_flat_map. exists i. split; [by apply list_elem_of_In |].
    rewrite Himpl. cbn. by left.
Qed.

(** On every category a program can hold that has no interfaces yet, as
    soon as one registered class fails one of the new interfaces
    [set_interface] raises [KeyError]; the interfaces are adopted and the
    table is as it was. *)
Lemma set_interface_reachable_raises (s : St) (l : list pyval) k v i :
  reachable abspath construct s ->
  interfaces (self s) = [] ->
  classes (self s) !! k = Some v ->
  i ∈ l -> is_implementation v i = false ->
  exists cls,
    Category.set_interface l s
    = (Raise (KeyError (KVal cls)), MkSt (set_interfaces l (self s)) (world s)).
Proof.
  intros Hreach Hifs Hk Hi Himpl.
  assert (v ∈ Category.failing (values (classes (self s))) l) as Hin.
  { apply elem_of_failing. split; [apply elem_of_values; by exists k |].
    by exists i. }
  destruct (Category.failing (values (classes (self s))) l) as [| cls rest] eqn:Hfail.
  { by apply elem_of_nil in Hin. }
  exists cls. apply (set_interface_nonconforming l s cls rest); [done | | done].
  intros x. apply keyed_no_class_key.
  by apply (reachable_keyed abspath construct).
Qed.

End attach.

(** * More of the module *)

(** ** Soundness of the categories in use *)

Section soundness_facts.

Variable abspath : string -> string -> string.
Variable construct : Cls -> list pyval -> res (bool * bool).

Lemma sound_same (d : string) (c c' : Category) :
  classes c' = classes c -> ids c' = ids c -> default_id c' = default_id c ->
  sound abspath d c -> sound abspath d c'.
Proof.
  unfold sound, consistent, indexed, selected. by intros -> -> ->.
Qed.

Lemma consistent_keyed (d : string) (c : Category) :
  consistent abspath d c -> keyed c.
Proof.
  intros Hc k v Hk. destruct (Hc k v Hk) as (i & -> & _ & Hids).
  split; [by eexists | by eexists].
Qed.

Lemma register_sound (cls : pyval) (s : St) :
  sound abspath (getcwd s) (self s) ->
  sound abspath (getcwd s) (self (after (Category.register abspath cls) s)).
Proof.
  intros (Hc & Hx & (d & Hd & Hsome)). unfold after.
  destruct (register_cases abspath cls s) as [[e ->] | (i & Hid & _ & ->)].
  { cbn. split; [done |]. split; [done |]. by exists d. }
  cbn. split; [| split].
  - intros k v Hk. cbn in *.
    destruct (decide (k = KStr i)) as [-> | Hne].
    + rewrite lookup_insert_eq in Hk. injection Hk as <-.
      exists i. by rewrite lookup_insert_eq.
    + rewrite lookup_insert_ne in Hk by done.
      destruct (Hc k v Hk) as (i0 & -> & Hid0 & Hids). exists i0.
      split; [done |]. split; [done |].
      destruct (decide (cls = v)) as [-> | Hv].
      * rewrite lookup_insert_eq. congruence.
      * by rewrite lookup_insert_ne.
  - intros v j Hv. cbn in *.
    destruct (decide (cls = v)) as [-> | Hne].
    + rewrite lookup_insert_eq in Hv. injection Hv as <-.
      split; [done |]. by rewrite lookup_insert_eq.
    + rewrite lookup_insert_ne in Hv by done.
      destruct (Hx v j Hv) as [Hj Hsome']. split; [done |].
      by apply lookup_insert_is_Some'; right.
  - exists d. split; [done |]. cbn. by apply lookup_insert_is_Some'; right.
Qed.

Lemma set_interface_sound (l : list pyval) (s : St) :
  sound abspath (getcwd s) (self s) ->
  sound abspath (getcwd s) (self (after (Category.set_interface l) s)).
Proof.
  intros Hs. pose proof Hs as (Hc & _).
  destruct (set_interface_frame l s) as (_ & _ & Hids & _).
  destruct (set_interface_fixed l s) as (_ & _ & Hd & _).
  eapply sound_same; [| done | done | done].
  apply set_interface_classes. intros v.
  apply keyed_no_class_key. by eapply consistent_keyed.
Qed.

(** What a returning [_set_default] has done. *)
Lemma _set_default_ok (cls : pyval) (s s' : St) :
  Category._set_default abspath cls s = (Ok tt, s') ->
  world s' = world s
  /\ exists i,
       _get_class_name abspath (getcwd s) cls = Ok i
       /\ default_id (self s') = Some i
       /\ (ids (self s) !! cls = None ->
           classes (self s') !! KStr i = Some cls /\ ids (self s') !! cls = Some i)
       /\ (ids (self s) !! cls <> None ->
           classes (self s') = classes (self s) /\ ids (self s') = ids (self s)).
Proof.
  intros Hrun.
  pose proof (_set_default_world abspath cls s) as Hw. unfold after in Hw.
  rewrite Hrun in Hw. split; [done |].
  destruct (_set_default_cases abspath cls s) as [[e He] | (i & s1 & Hid & Hs1 & Hok)];
    [congruence |].
  rewrite Hok in Hrun. injection Hrun as <-. exists i. split; [done |].
  assert ((ids (self s) !! cls = None ->
           classes (self s1) !! KStr i = Some cls /\ ids (self s1) !! cls = Some i)
          /\ (ids (self s) !! cls <> None ->
              classes (self s1) = classes (self s) /\ ids (self s1) = ids (self s)))
    as [Hnew Hold].
  { destruct Hs1 as [[Hold ->] | [Hnone Hreg]]; [by split |].
    split; [| done]. intros _.
    destruct (register_cases abspath cls s) as [[e He] | (i' & Hid' & _ & Hreg')];
      [congruence |].
    assert (i' = i) as -> by congruence.
    rewrite Hreg' in Hreg. injection Hreg as <-. cbn.
    by rewrite !lookup_insert_eq. }
  destruct (bool_decide (default_id (self s1) ≠ Some i)) eqn:Hdec; cbn.
  - done.
  - apply bool_decide_eq_false in Hdec. apply dec_stable in Hdec. done.
Qed.

Lemma _set_default_sound (cls : pyval) (s : St) :
  sound abspath (getcwd s) (self s) ->
  sound abspath (getcwd s) (self (after (Category._set_default abspath cls) s)).
Proof.
  intros Hs. unfold after.
  destruct (_set_default_cases abspath cls s)
    as [[e ->] | (i & s1 & Hid & Hs1 & ->)]; [done |].
  assert (sound abspath (getcwd s) (self s1)
          /\ is_Some (classes (self s1) !! KStr i)) as [Hs1' Hsome].
  { destruct Hs1 as [[Hold ->] | [_ Hreg]].
    - split; [done |]. destruct Hs as (_ & Hx & _).
      destruct (ids (self s) !! cls) as [j |] eqn:Hj; [| done].
      destruct (Hx cls j Hj) as [Hname Hsome].
      assert (j = i) as -> by congruence. done.
    - pose proof (register_sound cls s Hs) as H. unfold after in H.
      rewrite Hreg in H. split; [done |].
      destruct (register_cases abspath cls s) as [[e He] | (i' & Hid' & _ & Hreg')];
        [congruence |].
      assert (i' = i) as -> by congruence.
      rewrite Hreg' in Hreg. injection Hreg as <-. cbn.
      by rewrite lookup_insert_eq. }
  destruct (bool_decide _); [| done].
  destruct Hs1' as (Hc & Hx & _). split; [done |]. split; [done |].
  by exists i.
Qed.

Lemma exec_sound (o : op) (s : St) :
  (forall d, o <> Chdir d) ->
  sound abspath (getcwd s) (self s) ->
  sound abspath (getcwd (exec abspath construct o s))
    (self (exec abspath construct o s)).
Proof.
  apply (exec_steady abspath construct (sound abspath)).
  - intros d c o'. by apply sound_same.
  - apply register_sound.
  - apply set_interface_sound.
  - apply _set_default_sound.
Qed.

(** What a returning constructor has made. *)
Lemma __init___ok n sd ifs single w c w' :
  Category.__init__ abspath n sd ifs single w = (Ok c, w') ->
  w' = w
  /\ (forall j, j ∈ default [] ifs -> is_implementation sd j = true)
  /\ exists i,
       _get_class_name abspath (w_cwd w) sd = Ok i
       /\ c = {| name := n;
                 system_default := if truth sd then Some sd else None;
                 interfaces := default [] ifs;
                 classes := {[ KStr i := sd ]};
                 ids := {[ sd := i ]};
                 is_single := single;
                 instance := None;
                 default_id := Some i |}.
Proof.
  intros Hinit.
  assert (exists i, _get_class_name abspath (w_cwd w) sd = Ok i
                    /\ forall j, j ∈ default [] ifs -> is_implementation sd j = true)
    as (i & Hid & Hall).
  { unfold Category.__init__ in Hinit.
    match type of Hinit with context [Category._set_default _ _ ?s0] =>
      destruct (_set_default_cases abspath sd s0)
        as [[e He] | (i & s1 & Hid & Hs1 & Hok)];
      [by rewrite He in Hinit |];
      destruct Hs1 as [[Hold _] | [_ Hreg]]; [done |];
      destruct (register_cases abspath sd s0) as [[e He] | (i' & _ & Hall & _)];
        [congruence |]
    end.
    exists i. split; [done |]. intros j Hj. apply Hall. cbn. by destruct ifs. }
  rewrite (__init___class abspath n sd ifs single w i Hid Hall) in Hinit.
  injection Hinit as <- <-. split; [done |]. split; [done |]. by exists i.
Qed.

Lemma __init___sound n sd ifs single w c w' :
  Category.__init__ abspath n sd ifs single w = (Ok c, w') ->
  sound abspath (w_cwd w') c.
Proof.
  intros Hinit.
  destruct (__init___ok _ _ _ _ _ _ _ Hinit) as (-> & _ & i & Hid & ->).
  split; [| split].
  - intros k v Hk. cbn in Hk. apply lookup_singleton_Some in Hk as [<- <-].
    exists i. split; [done |]. split; [done |]. apply lookup_singleton_eq.
  - intros v j Hv. cbn in Hv. apply lookup_singleton_Some in Hv as [<- <-].
    split; [done |]. cbn. by rewrite lookup_singleton_eq.
  - exists i. split; [done |]. cbn. by rewrite lookup_singleton_eq.
Qed.

(** While the working directory is left alone, every category a program
    can hold is sound. *)
Lemma steady_sound (s : St) :
  steady abspath construct s -> sound abspath (getcwd s) (self s).
Proof.
  induction 1 as [n sd ifs single w c w' Hinit | s o _ IH Hne].
  - by apply __init___sound in Hinit.
  - by apply exec_sound.
Qed.

Lemma steady_reachable (s : St) :
  steady abspath construct s -> reachable abspath construct s.
Proof.
  induction 1 as [n sd ifs single w c w' Hinit | s o _ IH Hne].
  - by eapply reachable_init.
  - by apply reachable_exec.
Qed.

End soundness_facts.

Lemma reachable_run abspath construct (ops : list op) (s : St) :
  reachable abspath construct s ->
  reachable abspath construct (run abspath construct ops s).
Proof.
  revert s. induction ops as [| o ops IH]; intros s Hr; [done |].
  cbn. by apply IH, reachable_exec.
Qed.

Lemma steady_run abspath construct (ops : list op) (s : St) :
  steady abspath construct s ->
  Forall (fun o => forall d, o <> Chdir d) ops ->
  steady abspath construct (run abspath construct ops s).
Proof.
  revert s. induction ops as [| o ops IH]; intros s Hr Hops; [done |].
  apply Forall_cons in Hops as [Ho Hops]. cbn. by apply IH; [apply steady_exec |].
Qed.

Lemma storage_steady : steady Sample.abspath Sample.construct Fixture.storage.
Proof.
  apply (sample_steady _ _ _ _ "/ext/plain.py:Plain"); [reflexivity |].
  intros j Hj. by apply elem_of_nil in Hj.
Qed.

Lemma icons_reachable : reachable Sample.abspath Sample.construct Fixture.icons.
Proof.
  apply (sample_reachable _ _ _ _ "/ext/plain.py:Plain"); [reflexivity |].
  intros j Hj. by apply elem_of_nil in Hj.
Qed.

Lemma codec_reachable : reachable Sample.abspath Sample.construct Fixture.codec.
Proof.
  apply (sample_reachable _ _ _ _ "/ext/codec.py:Codec"); [reflexivity |].
  intros j Hj. apply list_elem_of_singleton in Hj as ->. reflexivity.
Qed.

(** ** Registration, once and again *)

Section registering.

Variable abspath : string -> string -> string.
Variable construct : Cls -> list pyval -> res (bool * bool).

(** X1: [register] returns exactly when the object it is given has an
    identifier (its module has a file, and it has a name) and meets every
    interface of the category; it then has stored the object under its
    identifier in [classes] and its identifier under the object in [ids],
    and has left every other entry, the interfaces, the default, the saved
    instance and the world as they were. *)
Theorem register_returns_iff (cls : pyval) (s : St) :
  (fst (Category.register abspath cls s) = Ok tt <->
     (exists i, _get_class_name abspath (getcwd s) cls = Ok i)
     /\ forall j, j ∈ interfaces (self s) -> is_implementation cls j = true)
  /\ (forall s', Category.register abspath cls s = (Ok tt, s') ->
        exists i,
          _get_class_name abspath (getcwd s) cls = Ok i
          /\ classes (self s') !! KStr i = Some cls
          /\ ids (self s') !! cls = Some i
          /\ (forall k, k <> KStr i -> classes (self s') !! k = classes (self s) !! k)
          /\ (forall v, v <> cls -> ids (self s') !! v = ids (self s) !! v)
          /\ interfaces (self s') = interfaces (self s)
          /\ default_id (self s') = default_id (self s)
          /\ instance (self s') = instance (self s)
          /\ world s' = world s).
Proof.
  split.
  - split.
    + intros Hok.
      destruct (register_cases abspath cls s) as [[e He] | (i & Hid & Hall & _)].
      { by rewrite He in Hok. }
      split; [by exists i | done].
    + intros [[i Hid] Hall].
      by rewrite (register_ok abspath cls s i Hall Hid).
  - intros s' Hrun.
    destruct (register_cases abspath cls s) as [[e He] | (i & Hid & _ & Hreg)];
      [congruence |].
    rewrite Hreg in Hrun. injection Hrun as <-. exists i. cbn.
    split; [done |]. split; [by rewrite lookup_insert_eq |].
    split; [by rewrite lookup_insert_eq |].
    split; [by intros k Hk; rewrite lookup_insert_ne |].
    split; [by intros v Hv; rewrite lookup_insert_ne |]. done.
Qed.


(** X4: on every category a program can hold, as long as the working
    directory of the process was left alone since the category was
    created, a default is selected and [_get_default] returns it: an
    object of the table, stored under [default_id], its identifier.  The
    lookup does not raise [KeyError]. *)
Theorem steady_default_resolves (s : St) :
  steady abspath construct s ->
  exists v i,
    default_id (self s) = Some i
    /\ Category._get_default s = (Ok v, s)
    /\ _get_class_name abspath (getcwd s) v = Ok i.
Proof.
  intros Hr. destruct (steady_sound abspath construct s Hr)
    as (Hc & _ & (i & Hd & [v Hv])).
  destruct (Hc _ _ Hv) as (j & Hkey & Hid & _). injection Hkey as <-.
  exists v, i. split; [done |]. split; [| done].
  rewrite _get_default_run, Hd. unfold getitem. cbn. by rewrite Hv.
Qed.

(** X5: the name and the instancing mode given to the constructor stay
    what they were through every history of calls, and so does the
    attribute [system_default]: the system default given when it is true
    in a boolean test, and never assigned otherwise, whatever default is
    selected later. *)
Theorem creation_attributes_fixed n sd ifs single w c w' (ops : list op) :
  Category.__init__ abspath n sd ifs single w = (Ok c, w') ->
  name (self (run abspath construct ops (MkSt c w'))) = n
  /\ system_default (self (run abspath construct ops (MkSt c w')))
     = (if truth sd then Some sd else None)
  /\ is_single (self (run abspath construct ops (MkSt c w'))) = single.
Proof.
  intros Hinit.
  destruct (__init___ok abspath n sd ifs single w c w' Hinit)
    as (_ & _ & i & _ & Hc).
  apply (run_invariant abspath construct
           (fun c' => name c' = n
                      /\ system_default c' = (if truth sd then Some sd else None)
                      /\ is_single c' = single));
    [| by rewrite Hc].
  apply (exec_invariant abspath construct
           (fun c' => name c' = n
                      /\ system_default c' = (if truth sd then Some sd else None)
                      /\ is_single c' = single)).
  - done.
  - intros cls s0 (H1 & H2 & H3). unfold after.
    destruct (register_cases abspath cls s0) as [[e ->] | (j & _ & _ & ->)]; done.
  - intros l s0 (H1 & H2 & H3).
    destruct (set_interface_fixed l s0) as (-> & -> & _).
    by destruct (set_interface_frame l s0) as (-> & _).
  - intros cls s0 (H1 & H2 & H3). unfold after.
    destruct (_set_default_cases abspath cls s0)
      as [[e ->] | (j & s1 & _ & Hs1 & ->)]; [done |].
    assert (name (self s1) = n
            /\ system_default (self s1) = (if truth sd then Some sd else None)
            /\ is_single (self s1) = single) as (? & ? & ?).
    { destruct Hs1 as [[_ ->] | [_ Hreg]]; [done |].
      destruct (register_cases abspath cls s0) as [[e He] | (i' & _ & _ & Hreg')];
        [congruence |].
      rewrite Hreg' in Hreg. by injection Hreg as <-. }
    by destruct (bool_decide _).
Qed.

(** X6: interfaces are attached at most once: when a category has some,
    no history of calls changes them. *)
Theorem interfaces_set_once (s : St) (ops : list op) :
  interfaces (self s) <> [] ->
  interfaces (self (run abspath construct ops s)) = interfaces (self s).
Proof.
  intros Hne.
  apply (run_invariant abspath construct
           (fun c' => interfaces c' = interfaces (self s))); [| done].
  apply (exec_invariant abspath construct
           (fun c' => interfaces c' = interfaces (self s))).
  - done.
  - intros cls s0 H0. unfold after.
    destruct (register_cases abspath cls s0) as [[e ->] | (i & _ & _ & ->)]; done.
  - intros l s0 H0. unfold after.
    rewrite set_interface_constrained by congruence. done.
  - intros cls s0 H0. unfold after.
    destruct (_set_default_cases abspath cls s0)
      as [[e ->] | (i & s1 & _ & Hs1 & ->)]; [done |].
    assert (interfaces (self s1) = interfaces (self s)) as H1.
    { destruct Hs1 as [[_ ->] | [_ Hreg]]; [done |].
      destruct (register_cases abspath cls s0) as [[e He] | (i' & _ & _ & Hreg')];
        [congruence |].
      rewrite Hreg' in Hreg. by injection Hreg as <-. }
    by destruct (bool_decide _).
Qed.

(** X7: nothing is ever unregistered.  On a category a program can hold,
    an identifier of the table stays a key of the table, and an object
    known to [ids] stays known, through every history of calls,
    [set_interface] and changes of the working directory included. *)
Theorem registered_stays (s : St) (ops : list op) :
  reachable abspath construct s ->
  (forall k, is_Some (classes (self s) !! k) ->
     is_Some (classes (self (run abspath construct ops s)) !! k))
  /\ (forall v, is_Some (ids (self s) !! v) ->
        is_Some (ids (self (run abspath construct ops s)) !! v)).
Proof.
  intros Hr. pose proof (reachable_keyed abspath construct s Hr) as Hs.
  cut (keyed (self (run abspath construct ops s))
       /\ (forall k, is_Some (classes (self s) !! k) ->
             is_Some (classes (self (run abspath construct ops s)) !! k))
       /\ (forall v, is_Some (ids (self s) !! v) ->
             is_Some (ids (self (run abspath construct ops s)) !! v))).
  { by intros (_ & ? & ?). }
  apply (run_invariant abspath construct
           (fun c' => keyed c'
              /\ (forall k, is_Some (classes (self s) !! k) -> is_Some (classes c' !! k))
              /\ (forall v, is_Some (ids (self s) !! v) -> is_Some (ids c' !! v))));
    [| done].
  apply (exec_invariant abspath construct
           (fun c' => keyed c'
              /\ (forall k, is_Some (classes (self s) !! k) -> is_Some (classes c' !! k))
              /\ (forall v, is_Some (ids (self s) !! v) -> is_Some (ids c' !! v)))).
  - intros c' o' (H1 & H2 & H3). split; [by eapply keyed_same |]. done.
  - intros cls s0 (H1 & H2 & H3). split; [by apply register_keyed |].
    unfold after.
    destruct (register_cases abspath cls s0) as [[e ->] | (i & Hid & _ & ->)];
      [done |].
    cbn. split.
    + intros k Hk. by apply lookup_insert_is_Some'; right; apply H2.
    + intros v Hv. by apply lookup_insert_is_Some'; right; apply H3.
  - intros l s0 (H1 & H2 & H3). split; [by apply set_interface_keyed |].
    rewrite (set_interface_classes l s0).
    + by destruct (set_interface_frame l s0) as (_ & _ & -> & _).
    + intros v. by apply keyed_no_class_key.
  - intros cls s0 (H1 & H2 & H3).
    split; [by apply _set_default_keyed |].
    unfold after.
    destruct (_set_default_cases abspath cls s0)
      as [[e ->] | (i & s1 & Hid & Hs1 & ->)]; [done |].
    assert ((forall k, is_Some (classes (self s) !! k) ->
               is_Some (classes (self s1) !! k))
            /\ (forall v, is_Some (ids (self s) !! v) -> is_Some (ids (self s1) !! v)))
      as [H2' H3'].
    { destruct Hs1 as [[_ ->] | [Hnone Hreg]]; [done |].
      destruct (register_cases abspath cls s0) as [[e He] | (i' & _ & _ & Hreg')];
        [congruence |].
      rewrite Hreg' in Hreg. injection Hreg as <-. cbn. split.
      - intros k Hk. by apply lookup_insert_is_Some'; right; apply H2.
      - intros v Hv. by apply lookup_insert_is_Some'; right; apply H3. }
    by destruct (bool_decide _).
Qed.

End registering.

Lemma steady_default_resolves_witness :
  exists v i,
    default_id (self (run Sample.abspath Sample.construct
                        [SetDefault (PCls Sample.Codec); SetDefaultById (KStr "nowhere");
                         GetAndInstantiate []] Fixture.storage)) = Some i
    /\ Category._get_default
         (run Sample.abspath Sample.construct
            [SetDefault (PCls Sample.Codec); SetDefaultById (KStr "nowhere");
             GetAndInstantiate []] Fixture.storage)
       = (Ok v,
          run Sample.abspath Sample.construct
            [SetDefault (PCls Sample.Codec); SetDefaultById (KStr "nowhere");
             GetAndInstantiate []] Fixture.storage)
    /\ _get_class_name Sample.abspath
         (getcwd (run Sample.abspath Sample.construct
                    [SetDefault (PCls Sample.Codec); SetDefaultById (KStr "nowhere");
                     GetAndInstantiate []] Fixture.storage)) v = Ok i.
Proof.
  apply (steady_default_resolves Sample.abspath Sample.construct).
  apply steady_run; [apply storage_steady |].
  repeat (apply List.Forall_cons; [discriminate |]). apply List.Forall_nil.
Defined.

Lemma creation_attributes_fixed_witness :
  Category.__init__ Sample.abspath "storage" (PCls Sample.Plain) (Some []) true Sample.w0
    = (Ok (Sample.new "storage" (PCls Sample.Plain) [] true), Sample.w0)
  /\ name (self (run Sample.abspath Sample.construct
                   [SetDefault (PCls Sample.Codec); SetInterface [PCls Sample.IEncode]]
                   Fixture.storage)) = "storage"
  /\ system_default (self (run Sample.abspath Sample.construct
                   [SetDefault (PCls Sample.Codec); SetInterface [PCls Sample.IEncode]]
                   Fixture.storage))
     = (if truth (PCls Sample.Plain) then Some (PCls Sample.Plain) else None)
  /\ is_single (self (run Sample.abspath Sample.construct
                   [SetDefault (PCls Sample.Codec); SetInterface [PCls Sample.IEncode]]
                   Fixture.storage)) = true.
Proof.
  assert (Category.__init__ Sample.abspath "storage" (PCls Sample.Plain) (Some []) true
            Sample.w0
          = (Ok (Sample.new "storage" (PCls Sample.Plain) [] true), Sample.w0)) as Hinit.
  { apply (sample_new_init _ _ _ _ "/ext/plain.py:Plain"); [reflexivity |].
    intros j Hj. by apply elem_of_nil in Hj. }
  split; [exact Hinit |].
  exact (creation_attributes_fixed Sample.abspath Sample.construct
           "storage" (PCls Sample.Plain) (Some []) true Sample.w0
           (Sample.new "storage" (PCls Sample.Plain) [] true) Sample.w0
           [SetDefault (PCls Sample.Codec); SetInterface [PCls Sample.IEncode]]
           Hinit).
Defined.

Lemma interfaces_set_once_witness :
  interfaces (self Fixture.codec) = [PCls Sample.IEncode]
  /\ interfaces (self (run Sample.abspath Sample.construct
                         [SetInterface []; SetInterface [PNone];
                          Register (PCls Sample.Plain)] Fixture.codec))
     = interfaces (self Fixture.codec).
Proof.
  assert (interfaces (self Fixture.codec) = [PCls Sample.IEncode]) as Hifs
    by (by vm_compute).
  split; [exact Hifs |].
  apply (interfaces_set_once Sample.abspath Sample.construct Fixture.codec).
  rewrite Hifs. discriminate.
Defined.

Lemma registered_stays_witness :
  (forall k, is_Some (classes (self Fixture.codec) !! k) ->
     is_Some (classes (self (run Sample.abspath Sample.construct
                               [SetInterface [PNone]; Chdir "/tmp";
                                SetDefault (PCls Sample.Plain);
                                Register (PCls Fixture.CodecSource)]
                               Fixture.codec)) !! k))
  /\ (forall v, is_Some (ids (self Fixture.codec) !! v) ->
        is_Some (ids (self (run Sample.abspath Sample.construct
                              [SetInterface [PNone]; Chdir "/tmp";
                               SetDefault (PCls Sample.Plain);
                               Register (PCls Fixture.CodecSource)]
                              Fixture.codec)) !! v)).
Proof.
  exact (registered_stays Sample.abspath Sample.construct Fixture.codec
           [SetInterface [PNone]; Chdir "/tmp"; SetDefault (PCls Sample.Plain);
            Register (PCls Fixture.CodecSource)] codec_reachable).
Defined.

(** ** Selecting and asking back *)

Section selecting.

Variable abspath : string -> string -> string.
Variable construct : Cls -> list pyval -> res (bool * bool).

(** X8: after [_set_default] has returned, [default_id] is the identifier
    the object selected has in the working directory of the call.  When
    the object was not known to the category before the call,
    [_get_default] then returns that very object; and on a category a
    program can hold whose working directory was left alone since it was
    created, [_get_default] returns an object with that identifier. *)
Theorem set_default_then_get_default (cls : pyval) (s s' : St) :
  Category._set_default abspath cls s = (Ok tt, s') ->
  exists i,
    _get_class_name abspath (getcwd s) cls = Ok i
    /\ default_id (self s') = Some i
    /\ (ids (self s) !! cls = None -> Category._get_default s' = (Ok cls, s'))
    /\ (steady abspath construct s ->
        exists v, Category._get_default s' = (Ok v, s')
                  /\ _get_class_name abspath (getcwd s') v = Ok i).
Proof.
  intros Hrun.
  destruct (_set_default_ok abspath cls s s' Hrun) as (Hw & i & Hid & Hd & Hnew & _).
  exists i. split; [done |]. split; [done |]. split.
  - intros Hnone. destruct (Hnew Hnone) as [Hcls _].
    rewrite _get_default_run, Hd. unfold getitem. cbn. by rewrite Hcls.
  - intros Hs.
    pose proof (_set_default_sound abspath cls s (steady_sound abspath construct s Hs))
      as (Hc & _ & (j & Hj & [v Hv])).
    unfold after in Hc, Hj, Hv. rewrite Hrun in Hc, Hj, Hv. cbn in Hc, Hj, Hv.
    assert (j = i) as -> by congruence.
    destruct (Hc _ _ Hv) as (i' & Hkey & Hname & _). injection Hkey as <-.
    exists v. split.
    + rewrite _get_default_run, Hd. unfold getitem. cbn. by rewrite Hv.
    + unfold getcwd in *. by rewrite Hw.
Qed.

(** X9: [_set_default] returns exactly when the object has an identifier
    in the working directory of the call and is already known to the
    category or meets every interface; an object registered before the
    interfaces were attached can still be selected. *)
Theorem set_default_returns_iff (cls : pyval) (s : St) :
  fst (Category._set_default abspath cls s) = Ok tt <->
  (exists i, _get_class_name abspath (getcwd s) cls = Ok i)
  /\ (is_Some (ids (self s) !! cls)
      \/ forall j, j ∈ interfaces (self s) -> is_implementation cls j = true).
Proof.
  split.
  - intros Hok.
    destruct (_set_default_cases abspath cls s)
      as [[e He] | (i & s1 & Hid & Hs1 & _)]; [by rewrite He in Hok |].
    split; [by exists i |].
    destruct Hs1 as [[Hold _] | [Hnone Hreg]].
    + left. by destruct (ids (self s) !! cls).
    + right. destruct (register_cases abspath cls s)
        as [[e He] | (i' & _ & Hall & _)]; [congruence | done].
  - intros [[i Hid] Hcase].
    destruct (_set_default_cases abspath cls s)
      as [[e He] | (i' & s1 & _ & _ & ->)]; [| done].
    rewrite _set_default_unfold in He.
    destruct (decide (ids (self s) !! cls = None)) as [Hnew | Hold].
    + destruct Hcase as [[j Hj] | Hall]; [congruence |].
      rewrite bool_decide_eq_true_2 in He by done.
      rewrite (register_ok abspath cls s i Hall Hid) in He.
      rewrite getcwd_MkSt in He. fold (getcwd s) in He. rewrite Hid in He.
      by destruct (bool_decide _).
    + rewrite bool_decide_eq_false_2 in He by done.
      unfold ret in He. rewrite Hid in He. by destruct (bool_decide _).
Qed.

(** X10: two class objects with one identifier share one entry of the
    table.  After both were registered the entry holds the second; the
    first is still known to [ids], so selecting the first as default
    returns, and [_get_default] then hands out the second. *)
Theorem same_identifier_shadows (cls1 cls2 : pyval) (i : string) (s : St) :
  cls1 <> cls2 ->
  _get_class_name abspath (getcwd s) cls1 = Ok i ->
  _get_class_name abspath (getcwd s) cls2 = Ok i ->
  (forall j, j ∈ interfaces (self s) ->
     is_implementation cls1 j = true /\ is_implementation cls2 j = true) ->
  classes (self (after (Category.register abspath cls2)
                   (after (Category.register abspath cls1) s))) !! KStr i = Some cls2
  /\ fst (Category._set_default abspath cls1
            (after (Category.register abspath cls2)
               (after (Category.register abspath cls1) s))) = Ok tt
  /\ fst (Category._get_default
            (after (Category._set_default abspath cls1)
               (after (Category.register abspath cls2)
                  (after (Category.register abspath cls1) s)))) = Ok cls2.
Proof.
  intros Hne Hid1 Hid2 Hall. unfold after.
  rewrite (register_ok abspath cls1 s i) by (done || by intros j Hj; apply Hall).
  cbn [snd].
  rewrite (register_ok abspath cls2 _ i) by (done || by intros j Hj; apply Hall).
  cbn [snd]. unfold set_ids, set_classes. cbn [self classes ids default_id].
  split; [by rewrite lookup_insert_eq |].
  rewrite _set_default_unfold. cbn [self classes ids default_id].
  rewrite bool_decide_eq_false_2.
  2:{ rewrite lookup_insert_ne by done. rewrite lookup_insert_eq. done. }
  unfold ret. rewrite getcwd_MkSt. cbn [world]. fold (getcwd s). rewrite Hid1.
  destruct (bool_decide _) eqn:Hdec; cbn [fst snd]; (split; [done |]);
    rewrite _get_default_run; cbn [fst]; unfold getitem.
  - cbn. by rewrite lookup_insert_eq.
  - apply bool_decide_eq_false, dec_stable in Hdec. cbn in Hdec. rewrite Hdec.
    cbn. by rewrite lookup_insert_eq.
Qed.

End selecting.

Lemma run_eq {A} (m : M St A) (s : St) (r : res A) :
  fst (m s) = r -> m s = (r, after m s).
Proof. unfold after. intros <-. by destruct (m s). Qed.

Lemma set_default_then_get_default_witness :
  exists i,
    _get_class_name Sample.abspath (getcwd Fixture.storage) (PCls Sample.Codec) = Ok i
    /\ default_id (self (after (Category._set_default Sample.abspath (PCls Sample.Codec))
                           Fixture.storage)) = Some i
    /\ (ids (self Fixture.storage) !! PCls Sample.Codec = None ->
        Category._get_default
          (after (Category._set_default Sample.abspath (PCls Sample.Codec))
             Fixture.storage)
        = (Ok (PCls Sample.Codec),
           after (Category._set_default Sample.abspath (PCls Sample.Codec))
             Fixture.storage))
    /\ (steady Sample.abspath Sample.construct Fixture.storage ->
        exists v,
          Category._get_default
            (after (Category._set_default Sample.abspath (PCls Sample.Codec))
               Fixture.storage)
          = (Ok v,
             after (Category._set_default Sample.abspath (PCls Sample.Codec))
               Fixture.storage)
          /\ _get_class_name Sample.abspath
               (getcwd (after (Category._set_default Sample.abspath (PCls Sample.Codec))
                          Fixture.storage)) v = Ok i).
Proof.
  apply (set_default_then_get_default Sample.abspath Sample.construct
           (PCls Sample.Codec) Fixture.storage
           (after (Category._set_default Sample.abspath (PCls Sample.Codec))
              Fixture.storage)).
  apply run_eq. by vm_compute.
Defined.

Lemma set_default_returns_iff_witness :
  fst (Category._set_default Sample.abspath (PCls Sample.Plain) Fixture.codec) = Ok tt <->
  (exists i, _get_class_name Sample.abspath (getcwd Fixture.codec)
               (PCls Sample.Plain) = Ok i)
  /\ (is_Some (ids (self Fixture.codec) !! PCls Sample.Plain)
      \/ forall j, j ∈ interfaces (self Fixture.codec) ->
                   is_implementation (PCls Sample.Plain) j = true).
Proof.
  exact (set_default_returns_iff Sample.abspath (PCls Sample.Plain) Fixture.codec).
Defined.

Lemma same_identifier_shadows_witness :
  classes (self (after (Category.register Sample.abspath (PCls Fixture.Plain2))
                   (after (Category.register Sample.abspath (PCls Sample.Plain))
                      Fixture.icons))) !! KStr "/ext/plain.py:Plain"
    = Some (PCls Fixture.Plain2)
  /\ fst (Category._set_default Sample.abspath (PCls Sample.Plain)
            (after (Category.register Sample.abspath (PCls Fixture.Plain2))
               (after (Category.register Sample.abspath (PCls Sample.Plain))
                  Fixture.icons))) = Ok tt
  /\ fst (Category._get_default
            (after (Category._set_default Sample.abspath (PCls Sample.Plain))
               (after (Category.register Sample.abspath (PCls Fixture.Plain2))
                  (after (Category.register Sample.abspath (PCls Sample.Plain))
                     Fixture.icons)))) = Ok (PCls Fixture.Plain2).
Proof.
  apply (same_identifier_shadows Sample.abspath (PCls Sample.Plain)
           (PCls Fixture.Plain2) "/ext/plain.py:Plain" Fixture.icons).
  - intros H. discriminate H.
  - reflexivity.
  - reflexivity.
  - intros j Hj.
    assert (interfaces (self Fixture.icons) = []) as Hifs by (by vm_compute).
    rewrite Hifs in Hj. by apply elem_of_nil in Hj.
Defined.

(** ** Instances *)

Section instances.

Variable abspath : string -> string -> string.
Variable construct : Cls -> list pyval -> res (bool * bool).


(** X12: on a single-instance category with nothing saved, the first
    [get_and_instantiate] constructs an instance of the default class and,
    when the instance accepts weak references, saves it; while that
    instance is alive and true, the next call returns the same instance
    whatever its arguments, constructs nothing and changes nothing. *)
Theorem single_instance_reuses (s : St) (c : Cls) (args1 args2 : list pyval) :
  is_single (self s) = true ->
  instance (self s) = None ->
  Category._get_default s = (Ok (PCls c), s) ->
  construct c args1 = Ok (true, true) ->
  Category.get_and_instantiate construct args1 s
    = (Ok (Some (MkObj (w_next (world s)) c args1 true true)),
       MkSt (set_instance (Some (MkObj (w_next (world s)) c args1 true true)) (self s))
            (allocated (world s)))
  /\ Category.get_and_instantiate construct args2
       (MkSt (set_instance (Some (MkObj (w_next (world s)) c args1 true true)) (self s))
             (allocated (world s)))
     = (Ok (Some (MkObj (w_next (world s)) c args1 true true)),
        MkSt (set_instance (Some (MkObj (w_next (world s)) c args1 true true)) (self s))
             (allocated (world s))).
Proof.
  intros Hm Hi Hget H1.
  rewrite (get_and_instantiate_fresh construct args1 s c true true Hi Hget H1), Hm
    by (by right).
  split; [done |].
  apply get_and_instantiate_saved; [done | | done].
  cbn. apply elem_of_union_l. by apply elem_of_singleton.
Qed.

(** X13: the saved instance is held weakly.  Once the last strong
    reference to it is gone, [get_instance] returns [None], and the next
    [get_and_instantiate] constructs a new instance from its own arguments
    and, when that instance accepts weak references, saves it. *)
Theorem released_instance_is_rebuilt (s : St) (o : Obj) (c : Cls)
    (args : list pyval) (t : bool) :
  is_single (self s) = true ->
  instance (self s) = Some o ->
  Category._get_default s = (Ok (PCls c), s) ->
  construct c args = Ok (t, true) ->
  Category.get_instance (release (obj_oid o) s) = (Ok None, release (obj_oid o) s)
  /\ Category.get_and_instantiate construct args (release (obj_oid o) s)
     = (Ok (Some (MkObj (w_next (world s)) c args t true)),
        MkSt (set_instance (Some (MkObj (w_next (world s)) c args t true)) (self s))
             (allocated (world (release (obj_oid o) s)))).
Proof.
  intros Hm Hi Hget Hnew.
  assert (obj_oid o ∉ w_live (world (release (obj_oid o) s))) as Hdead.
  { cbn. intros [_ Hin]%elem_of_difference. apply Hin. by apply elem_of_singleton. }
  split.
  - rewrite get_instance_run. cbn [self release]. rewrite Hi.
    by rewrite bool_decide_eq_false_2.
  - rewrite get_and_instantiate_unfold. cbv zeta. cbn [self release]. rewrite Hi.
    rewrite bool_decide_eq_false_2 by done. cbn.
    rewrite _get_default_run in Hget. injection Hget as ->.
    by rewrite Hnew, Hm.
Qed.

(** X14: after an object with another identifier has been selected as
    default nothing is saved any more, and the next [get_and_instantiate]
    constructs an instance of the object that is now the default; it
    returns that instance when the category is not in single-instance mode
    or the instance accepts weak references. *)
Theorem new_default_is_instantiated (s s' : St) (cls : pyval) (i : string)
    (c : Cls) (args : list pyval) (t r : bool) :
  _get_class_name abspath (getcwd s) cls = Ok i ->
  default_id (self s) <> Some i ->
  Category._set_default abspath cls s = (Ok tt, s') ->
  Category._get_default s' = (Ok (PCls c), s') ->
  construct c args = Ok (t, r) ->
  is_single (self s') = false \/ r = true ->
  default_id (self s') = Some i
  /\ Category.get_instance s' = (Ok None, s')
  /\ fst (Category.get_and_instantiate construct args s')
     = Ok (Some (MkObj (w_next (world s')) c args t r)).
Proof.
  intros Hid Hne Hrun Hget Hnew Hweak.
  destruct (_set_default_other_forgets abspath cls s i Hid Hne) as [Hd Hi].
  { by rewrite Hrun. }
  unfold after in Hd, Hi. rewrite Hrun in Hd, Hi. cbn in Hd, Hi.
  split; [done |]. split; [by rewrite get_instance_run, Hi |].
  by rewrite (get_and_instantiate_fresh construct args s' c t r Hi Hget Hnew Hweak).
Qed.

End instances.

Lemma get_default_eq (s : St) (v : pyval) :
  getitem (classes (self s)) (id_key (default_id (self s))) = Ok v ->
  Category._get_default s = (Ok v, s).
Proof. intros H. by rewrite _get_default_run, H. Qed.


Lemma single_instance_reuses_witness :
  Category.get_and_instantiate Sample.construct [] Fixture.storage
    = (Ok (Some (MkObj (w_next (world Fixture.storage)) Sample.Plain [] true true)),
       MkSt (set_instance
               (Some (MkObj (w_next (world Fixture.storage)) Sample.Plain [] true true))
               (self Fixture.storage))
            (allocated (world Fixture.storage)))
  /\ Category.get_and_instantiate Sample.construct [PNone]
       (MkSt (set_instance
                (Some (MkObj (w_next (world Fixture.storage)) Sample.Plain [] true true))
                (self Fixture.storage))
             (allocated (world Fixture.storage)))
     = (Ok (Some (MkObj (w_next (world Fixture.storage)) Sample.Plain [] true true)),
        MkSt (set_instance
                (Some (MkObj (w_next (world Fixture.storage)) Sample.Plain [] true true))
                (self Fixture.storage))
             (allocated (world Fixture.storage))).
Proof.
  apply (single_instance_reuses Sample.construct Fixture.storage Sample.Plain
           [] [PNone]).
  - by vm_compute.
  - by vm_compute.
  - apply get_default_eq. by vm_compute.
  - reflexivity.
Defined.

Lemma released_instance_is_rebuilt_witness :
  let s := exec Sample.abspath Sample.construct (GetAndInstantiate []) Fixture.storage in
  Category.get_instance (release 0 s) = (Ok None, release 0 s)
  /\ Category.get_and_instantiate Sample.construct [PNone] (release 0 s)
     = (Ok (Some (MkObj (w_next (world s)) Sample.Plain [PNone] true true)),
        MkSt (set_instance
                (Some (MkObj (w_next (world s)) Sample.Plain [PNone] true true))
                (self s))
             (allocated (world (release 0 s)))).
Proof.
  cbv zeta.
  apply (released_instance_is_rebuilt Sample.construct
           (exec Sample.abspath Sample.construct (GetAndInstantiate []) Fixture.storage)
           (MkObj 0 Sample.Plain [] true true) Sample.Plain [PNone] true).
  - by vm_compute.
  - by vm_compute.
  - apply get_default_eq. by vm_compute.
  - reflexivity.
Defined.

Lemma new_default_is_instantiated_witness :
  let s := exec Sample.abspath Sample.construct (GetAndInstantiate []) Fixture.storage in
  let s' := after (Category._set_default Sample.abspath (PCls Sample.Codec)) s in
  instance (self s) = Some (MkObj 0 Sample.Plain [] true true)
  /\ default_id (self s') = Some "/ext/codec.py:Codec"
  /\ Category.get_instance s' = (Ok None, s')
  /\ fst (Category.get_and_instantiate Sample.construct [] s')
     = Ok (Some (MkObj (w_next (world s')) Sample.Codec [] true true)).
Proof.
  cbv zeta. split; [by vm_compute |].
  apply (new_default_is_instantiated Sample.abspath Sample.construct
           (exec Sample.abspath Sample.construct (GetAndInstantiate []) Fixture.storage)
           (after (Category._set_default Sample.abspath (PCls Sample.Codec))
              (exec Sample.abspath Sample.construct (GetAndInstantiate [])
                 Fixture.storage))
           (PCls Sample.Codec) "/ext/codec.py:Codec" Sample.Codec [] true true).
  - by vm_compute.
  - assert (default_id (self (exec Sample.abspath Sample.construct
                                (GetAndInstantiate []) Fixture.storage))
            = Some "/ext/plain.py:Plain") as -> by (by vm_compute).
    intros H. discriminate H.
  - apply run_eq. by vm_compute.
  - apply get_default_eq. by vm_compute.
  - reflexivity.
  - by right.
Defined.

(** ** Attaching interfaces, the two ways it goes *)

Section attaching.

Variable abspath : string -> string -> string.
Variable construct : Cls -> list pyval -> res (bool * bool).

(** X15: on a category a program can hold that has no interfaces yet, if
    some registered class fails one of the new interfaces, [set_interface]
    raises [KeyError] with a class as the missing key.  The new interfaces
    stay attached and the table is not filtered, and from then on every
    further [set_interface] returns [False] and changes nothing. *)
Theorem set_interface_failure_sticks (s : St) (l : list pyval) k v i :
  reachable abspath construct s ->
  interfaces (self s) = [] ->
  classes (self s) !! k = Some v ->
  i ∈ l -> is_implementation v i = false ->
  exists cls,
    fst (Category.set_interface l s) = Raise (KeyError (KVal cls))
    /\ interfaces (self (after (Category.set_interface l) s)) = l
    /\ classes (self (after (Category.set_interface l) s)) = classes (self s)
    /\ forall l',
         Category.set_interface l' (after (Category.set_interface l) s)
         = (Ok false, after (Category.set_interface l) s).
Proof.
  intros Hr Hifs Hk Hi Himpl.
  assert (v ∈ Category.failing (values (classes (self s))) l) as Hin.
  { apply elem_of_failing. split; [apply elem_of_values; by exists k |]. by exists i. }
  destruct (Category.failing (values (classes (self s))) l) as [| cls rest] eqn:Hfail.
  { by apply elem_of_nil in Hin. }
  exists cls. unfold after.
  rewrite (set_interface_nonconforming l s cls rest Hifs); [| | done].
  - cbn [fst snd]. split; [done |]. split; [done |]. split; [done |].
    intros l'. apply set_interface_constrained. cbn [self interfaces set_interfaces].
    intros ->. by apply elem_of_nil in Hi.
  - intros x. apply keyed_no_class_key.
    by apply (reachable_keyed abspath construct).
Qed.

(** X16: on a category without interfaces whose registered classes all
    meet the new interfaces, [set_interface] returns [True], attaches them
    and leaves the table alone; from then on [register] refuses, with
    [ValueError] and no change, every class that fails one of them. *)
Theorem set_interface_then_enforced (s : St) (l : list pyval) :
  interfaces (self s) = [] ->
  (forall k v i, classes (self s) !! k = Some v -> i ∈ l ->
     is_implementation v i = true) ->
  Category.set_interface l s = (Ok true, MkSt (set_interfaces l (self s)) (world s))
  /\ forall cls,
       (exists i, i ∈ l /\ is_implementation cls i = false) ->
       exists msg,
         Category.register abspath cls (MkSt (set_interfaces l (self s)) (world s))
         = (Raise (ValueError msg), MkSt (set_interfaces l (self s)) (world s)).
Proof.
  intros Hifs Hall. split.
  - apply set_interface_all_conform; [done |].
    destruct (Category.failing (values (classes (self s))) l) as [| v rest] eqn:Hfail;
      [done |].
    assert (v ∈ Category.failing (values (classes (self s))) l) as Hin
      by (rewrite Hfail; apply list_elem_of_here).
    apply elem_of_failing in Hin as [[k Hk]%elem_of_values (i & Hi & Hno)].
    rewrite (Hall k v i Hk Hi) in Hno. done.
  - intros cls Hno.
    destruct (agree_raises cls l (MkSt (set_interfaces l (self s)) (world s)) Hno)
      as (i & _ & _ & Hrun).
    eexists. rewrite register_unfold. cbn [self interfaces set_interfaces].
    by rewrite Hrun.
Qed.

(** X17: on a category a program can hold whose working directory was
    left alone since it was created, [use] returns without raising and
    changes nothing: in single-instance mode the view wraps the one entry
    that maps [default_id] to the default, otherwise it wraps the whole
    table. *)
Theorem use_view (s : St) :
  steady abspath construct s ->
  exists v i,
    default_id (self s) = Some i
    /\ classes (self s) !! KStr i = Some v
    /\ Category.use s
       = (Ok (MkMultipleObjects
                (if is_single (self s) then {[ KStr i := v ]}
                 else classes (self s))), s).
Proof.
  intros Hr. destruct (steady_sound abspath construct s Hr)
    as (_ & _ & (i & Hd & [v Hv])).
  exists v, i. split; [done |]. split; [done |].
  unfold Category.use, Category._get_default, Category.get_extensions,
    bind, attr, gets, lift_res, ret, getitem. cbn.
  destruct (is_single (self s)); [| done]. cbn. rewrite Hd. cbn. by rewrite Hv.
Qed.

End attaching.

Lemma sample_new_classes (n : string) (sd : pyval) (ifs : list pyval) (single : bool)
    (i : string) :
  _get_class_name Sample.abspath (w_cwd Sample.w0) sd = Ok i ->
  (forall j, j ∈ ifs -> is_implementation sd j = true) ->
  classes (Sample.new n sd ifs single) = {[ KStr i := sd ]}.
Proof.
  intros Hid Hall. unfold Sample.new.
  by rewrite (__init___class Sample.abspath n sd (Some ifs) single Sample.w0 i).
Qed.

Lemma open_codec_reachable :
  reachable Sample.abspath Sample.construct Fixture.open_codec.
Proof.
  apply (sample_reachable _ _ _ _ "/ext/codec.py:Codec"); [reflexivity |].
  intros j Hj. by apply elem_of_nil in Hj.
Qed.

Lemma set_interface_failure_sticks_witness :
  let s := exec Sample.abspath Sample.construct (Register (PCls Sample.Plain))
             Fixture.open_codec in
  exists cls,
    fst (Category.set_interface [PCls Sample.IEncode] s) = Raise (KeyError (KVal cls))
    /\ interfaces (self (after (Category.set_interface [PCls Sample.IEncode]) s))
       = [PCls Sample.IEncode]
    /\ classes (self (after (Category.set_interface [PCls Sample.IEncode]) s))
       = classes (self s)
    /\ forall l',
         Category.set_interface l' (after (Category.set_interface [PCls Sample.IEncode]) s)
         = (Ok false, after (Category.set_interface [PCls Sample.IEncode]) s).
Proof.
  cbv zeta.
  apply (set_interface_failure_sticks Sample.abspath Sample.construct
           (exec Sample.abspath Sample.construct (Register (PCls Sample.Plain))
              Fixture.open_codec)
           [PCls Sample.IEncode] (KStr "/ext/plain.py:Plain") (PCls Sample.Plain)
           (PCls Sample.IEncode)).
  - apply reachable_exec, open_codec_reachable.
  - by vm_compute.
  - by vm_compute.
  - apply list_elem_of_here.
  - reflexivity.
Defined.

Lemma set_interface_then_enforced_witness :
  Category.set_interface [PCls Sample.IEncode] Fixture.open_codec
    = (Ok true,
       MkSt (set_interfaces [PCls Sample.IEncode] (self Fixture.open_codec))
            (world Fixture.open_codec))
  /\ forall cls,
       (exists i, i ∈ [PCls Sample.IEncode] /\ is_implementation cls i = false) ->
       exists msg,
         Category.register Sample.abspath cls
           (MkSt (set_interfaces [PCls Sample.IEncode] (self Fixture.open_codec))
                 (world Fixture.open_codec))
         = (Raise (ValueError msg),
            MkSt (set_interfaces [PCls Sample.IEncode] (self Fixture.open_codec))
                 (world Fixture.open_codec)).
Proof.
  apply (set_interface_then_enforced Sample.abspath Fixture.open_codec
           [PCls Sample.IEncode]).
  - by vm_compute.
  - intros k v i Hk Hi. apply list_elem_of_singleton in Hi as ->.
    unfold Fixture.open_codec in Hk. cbn [self] in Hk.
    rewrite (sample_new_classes "codec" (PCls Sample.Codec) [] false
               "/ext/codec.py:Codec")
      in Hk; [| reflexivity | intros j Hj; by apply elem_of_nil in Hj].
    apply lookup_singleton_Some in Hk as [_ <-]. reflexivity.
Defined.

Lemma use_view_witness :
  exists v i,
    default_id (self Fixture.storage) = Some i
    /\ classes (self Fixture.storage) !! KStr i = Some v
    /\ Category.use Fixture.storage
       = (Ok (MkMultipleObjects
                (if is_single (self Fixture.storage) then {[ KStr i := v ]}
                 else classes (self Fixture.storage))), Fixture.storage).
Proof.
  exact (use_view Sample.abspath Sample.construct Fixture.storage storage_steady).
Defined.

(** ** Identifiers *)

Lemma append_nil (s : string) : "" +:+ s = s.
Proof. reflexivity. Qed.

Lemma append_cons (x : Ascii.ascii) (a s : string) : String x a +:+ s = String x (a +:+ s).
Proof. reflexivity. Qed.

Lemma append_assoc (a b c : string) : (a +:+ b) +:+ c = a +:+ (b +:+ c).
Proof.
  induction a as [| x a IH]; [done |]. rewrite !append_cons. by rewrite IH.
Qed.

Lemma length_append (a b : string) :
  String.length (a +:+ b) = String.length a + String.length b.
Proof.
  induction a as [| x a IH]; [done |]. rewrite append_cons. simpl. by rewrite IH.
Qed.

Lemma substring_whole (s : string) : String.substring 0 (String.length s) s = s.
Proof. induction s as [| x s IH]; [done |]. simpl. by rewrite IH. Qed.

Lemma substring_skip (p s : string) (n : nat) :
  String.substring (String.length p) n (p +:+ s) = String.substring 0 n s.
Proof. induction p as [| x p IH]; [done |]. rewrite append_cons. simpl. apply IH. Qed.

Lemma substring_prefix (p s : string) :
  String.substring 0 (String.length p) (p +:+ s) = p.
Proof.
  induction p as [| x p IH]; [by destruct s |].
  rewrite append_cons. simpl. by rewrite IH.
Qed.

Lemma substring_split (s : string) (n : nat) :
  n <= String.length s ->
  s = String.substring 0 n s +:+ String.substring n (String.length s - n) s.
Proof.
  revert n. induction s as [| x s IH]; intros n Hn.
  - simpl in Hn. by replace n with 0 by lia.
  - destruct n as [| n].
    + simpl. by rewrite substring_whole.
    + simpl. rewrite append_cons. f_equal. apply IH. simpl in Hn. lia.
Qed.

Lemma endswith_append (p suf : string) : endswith (p +:+ suf) suf = true.
Proof.
  unfold endswith. rewrite length_append.
  replace (String.length p + String.length suf - String.length suf)
    with (String.length p) by lia.
  rewrite substring_skip, substring_whole, String.eqb_refl.
  rewrite andb_true_r. apply Nat.leb_le. lia.
Qed.

Lemma endswith_inv (s suf : string) :
  endswith s suf = true -> exists p, s = p +:+ suf.
Proof.
  unfold endswith. intros [Hlen Heq]%andb_true_iff.
  apply Nat.leb_le in Hlen. apply String.eqb_eq in Heq.
  exists (String.substring 0 (String.length s - String.length suf) s).
  pose proof (substring_split s (String.length s - String.length suf)) as Hsplit.
  replace (String.length s - (String.length s - String.length suf))
    with (String.length suf) in Hsplit by lia.
  rewrite Heq in Hsplit. apply Hsplit. lia.
Qed.

Lemma append_last (p q : string) (a b : Ascii.ascii) :
  p +:+ String a "" = q +:+ String b "" -> a = b.
Proof.
  revert q. induction p as [| x p IH]; intros [| y q] H;
    rewrite ?append_nil, ?append_cons in H.
  - congruence.
  - injection H as _ H. destruct q; by rewrite ?append_nil, ?append_cons in H.
  - injection H as _ H. destruct p; by rewrite ?append_nil, ?append_cons in H.
  - injection H as _ H. by apply (IH q).
Qed.

Lemma drop_last_append (p : string) (a : Ascii.ascii) :
  drop_last (p +:+ String a "") = p.
Proof.
  unfold drop_last. rewrite length_append. simpl.
  replace (String.length p + 1 - 1) with (String.length p) by lia.
  apply substring_prefix.
Qed.

Section identifiers.

Variable abspath : string -> string -> string.

(** The identifier of a class whose module file is not a [.pyc] file: the
    absolute path of the file, a colon and the name of the class. *)
Lemma _get_class_name_plain (cwd : string) (c : Cls) (file n : string) :
  cls_file c = File file ->
  cls_name c = Named n ->
  endswith (abspath cwd file) ".pyc" = false ->
  _get_class_name abspath cwd (PCls c) = Ok (abspath cwd file +:+ ":" +:+ n).
Proof. intros Hf Hn H. unfold _get_class_name. by rewrite Hf, Hn, H. Qed.

(** X3: a class has the same identifier whether its module was loaded
    from the compiled file [base.pyc] or from the source [base.py]: in both
    cases the identifier is [base.py:name]. *)
Theorem identifier_ignores_compilation (cwd : string) (c1 c2 : Cls)
    (f1 f2 base n : string) :
  cls_file c1 = File f1 ->
  abspath cwd f1 = base +:+ ".pyc" ->
  cls_file c2 = File f2 ->
  abspath cwd f2 = base +:+ ".py" ->
  cls_name c1 = Named n ->
  cls_name c2 = Named n ->
  _get_class_name abspath cwd (PCls c1) = Ok (base +:+ ".py" +:+ ":" +:+ n)
  /\ _get_class_name abspath cwd (PCls c2) = _get_class_name abspath cwd (PCls c1).
Proof.
  intros Hf1 H1 Hf2 H2 Hn1 Hn2.
  assert (_get_class_name abspath cwd (PCls c1)
          = Ok (base +:+ ".py" +:+ ":" +:+ n)) as Hc1.
  { unfold _get_class_name. rewrite Hf1, Hn1, H1, endswith_append.
    change ".pyc" with (".py" +:+ "c").
    rewrite <- (append_assoc base ".py" "c"), drop_last_append.
    by rewrite append_assoc. }
  split; [done |]. rewrite Hc1, (_get_class_name_plain cwd c2 f2 n Hf2 Hn2).
  - by rewrite H2, append_assoc.
  - rewrite H2. destruct (endswith (base +:+ ".py") ".pyc") eqn:He; [| done].
    apply endswith_inv in He as [p Hp].
    change ".pyc" with (".p" +:+ "y" +:+ "c") in Hp.
    change ".py" with (".p" +:+ "y") in Hp.
    rewrite <- !append_assoc in Hp. by apply append_last in Hp.
Qed.

End identifiers.

Lemma identifier_ignores_compilation_witness :
  _get_class_name Sample.abspath "/home/user" (PCls Sample.Codec)
    = Ok ("/ext/codec" +:+ ".py" +:+ ":" +:+ "Codec")
  /\ _get_class_name Sample.abspath "/home/user" (PCls Fixture.CodecSource)
     = _get_class_name Sample.abspath "/home/user" (PCls Sample.Codec).
Proof.
  apply (identifier_ignores_compilation Sample.abspath "/home/user" Sample.Codec
           Fixture.CodecSource "/ext/codec.pyc" "/ext/codec.py" "/ext/codec" "Codec");
    reflexivity.
Defined.

(** ** The constructor *)

Section constructing.

Variable abspath : string -> string -> string.
Variable construct : Cls -> list pyval -> res (bool * bool).

Lemma __init___world n sd ifs single w r w' :
  Category.__init__ abspath n sd ifs single w = (r, w') -> w' = w.
Proof.
  unfold Category.__init__. intros Hinit.
  match type of Hinit with context [Category._set_default _ _ ?s0] =>
    pose proof (_set_default_world abspath sd s0) as Hw; unfold after in Hw;
    destruct (Category._set_default abspath sd s0) as [[[] | e] s1]
  end; by injection Hinit as _ <-.
Qed.

(** X18: the constructor returns exactly when the system default has an
    identifier (its module has a file, and it has a name) and meets every
    interface asked for; otherwise it raises, an absent system default
    ([None]) included, and the world is as before. *)
Theorem constructor_returns_iff n sd ifs single w :
  ((exists c, Category.__init__ abspath n sd ifs single w = (Ok c, w)) <->
     (exists i, _get_class_name abspath (w_cwd w) sd = Ok i)
     /\ forall j, j ∈ default [] ifs -> is_implementation sd j = true)
  /\ (forall e w', Category.__init__ abspath n sd ifs single w = (Raise e, w') -> w' = w)
  /\ exists e, Category.__init__ abspath n PNone ifs single w = (Raise e, w).
Proof.
  split; [| split].
  - split.
    + intros [c Hinit].
      destruct (__init___ok abspath _ _ _ _ _ _ _ Hinit) as (_ & Hall & i & Hid & _).
      split; [by exists i | done].
    + intros [[i Hid] Hall].
      eexists. by apply (__init___class abspath n sd ifs single w i).
  - intros e w'. apply __init___world.
  - destruct (Category.__init__ abspath n PNone ifs single w) as [[c | e] w'] eqn:Hinit.
    + by destruct (__init___ok abspath _ _ _ _ _ _ _ Hinit) as (_ & _ & i & Hid & _).
    + exists e. by rewrite (__init___world _ _ _ _ _ _ _ Hinit).
Qed.

End constructing.

(** ** The registry, call by call *)

Section registry_histories.

Variable abspath : string -> string -> string.
Variable construct : Cls -> list pyval -> res (bool * bool).

Lemma on_category_run {A} (n : string) (c : Category) (m : M St A) (g : Registry) :
  on_category n c m g
  = (fst (m (MkSt c (reg_world g))),
     MkRegistry (<[n := self (after m (MkSt c (reg_world g)))]> (_categories g))
                (world (after m (MkSt c (reg_world g))))).
Proof. unfold on_category, after. by destruct (m _). Qed.

Lemma snd_bind_ret {S A B} (m : M S A) (f : A -> B) (s : S) :
  snd (bind m (fun a => ret (f a)) s) = snd (m s).
Proof. unfold bind, ret. by destruct (m s) as [[] ?]. Qed.

Lemma get_category_bind {B} (n : string) (k : option Category -> M Registry B)
    (g : Registry) :
  bind (get_category n) k g = k (_categories g !! n) g.
Proof. done. Qed.

Lemma registry_eta (g : Registry) : MkRegistry (_categories g) (reg_world g) = g.
Proof. by destruct g. Qed.

(** What [category_register] does under a new name. *)
Lemma category_register_absent n sd ifs single g :
  _categories g !! n = None ->
  (exists e, category_register abspath n sd ifs single g = (Raise e, g))
  \/ (exists c,
        Category.__init__ abspath n sd
          (Some (match ifs with Iterable l => l | Single v => [v] end))
          single (reg_world g) = (Ok c, reg_world g)
        /\ category_register abspath n sd ifs single g
           = (Ok tt, MkRegistry (<[n := c]> (_categories g)) (reg_world g))).
Proof.
  intros Hnew. unfold category_register, bind, gets. cbn. rewrite Hnew.
  destruct (Category.__init__ abspath n sd _ single (reg_world g))
    as [[c | e] w] eqn:Hinit;
    pose proof (__init___world abspath _ _ _ _ _ _ _ Hinit) as ->.
  - right. by exists c.
  - left. exists e. by rewrite registry_eta.
Qed.

(** A call leaves the registry as it was, or has run one call on the
    category it addresses, or has stored a category just constructed under
    a new name; a change of directory leaves every category as it was. *)
Lemma serve_cases (r : request) (g : Registry) :
  serve abspath construct r g = g
  \/ (exists n c o,
        target r = Some n /\ _categories g !! n = Some c
        /\ (forall d, o <> Chdir d)
        /\ serve abspath construct r g
           = MkRegistry
               (<[n := self (exec abspath construct o (MkSt c (reg_world g)))]>
                  (_categories g))
               (world (exec abspath construct o (MkSt c (reg_world g)))))
  \/ (exists n sd ifs single c,
        target r = Some n /\ _categories g !! n = None
        /\ Category.__init__ abspath n sd ifs single (reg_world g)
           = (Ok c, reg_world g)
        /\ serve abspath construct r g
           = MkRegistry (<[n := c]> (_categories g)) (reg_world g))
  \/ (exists d,
        r = ChangeDirectory d
        /\ serve abspath construct r g
           = MkRegistry (_categories g) (moved d (reg_world g))).
Proof.
  destruct r as [n sd ifs single | n cls | n | | n | n | n | n args | n cls | n id_ | n
                 | d];
    cbn [serve target].
  - destruct (_categories g !! n) as [c |] eqn:Hn.
    + right; left. exists n, c, (SetInterface (match ifs with
                                               | Iterable l => l
                                               | Single v => [v]
                                               end)).
      split; [done |]. split; [done |]. split; [done |].
      unfold category_register, bind at 1, gets. cbn [fst snd]. rewrite Hn.
      rewrite (snd_bind_ret _ (fun _ => tt)), on_category_run. done.
    + destruct (category_register_absent n sd ifs single g Hn)
        as [[e ->] | (c & Hinit & ->)]; [by left |].
      right; right; left. eexists n, sd, _, single, c. by eauto.
  - unfold register. rewrite get_category_bind.
    destruct (_categories g !! n) as [c |] eqn:Hn.
    + right; left. exists n, c, (Register cls).
      split; [done |]. split; [done |]. split; [done |].
      rewrite (snd_bind_ret _ (fun _ => Some true)), on_category_run. done.
    + rewrite (snd_bind_ret _ (fun _ => @None bool)).
      destruct (category_register_absent n cls (Iterable []) false g Hn)
        as [[e ->] | (c & Hinit & ->)]; [by left |].
      right; right; left. eexists n, cls, _, false, c. by eauto.
  - by left.
  - by left.
  - unfold get_extensions. rewrite get_category_bind.
    destruct (_categories g !! n) as [c |] eqn:Hn; [| by left].
    right; left. exists n, c, GetExtensions.
    split; [done |]. split; [done |]. split; [done |].
    rewrite (snd_bind_ret _ Some), on_category_run. done.
  - unfold get_default. rewrite get_category_bind.
    destruct (_categories g !! n) as [c |] eqn:Hn; [| by left].
    right; left. exists n, c, GetDefault.
    split; [done |]. split; [done |]. split; [done |].
    rewrite on_category_run. done.
  - unfold get_instance. rewrite get_category_bind.
    destruct (_categories g !! n) as [c |] eqn:Hn; [| by left].
    right; left. exists n, c, GetInstance.
    split; [done |]. split; [done |]. split; [done |].
    rewrite on_category_run. done.
  - unfold get_and_instantiate. rewrite get_category_bind.
    destruct (_categories g !! n) as [c |] eqn:Hn; [| by left].
    right; left. exists n, c, (GetAndInstantiate args).
    split; [done |]. split; [done |]. split; [done |].
    rewrite on_category_run. done.
  - unfold set_default. rewrite get_category_bind.
    destruct (_categories g !! n) as [c |] eqn:Hn; [| by left].
    right; left. exists n, c, (SetDefault cls).
    split; [done |]. split; [done |]. split; [done |].
    rewrite (snd_bind_ret _ (fun _ => true)), on_category_run. done.
  - unfold set_default_by_id. rewrite get_category_bind.
    destruct (_categories g !! n) as [c |] eqn:Hn; [| by left].
    right; left. exists n, c, (SetDefaultById id_).
    split; [done |]. split; [done |]. split; [done |].
    rewrite (snd_bind_ret _ (fun _ => true)), on_category_run. done.
  - left. unfold get_system_default. rewrite get_category_bind.
    destruct (_categories g !! n) as [c |]; [| done].
    by destruct (system_default c).
  - right; right; right. by exists d.
Qed.

End registry_histories.

Section registry_extras.

Variable abspath : string -> string -> string.
Variable construct : Cls -> list pyval -> res (bool * bool).

Lemma exec_name (o : op) (s : St) :
  name (self (exec abspath construct o s)) = name (self s).
Proof.
  apply (exec_invariant abspath construct (fun c' => name c' = name (self s)));
    [done | | | | done].
  - intros cls s0 H0. unfold after.
    destruct (register_cases abspath cls s0) as [[e ->] | (i & _ & _ & ->)]; done.
  - intros l s0 H0. by destruct (set_interface_fixed l s0) as (-> & _).
  - intros cls s0 H0. unfold after.
    destruct (_set_default_cases abspath cls s0)
      as [[e ->] | (i & s1 & _ & Hs1 & ->)]; [done |].
    assert (name (self s1) = name (self s)) as H1.
    { destruct Hs1 as [[_ ->] | [_ Hreg]]; [done |].
      destruct (register_cases abspath cls s0) as [[e He] | (i' & _ & _ & Hreg')];
        [congruence |].
      rewrite Hreg' in Hreg. by injection Hreg as <-. }
    by destruct (bool_decide _).
Qed.

(** X19: for a name the registry does not hold, every accessor answers
    with [None] or [False], does not raise and leaves the registry as it
    was. *)
Theorem absent_category_answers (n : string) (g : Registry) :
  _categories g !! n = None ->
  get_category n g = (Ok None, g)
  /\ get_extensions n g = (Ok None, g)
  /\ get_default n g = (Ok PNone, g)
  /\ get_instance n g = (Ok None, g)
  /\ (forall args, get_and_instantiate construct n args g = (Ok None, g))
  /\ (forall cls, set_default abspath n cls g = (Ok false, g))
  /\ (forall id_, set_default_by_id abspath n id_ g = (Ok false, g))
  /\ get_system_default n g = (Ok PNone, g).
Proof.
  intros Hn.
  split; [unfold get_category, gets; by rewrite Hn |].
  split; [unfold get_extensions; by rewrite get_category_bind, Hn |].
  split; [unfold get_default; by rewrite get_category_bind, Hn |].
  split; [unfold get_instance; by rewrite get_category_bind, Hn |].
  split; [intros args; unfold get_and_instantiate; by rewrite get_category_bind, Hn |].
  split; [intros cls; unfold set_default; by rewrite get_category_bind, Hn |].
  split; [intros id_; unfold set_default_by_id; by rewrite get_category_bind, Hn |].
  unfold get_system_default. by rewrite get_category_bind, Hn.
Qed.

(** X20: [register] and [set_default] of the registry change nothing when
    they raise: the registry after the exception is the registry before,
    whether the category existed or was to be created. *)
Theorem raising_registration_keeps_registry (n : string) (cls : pyval) (g : Registry) :
  (forall e g', register abspath n cls g = (Raise e, g') -> g' = g)
  /\ (forall e g', set_default abspath n cls g = (Raise e, g') -> g' = g).
Proof.
  split; intros e g'.
  - unfold register. rewrite get_category_bind.
    destruct (_categories g !! n) as [c |] eqn:Hn.
    + unfold bind. rewrite on_category_run. unfold after.
      destruct (Category.register abspath cls (MkSt c (reg_world g)))
        as [[[] | e'] s'] eqn:Hreg; cbn [fst]; [done |].
      apply register_raises in Hreg as ->.
      intros H. injection H as _ <-. cbn. rewrite insert_id by done.
      apply registry_eta.
    + unfold bind.
      destruct (category_register_absent abspath n cls (Iterable []) false g Hn)
        as [[e' ->] | (c & _ & ->)]; [| done].
      intros H. by injection H as _ <-.
  - unfold set_default. rewrite get_category_bind.
    destruct (_categories g !! n) as [c |] eqn:Hn; [| done].
    unfold bind. rewrite on_category_run. unfold after.
    destruct (_set_default_cases abspath cls (MkSt c (reg_world g)))
      as [[e' ->] | (i & s1 & _ & _ & ->)]; cbn [fst snd]; [| done].
    intros H. injection H as _ <-. cbn. rewrite insert_id by done.
    apply registry_eta.
Qed.

(** X21: the registry only grows, and a call touches only the category it
    addresses: through every history of calls a name the registry holds
    stays in it, and a category that no call of the history addresses is
    left exactly as it was. *)
Theorem registry_grows_and_isolates (rs : list request) (g : Registry) (n : string) :
  (is_Some (_categories g !! n) ->
   is_Some (_categories (serve_all abspath construct rs g) !! n))
  /\ ((forall r, r ∈ rs -> target r <> Some n) ->
      _categories (serve_all abspath construct rs g) !! n = _categories g !! n).
Proof.
  revert g. induction rs as [| r rs IH]; intros g; [done |].
  change (serve_all abspath construct (r :: rs) g)
    with (serve_all abspath construct rs (serve abspath construct r g)).
  destruct (IH (serve abspath construct r g)) as [IH1 IH2]. split.
  - intros Hn. apply IH1.
    destruct (serve_cases abspath construct r g)
      as [-> | [(m & c & o & _ & _ & _ & ->)
               | [(m & sd & ifs & single & c & _ & _ & _ & ->) | (d & _ & ->)]]];
      [done | | | done]; cbn; by apply lookup_insert_is_Some'; right.
  - intros Hr. rewrite IH2.
    2:{ intros r' Hr'. apply Hr. by apply list_elem_of_further. }
    assert (target r <> Some n) as Hne by (apply Hr, list_elem_of_here).
    destruct (serve_cases abspath construct r g)
      as [-> | [(m & c & o & Ht & _ & _ & ->)
               | [(m & sd & ifs & single & c & Ht & _ & _ & ->) | (d & _ & ->)]]];
      [done | | | done]; cbn; apply lookup_insert_ne; congruence.
Qed.

Lemma serve_tidy (r : request) (g : Registry) :
  (forall d, r <> ChangeDirectory d) ->
  tidy abspath g -> tidy abspath (serve abspath construct r g).
Proof.
  intros Hr Hg.
  destruct (serve_cases abspath construct r g)
    as [-> | [(m & c & o & _ & Hm & Ho & ->)
             | [(m & sd & ifs & single & c & _ & _ & Hinit & ->) | (d & -> & _)]]];
    [done | | | by destruct (Hr d)].
  - pose proof (exec_getcwd abspath construct o (MkSt c (reg_world g)) Ho) as Hcwd.
    unfold getcwd in Hcwd. cbn [world] in Hcwd.
    intros n c' Hn. cbn [_categories reg_world] in *. rewrite Hcwd.
    destruct (decide (m = n)) as [-> | Hne].
    + rewrite lookup_insert_eq in Hn. injection Hn as <-.
      destruct (Hg n c Hm) as [Hs Hname]. split.
      * pose proof (exec_sound abspath construct o (MkSt c (reg_world g)) Ho Hs) as H.
        unfold getcwd in H. by rewrite Hcwd in H.
      * by rewrite exec_name.
    + rewrite lookup_insert_ne in Hn by done. by apply Hg.
  - intros n c' Hn. cbn [_categories reg_world] in *.
    destruct (decide (m = n)) as [-> | Hne].
    + rewrite lookup_insert_eq in Hn. injection Hn as <-.
      split; [by apply (__init___sound abspath) in Hinit |].
      by destruct (__init___ok abspath _ _ _ _ _ _ _ Hinit) as (_ & _ & i & _ & ->).
    + rewrite lookup_insert_ne in Hn by done. by apply Hg.
Qed.

Lemma serve_all_tidy (rs : list request) (g : Registry) :
  Forall (fun r => forall d, r <> ChangeDirectory d) rs ->
  tidy abspath g -> tidy abspath (serve_all abspath construct rs g).
Proof.
  revert g. induction rs as [| r rs IH]; intros g Hrs Hg; [done |].
  apply Forall_cons in Hrs as [Hr Hrs]. cbn. by apply IH, serve_tidy.
Qed.

(** X22: in a registry built from the empty one by calls of the module's
    functions, with the working directory of the process left alone,
    every category is stored under its own name and [get_default] does not
    raise: for a name the registry holds it returns an object of the table
    of that category, for any other name [None]. *)
Theorem registry_defaults_resolve (rs : list request) (w : World) (n : string) :
  Forall (fun r => forall d, r <> ChangeDirectory d) rs ->
  (forall c, _categories (serve_all abspath construct rs (MkRegistry ∅ w)) !! n = Some c ->
     name c = n
     /\ exists v i,
          classes c !! KStr i = Some v
          /\ fst (get_default n (serve_all abspath construct rs (MkRegistry ∅ w)))
             = Ok v)
  /\ (_categories (serve_all abspath construct rs (MkRegistry ∅ w)) !! n = None ->
      fst (get_default n (serve_all abspath construct rs (MkRegistry ∅ w))) = Ok PNone).
Proof.
  intros Hrs.
  assert (tidy abspath (serve_all abspath construct rs (MkRegistry ∅ w))) as Hg.
  { apply serve_all_tidy; [done |].
    intros m c Hm. cbn in Hm. by rewrite lookup_empty in Hm. }
  set (g := serve_all abspath construct rs (MkRegistry ∅ w)) in *. split.
  - intros c Hc. destruct (Hg n c Hc) as [(_ & _ & (i & Hd & [v Hv])) Hn].
    split; [done |]. exists v, i. split; [done |].
    unfold get_default. rewrite get_category_bind, Hc, on_category_run.
    cbn [fst]. rewrite _get_default_run. cbn [fst self]. rewrite Hd.
    unfold getitem. cbn. by rewrite Hv.
  - intros Hc. unfold get_default. by rewrite !get_category_bind, Hc.
Qed.


(** X24: registering, under a name the registry holds, an object that has
    an identifier and meets the interfaces of the category returns [True],
    and [get_extensions] for that name then returns a table that has the
    object under its identifier. *)
Theorem register_then_get_extensions n (cls : pyval) (g : Registry) c (i : string) :
  _categories g !! n = Some c ->
  _get_class_name abspath (w_cwd (reg_world g)) cls = Ok i ->
  (forall j, j ∈ interfaces c -> is_implementation cls j = true) ->
  exists g' d,
    register abspath n cls g = (Ok (Some true), g')
    /\ get_extensions n g' = (Ok (Some d), g')
    /\ d !! KStr i = Some cls.
Proof.
  intros Hn Hid Hall. eexists. eexists.
  unfold register at 1. rewrite get_category_bind, Hn.
  unfold bind at 1. rewrite on_category_run. unfold after.
  rewrite (register_ok abspath cls (MkSt c (reg_world g)) i Hall Hid).
  cbn [fst snd self world]. unfold ret at 1. split; [done |].
  unfold get_extensions. rewrite get_category_bind. cbn [_categories].
  rewrite lookup_insert_eq. unfold bind at 1. rewrite on_category_run.
  unfold after, Category.get_extensions, attr, gets, ret.
  cbn [fst snd self world _categories reg_world]. rewrite insert_insert_eq.
  split; [done |]. unfold set_ids, set_classes. cbn [classes]. apply lookup_insert_eq.
Qed.

End registry_extras.

Lemma absent_category_answers_witness :
  get_category "nowhere" (MkRegistry ∅ Sample.w0) = (Ok None, MkRegistry ∅ Sample.w0)
  /\ get_extensions "nowhere" (MkRegistry ∅ Sample.w0)
     = (Ok None, MkRegistry ∅ Sample.w0)
  /\ get_default "nowhere" (MkRegistry ∅ Sample.w0)
     = (Ok PNone, MkRegistry ∅ Sample.w0)
  /\ get_instance "nowhere" (MkRegistry ∅ Sample.w0)
     = (Ok None, MkRegistry ∅ Sample.w0)
  /\ (forall args,
        get_and_instantiate Sample.construct "nowhere" args (MkRegistry ∅ Sample.w0)
        = (Ok None, MkRegistry ∅ Sample.w0))
  /\ (forall cls,
        set_default Sample.abspath "nowhere" cls (MkRegistry ∅ Sample.w0)
        = (Ok false, MkRegistry ∅ Sample.w0))
  /\ (forall id_,
        set_default_by_id Sample.abspath "nowhere" id_ (MkRegistry ∅ Sample.w0)
        = (Ok false, MkRegistry ∅ Sample.w0))
  /\ get_system_default "nowhere" (MkRegistry ∅ Sample.w0)
     = (Ok PNone, MkRegistry ∅ Sample.w0).
Proof.
  apply (absent_category_answers Sample.abspath Sample.construct "nowhere"
           (MkRegistry ∅ Sample.w0)).
  reflexivity.
Defined.


Lemma register_then_get_extensions_witness :
  exists g' d,
    register Sample.abspath "codec" (PCls Fixture.CodecSource)
      (MkRegistry {[ "codec" := self Fixture.codec ]} Sample.w0)
    = (Ok (Some true), g')
    /\ get_extensions "codec" g' = (Ok (Some d), g')
    /\ d !! KStr "/ext/codec.py:Codec" = Some (PCls Fixture.CodecSource).
Proof.
  apply (register_then_get_extensions Sample.abspath "codec" (PCls Fixture.CodecSource)
           (MkRegistry {[ "codec" := self Fixture.codec ]} Sample.w0)
           (self Fixture.codec) "/ext/codec.py:Codec").
  - apply lookup_singleton_eq.
  - reflexivity.
  - intros j Hj.
    assert (interfaces (self Fixture.codec) = [PCls Sample.IEncode]) as Hifs
      by (by vm_compute).
    rewrite Hifs in Hj. apply list_elem_of_singleton in Hj as ->. reflexivity.
Defined.

(** ** The fan-out proxy *)

Section fan_out_facts.

Variables S V : Type.
Variable print_ : exn -> M S unit.

(** What a turn of the loops can do: assign the value returned, or skip
    the object after printing, or let an exception through. *)
Lemma attempt_cases (op : V -> M S V) (name : key) (obj : V) (result : gmap key V)
    (s : S) :
  (exists r s', fst (op obj s) = Ok r
     /\ MultipleObjects.attempt S V print_ op name obj result s
        = (Ok (<[name := r]> result), s'))
  \/ (exists e s', fst (op obj s) = Raise e /\ is_exception e = true
        /\ fst (print_ e (snd (op obj s))) = Ok tt
        /\ MultipleObjects.attempt S V print_ op name obj result s = (Ok result, s'))
  \/ (exists e s', fst (op obj s) = Raise e /\ is_exception e = false
        /\ MultipleObjects.attempt S V print_ op name obj result s = (Raise e, s'))
  \/ (exists e e' s', fst (op obj s) = Raise e /\ is_exception e = true
        /\ fst (print_ e (snd (op obj s))) = Raise e'
        /\ MultipleObjects.attempt S V print_ op name obj result s = (Raise e', s')).
Proof.
  unfold MultipleObjects.attempt, MultipleObjects.try_print, bind, ret.
  destruct (op obj s) as [[r | e] s1]; cbn [fst snd].
  - left. by eauto.
  - destruct (is_exception e) eqn:He.
    + destruct (print_ e s1) as [[[] | e'] s2] eqn:Hp.
      * right; left. exists e, s2. by rewrite Hp.
      * right; right; right. exists e, e', s2. by rewrite Hp.
    + right; right; left. by exists e, s1.
Qed.

(** When the loop ends, every key of the result is a key of the proxy.  *)
Lemma each_item_keys (op : V -> M S V) (items : list (key * V))
    (result : gmap key V) (s : S) d s' :
  MultipleObjects.each_item S V print_ op items result s = (Ok d, s') ->
  forall k, is_Some (d !! k) -> is_Some (result !! k) \/ k ∈ items.*1.
Proof.
  revert result s. induction items as [| [name obj] rest IH]; intros result s Hrun k Hk.
  - cbn in Hrun. injection Hrun as <- _. by left.
  - cbn in Hrun. unfold bind in Hrun.
    destruct (attempt_cases op name obj result s)
      as [(r & s1 & _ & Ha) | [(e & s1 & _ & _ & _ & Ha)
          | [(e & s1 & _ & _ & Ha) | (e & e' & s1 & _ & _ & _ & Ha)]]];
      rewrite Ha in Hrun; [| | done | done].
    + destruct (IH _ _ Hrun k Hk) as [Hin | Hin].
      * apply lookup_insert_is_Some in Hin as [<- | [_ Hin]].
        -- right. apply list_elem_of_here.
        -- by left.
      * right. by apply list_elem_of_further.
    + destruct (IH _ _ Hrun k Hk) as [Hin | Hin]; [by left |].
      right. by apply list_elem_of_further.
Qed.

(** The loop ends when [print] returns and the operation raises nothing
    but exceptions derived from [Exception]. *)
Lemma each_item_returns (op : V -> M S V) (items : list (key * V))
    (result : gmap key V) (s : S) :
  (forall e s0, fst (print_ e s0) = Ok tt) ->
  (forall obj s0 e, fst (op obj s0) = Raise e -> is_exception e = true) ->
  exists d s', MultipleObjects.each_item S V print_ op items result s = (Ok d, s').
Proof.
  intros Hprint Hop. revert result s.
  induction items as [| [name obj] rest IH]; intros result s.
  - by exists result, s.
  - cbn. unfold bind.
    destruct (attempt_cases op name obj result s)
      as [(r & s1 & _ & ->) | [(e & s1 & _ & _ & _ & ->)
          | [(e & s1 & He & Hno & _) | (e & e' & s1 & _ & _ & He' & _)]]].
    + apply IH.
    + apply IH.
    + rewrite (Hop obj s e He) in Hno. done.
    + rewrite Hprint in He'. done.
Qed.

Lemma each_item_lookup (op : V -> M S V) (r : V -> res V)
    (items : list (key * V)) (result : gmap key V) (s : S) d s' :
  (forall v s0, fst (op v s0) = r v) ->
  NoDup items.*1 ->
  MultipleObjects.each_item S V print_ op items result s = (Ok d, s') ->
  forall k,
    d !! k = match (list_to_map items : gmap key V) !! k with
             | Some v => match r v with
                         | Ok w => Some w
                         | Raise _ => result !! k
                         end
             | None => result !! k
             end.
Proof.
  intros Hpure. revert result s.
  induction items as [| [name obj] rest IH]; intros result s Hnd Hrun k.
  - cbn in Hrun. injection Hrun as <- _.
    change (list_to_map [] : gmap key V) with (∅ : gmap key V).
    by rewrite lookup_empty.
  - cbn in Hnd. apply NoDup_cons in Hnd as [Hname Hnd].
    cbn in Hrun. unfold bind in Hrun.
    assert ((list_to_map rest : gmap key V) !! name = None) as Hfresh
      by (by apply not_elem_of_list_to_map_1).
    change (list_to_map ((name, obj) :: rest) : gmap key V)
      with (<[name := obj]> (list_to_map rest : gmap key V)).
    destruct (attempt_cases op name obj result s)
      as [(w & s1 & Hr & Ha) | [(e & s1 & Hr & _ & _ & Ha)
          | [(e & s1 & _ & _ & Ha) | (e & e' & s1 & _ & _ & _ & Ha)]]];
      rewrite Ha in Hrun; [| | done | done]; rewrite Hpure in Hr.
    + rewrite (IH _ _ Hnd Hrun k).
      destruct (decide (name = k)) as [<- | Hne].
      * rewrite Hfresh, !lookup_insert_eq. by rewrite Hr.
      * by rewrite !lookup_insert_ne.
    + rewrite (IH _ _ Hnd Hrun k).
      destruct (decide (name = k)) as [<- | Hne].
      * rewrite Hfresh, lookup_insert_eq. by rewrite Hr.
      * by rewrite lookup_insert_ne.
Qed.


Lemma fan_out_returns (op : V -> M S V) (self : MultipleObjects.t V) (s : S) :
  (forall e s0, fst (print_ e s0) = Ok tt) ->
  (forall obj s0 e, fst (op obj s0) = Raise e -> is_exception e = true) ->
  exists view s',
    MultipleObjects.fan_out S V print_ op self s = (Ok view, s')
    /\ forall k, is_Some (MultipleObjects.objects V view !! k) ->
                 is_Some (MultipleObjects.objects V self !! k).
Proof.
  intros Hprint Hop. unfold MultipleObjects.fan_out, bind, ret.
  destruct (each_item_returns op (map_to_list (MultipleObjects.objects V self)) ∅ s
              Hprint Hop) as (d & s' & Hrun).
  rewrite Hrun. eexists _, s'. split; [done |]. cbn. intros k Hk.
  destruct (each_item_keys op _ _ _ _ _ Hrun k Hk) as [Hin | Hin].
  - rewrite lookup_empty in Hin. by destruct Hin.
  - apply list_elem_of_fmap in Hin as ([k' v] & -> & Hin).
    apply elem_of_map_to_list in Hin. by eexists.
Qed.

Variable getattr_ : V -> string -> M S V.
Variable getitem_ : V -> V -> M S V.
Variable setitem_ : V -> V -> V -> M S unit.
Variable call_ : V -> list V -> M S V.


(** X26: when what the operation does to an object does not depend on the
    state, the proxy returned holds exactly the objects whose operation
    returned, each under its key with the value returned; the objects whose
    operation raised are left out. *)
Theorem proxy_keeps_the_successes (op : V -> M S V) (r : V -> res V)
    (self view : MultipleObjects.t V) (s s' : S) :
  (forall v s0, fst (op v s0) = r v) ->
  MultipleObjects.fan_out S V print_ op self s = (Ok view, s') ->
  forall k,
    MultipleObjects.objects V view !! k
    = match MultipleObjects.objects V self !! k with
      | Some v => match r v with
                  | Ok w => Some w
                  | Raise _ => None
                  end
      | None => None
      end.
Proof.
  intros Hpure Hrun k. unfold MultipleObjects.fan_out, bind, ret in Hrun.
  destruct (MultipleObjects.each_item S V print_ op
              (map_to_list (MultipleObjects.objects V self)) ∅ s)
    as [[d | e] s1] eqn:Hloop; [| done].
  injection Hrun as <- <-. cbn.
  rewrite (each_item_lookup op r _ _ _ _ _ Hpure
             (NoDup_fst_map_to_list _) Hloop k).
  rewrite list_to_map_to_list, lookup_empty.
  destruct (MultipleObjects.objects V self !! k) as [v |]; [| done].
  by destruct (r v).
Qed.

End fan_out_facts.

Lemma fan_out_eq {S V} (print_ : exn -> M S unit) (op : V -> M S V)
    (self : MultipleObjects.t V) (s : S) :
  (forall e s0, fst (print_ e s0) = Ok tt) ->
  (forall obj s0 e, fst (op obj s0) = Raise e -> is_exception e = true) ->
  MultipleObjects.fan_out S V print_ op self s
  = (Ok match fst (MultipleObjects.fan_out S V print_ op self s) with
        | Ok view => view
        | Raise _ => self
        end,
     snd (MultipleObjects.fan_out S V print_ op self s)).
Proof.
  intros Hprint Hop.
  destruct (fan_out_returns S V print_ op self s Hprint Hop) as (view & s' & -> & _).
  done.
Qed.

Lemma getattr__raises (obj : pyval) (attr : string) (out : list exn) (e : exn) :
  fst (Fixture.getattr_ obj attr out) = Raise e -> is_exception e = true.
Proof.
  unfold Fixture.getattr_. cbn. destruct (hasattr obj attr); [done |].
  by intros [= <-].
Qed.

Lemma proxy_keeps_the_successes_witness :
  let proxy := MultipleObjects.Mk pyval {[ KStr "plain" := PCls Sample.Plain ]} in
  MultipleObjects.objects pyval
    match fst (MultipleObjects.__getattr__ (list exn) pyval Fixture.printed
                 Fixture.getattr_ proxy "encode" []) with
    | Ok view => view
    | Raise _ => proxy
    end !! KStr "plain"
  = match MultipleObjects.objects pyval proxy !! KStr "plain" with
    | Some v => match fst (Fixture.getattr_ v "encode" []) with
                | Ok w => Some w
                | Raise _ => None
                end
    | None => None
    end.
Proof.
  cbv zeta.
  apply (proxy_keeps_the_successes (list exn) pyval Fixture.printed
           (fun obj => Fixture.getattr_ obj "encode")
           (fun obj => fst (Fixture.getattr_ obj "encode" []))
           (MultipleObjects.Mk pyval {[ KStr "plain" := PCls Sample.Plain ]})
           _ []
           (snd (MultipleObjects.__getattr__ (list exn) pyval Fixture.printed
                   Fixture.getattr_
                   (MultipleObjects.Mk pyval {[ KStr "plain" := PCls Sample.Plain ]})
                   "encode" []))).
  - intros v s0. reflexivity.
  - apply (fan_out_eq Fixture.printed (fun obj => Fixture.getattr_ obj "encode")).
    + intros e s0. reflexivity.
    + intros obj s0 e. apply getattr__raises.
Defined.

(** ** The remaining properties, on the samples *)

Lemma register_returns_iff_witness :
  (fst (Category.register Sample.abspath (PCls Sample.Plain) Fixture.codec) = Ok tt <->
     (exists i, _get_class_name Sample.abspath (getcwd Fixture.codec)
                  (PCls Sample.Plain) = Ok i)
     /\ forall j, j ∈ interfaces (self Fixture.codec) ->
                  is_implementation (PCls Sample.Plain) j = true)
  /\ (forall s',
        Category.register Sample.abspath (PCls Sample.Plain) Fixture.codec = (Ok tt, s') ->
        exists i,
          _get_class_name Sample.abspath (getcwd Fixture.codec) (PCls Sample.Plain) = Ok i
          /\ classes (self s') !! KStr i = Some (PCls Sample.Plain)
          /\ ids (self s') !! PCls Sample.Plain = Some i
          /\ (forall k, k <> KStr i ->
                classes (self s') !! k = classes (self Fixture.codec) !! k)
          /\ (forall v, v <> PCls Sample.Plain ->
                ids (self s') !! v = ids (self Fixture.codec) !! v)
          /\ interfaces (self s') = interfaces (self Fixture.codec)
          /\ default_id (self s') = default_id (self Fixture.codec)
          /\ instance (self s') = instance (self Fixture.codec)
          /\ world s' = world Fixture.codec).
Proof.
  exact (register_returns_iff Sample.abspath (PCls Sample.Plain) Fixture.codec).
Defined.


Lemma constructor_returns_iff_witness :
  ((exists c,
      Category.__init__ Sample.abspath "codec" (PCls Sample.Plain)
        (Some [PCls Sample.IEncode]) false Sample.w0 = (Ok c, Sample.w0)) <->
     (exists i, _get_class_name Sample.abspath (w_cwd Sample.w0) (PCls Sample.Plain)
                = Ok i)
     /\ forall j, j ∈ default [] (Some [PCls Sample.IEncode]) ->
                  is_implementation (PCls Sample.Plain) j = true)
  /\ (forall e w',
        Category.__init__ Sample.abspath "codec" (PCls Sample.Plain)
          (Some [PCls Sample.IEncode]) false Sample.w0 = (Raise e, w') ->
        w' = Sample.w0)
  /\ exists e,
       Category.__init__ Sample.abspath "codec" PNone (Some [PCls Sample.IEncode])
         false Sample.w0 = (Raise e, Sample.w0).
Proof.
  exact (constructor_returns_iff Sample.abspath "codec" (PCls Sample.Plain)
           (Some [PCls Sample.IEncode]) false Sample.w0).
Defined.

Lemma raising_registration_keeps_registry_witness :
  (forall e g',
     register Sample.abspath "codec" (PCls Sample.Plain)
       (MkRegistry {[ "codec" := self Fixture.codec ]} Sample.w0) = (Raise e, g') ->
     g' = MkRegistry {[ "codec" := self Fixture.codec ]} Sample.w0)
  /\ (forall e g',
        set_default Sample.abspath "codec" (PCls Sample.Plain)
          (MkRegistry {[ "codec" := self Fixture.codec ]} Sample.w0) = (Raise e, g') ->
        g' = MkRegistry {[ "codec" := self Fixture.codec ]} Sample.w0).
Proof.
  exact (raising_registration_keeps_registry Sample.abspath "codec" (PCls Sample.Plain)
           (MkRegistry {[ "codec" := self Fixture.codec ]} Sample.w0)).
Defined.

Lemma registry_grows_and_isolates_witness :
  (is_Some (_categories (MkRegistry {[ "codec" := self Fixture.codec ]} Sample.w0)
              !! "codec") ->
   is_Some (_categories
              (serve_all Sample.abspath Sample.construct
                 [RegisterExtension "icons" (PCls Sample.Plain);
                  SetDefaultOf "icons" (PCls Sample.Codec);
                  GetAndInstantiateOf "icons" []]
                 (MkRegistry {[ "codec" := self Fixture.codec ]} Sample.w0))
              !! "codec"))
  /\ ((forall r,
         r ∈ [RegisterExtension "icons" (PCls Sample.Plain);
              SetDefaultOf "icons" (PCls Sample.Codec);
              GetAndInstantiateOf "icons" []] ->
         target r <> Some "codec") ->
      _categories
        (serve_all Sample.abspath Sample.construct
           [RegisterExtension "icons" (PCls Sample.Plain);
            SetDefaultOf "icons" (PCls Sample.Codec);
            GetAndInstantiateOf "icons" []]
           (MkRegistry {[ "codec" := self Fixture.codec ]} Sample.w0)) !! "codec"
      = _categories (MkRegistry {[ "codec" := self Fixture.codec ]} Sample.w0)
          !! "codec").
Proof.
  exact (registry_grows_and_isolates Sample.abspath Sample.construct
           [RegisterExtension "icons" (PCls Sample.Plain);
            SetDefaultOf "icons" (PCls Sample.Codec);
            GetAndInstantiateOf "icons" []]
           (MkRegistry {[ "codec" := self Fixture.codec ]} Sample.w0) "codec").
Defined.

Lemma registry_defaults_resolve_witness :
  (forall c,
     _categories
       (serve_all Sample.abspath Sample.construct
          [RegisterExtension "icons" (PCls Sample.Plain);
           CategoryRegister "codec" (PCls Sample.Codec)
             (Single (PCls Sample.IEncode)) false;
           SetDefaultByIdOf "icons" (KStr "nowhere")]
          (MkRegistry ∅ Sample.w0)) !! "icons" = Some c ->
     name c = "icons"
     /\ exists v i,
          classes c !! KStr i = Some v
          /\ fst (get_default "icons"
                    (serve_all Sample.abspath Sample.construct
                       [RegisterExtension "icons" (PCls Sample.Plain);
                        CategoryRegister "codec" (PCls Sample.Codec)
                          (Single (PCls Sample.IEncode)) false;
                        SetDefaultByIdOf "icons" (KStr "nowhere")]
                       (MkRegistry ∅ Sample.w0))) = Ok v)
  /\ (_categories
        (serve_all Sample.abspath Sample.construct
           [RegisterExtension "icons" (PCls Sample.Plain);
            CategoryRegister "codec" (PCls Sample.Codec)
              (Single (PCls Sample.IEncode)) false;
            SetDefaultByIdOf "icons" (KStr "nowhere")]
           (MkRegistry ∅ Sample.w0)) !! "icons" = None ->
      fst (get_default "icons"
             (serve_all Sample.abspath Sample.construct
                [RegisterExtension "icons" (PCls Sample.Plain);
                 CategoryRegister "codec" (PCls Sample.Codec)
                   (Single (PCls Sample.IEncode)) false;
                 SetDefaultByIdOf "icons" (KStr "nowhere")]
                (MkRegistry ∅ Sample.w0))) = Ok PNone).
Proof.
  apply (registry_defaults_resolve Sample.abspath Sample.construct
           [RegisterExtension "icons" (PCls Sample.Plain);
            CategoryRegister "codec" (PCls Sample.Codec)
              (Single (PCls Sample.IEncode)) false;
            SetDefaultByIdOf "icons" (KStr "nowhere")]
           Sample.w0 "icons").
  repeat (apply List.Forall_cons; [discriminate |]). apply List.Forall_nil.
Defined.

